(** * ExpenseTracker: the ledger, its aggregations and the CSV interchange

    A shallow embedding of [expensetracker.py].  The script keeps one
    DataFrame of expenses and a monthly budget in the Streamlit session
    state; every helper reads and writes that state and reports through
    [st.success], [st.error], [st.warning] and friends.  Here

    - a DataFrame is its column names and its rows of cells;
    - a helper is a computation in a small monad that threads the
      session state, collects what is rendered and may raise;
    - the pandas, requests and Streamlit calls of the script are modelled
      by what they do to those values.

    Amounts are exact rationals: the rounding of binary floating point is
    not part of the model. *)

From Stdlib Require Import List String Ascii ZArith QArith Qabs Bool Lia Permutation.
From Stdlib Require Import DecimalString.
Import ListNotations.
Local Open Scope string_scope.
Local Open Scope list_scope.

Set Implicit Arguments.

(* ===================================================================== *)
(** * Values held by a DataFrame *)
(* ===================================================================== *)

(** A calendar day, as [st.date_input] yields and as [pd.to_datetime]
    produces at day resolution. *)
Record date := mkdate { year : Z; month : Z; day : Z }.

(** One cell of a DataFrame: a missing value ([NaN], [NaT]), a number, a
    text, a boolean or a date. *)
Inductive cell :=
| NaN
| Float (q : Q)
| Text (s : string)
| Flag (b : bool)
| Timestamp (d : date).

(** [pd.DataFrame]: the column labels in order, and the rows in order. *)
Record DataFrame := mkframe { columns : list string; rows : list (list cell) }.

(** Exceptions the modelled calls can raise. *)
Inductive requests_exn :=
| ConnectionError | ProxyError | SSLError | ConnectTimeout
| ReadTimeout | TooManyRedirects | HTTPError.

Inductive exn :=
| KeyError (label : string)
| ValueError
| TypeError
| ZeroDivisionError
| EmptyDataError
| ParserError
| StreamlitAPIException
| RequestsError (e : requests_exn).

Inductive result (A : Type) :=
| Ok (a : A)
| Raise (e : exn).
Arguments Ok {A} a.
Arguments Raise {A} e.

Definition rbind {A B} (r : result A) (k : A -> result B) : result B :=
  match r with
  | Ok a => k a
  | Raise e => Raise e
  end.

Fixpoint rmap {A B} (f : A -> result B) (l : list A) : result (list B) :=
  match l with
  | [] => Ok []
  | x :: xs => rbind (f x) (fun y => rbind (rmap f xs) (fun ys => Ok (y :: ys)))
  end.

(** A CSV file after tokenizing: the header record and the data records,
    each a list of fields.  Quoting, separators and line ends belong to
    the csv tokenizer and are not modelled. *)
Definition csv_file := list (list string).

(* ===================================================================== *)
(** * Text of dates and numbers *)
(* ===================================================================== *)

Definition string_of_N (n : N) : string := NilEmpty.string_of_uint (N.to_uint n).

(** [%02d], [%04d] *)
Definition zero_pad (width : nat) (s : string) : string :=
  append (string_of_list_ascii (repeat "0"%char (width - String.length s))) s.

(** [str(date)]: YYYY-MM-DD. *)
Definition isoformat (d : date) : string :=
  zero_pad 4 (string_of_N (Z.to_N (year d))) ++ "-" ++
  zero_pad 2 (string_of_N (Z.to_N (month d))) ++ "-" ++
  zero_pad 2 (string_of_N (Z.to_N (day d))).

Definition is_digit (c : ascii) : bool :=
  let n := nat_of_ascii c in ((48 <=? n) && (n <=? 57))%nat.

Definition digit_value (c : ascii) : Z := Z.of_nat (nat_of_ascii c - 48).

(** The value of a string of digits, [None] if the string is empty or has
    another character. *)
Fixpoint digits_value (acc : Z) (seen : bool) (s : string) : option Z :=
  match s with
  | EmptyString => if seen then Some acc else None
  | String c s' =>
      if is_digit c then digits_value (10 * acc + digit_value c) true s' else None
  end.

Definition is_leap (y : Z) : bool :=
  ((y mod 4 =? 0) && negb (y mod 100 =? 0) || (y mod 400 =? 0))%Z.

Definition days_in_month (y m : Z) : Z :=
  if (m =? 2)%Z then (if is_leap y then 29 else 28)%Z
  else if ((m =? 4) || (m =? 6) || (m =? 9) || (m =? 11))%Z then 30%Z
  else 31%Z.

(** A strict reader of YYYY-MM-DD, the instance of the date parser used
    on concrete ledgers. *)
Definition parse_iso_date (s : string) : option date :=
  if negb (String.length s =? 10)%nat then None
  else if negb (String.eqb (substring 4 1 s) "-" && String.eqb (substring 7 1 s) "-") then None
  else
    match digits_value 0 false (substring 0 4 s),
          digits_value 0 false (substring 5 2 s),
          digits_value 0 false (substring 8 2 s) with
    | Some y, Some m, Some d =>
        if ((1 <=? m) && (m <=? 12) && (1 <=? d) && (d <=? days_in_month y m))%Z
        then Some (mkdate y m d) else None
    | _, _, _ => None
    end.

(** Fraction digits of [num/den] (with [0 <= num < den]), at most [fuel]
    of them, stopping when the remainder is zero. *)
Fixpoint fraction_digits (fuel : nat) (num den : Z) : string :=
  match fuel with
  | O => EmptyString
  | S k =>
      if (num =? 0)%Z then EmptyString
      else
        let n10 := (10 * num)%Z in
        append (string_of_N (Z.to_N (n10 / den))) (fraction_digits k (n10 mod den) den)
  end.

(** The decimal text of a number whose decimal expansion is short, as
    [repr] prints such a float: [15.75], [7.8], [5.0], [-2.5]. *)
Definition decimal_repr (q : Q) : string :=
  let n := Z.abs (Qnum q) in
  let d := Zpos (Qden q) in
  let frac := fraction_digits 17 (n mod d) d in
  append (if (Qnum q <? 0)%Z then "-" else "")
    (append (string_of_N (Z.to_N (n / d)))
       (append "." (if String.eqb frac "" then "0" else frac))).

(** Splits a string at the first occurrence of a character. *)
Fixpoint split_at (c : ascii) (s : string) : string * option string :=
  match s with
  | EmptyString => (EmptyString, None)
  | String a s' =>
      if Ascii.eqb a c then (EmptyString, Some s')
      else let (l, r) := split_at c s' in (String a l, r)
  end.

(** A reader of plain decimal literals: an optional minus sign, digits,
    optionally a point and more digits. *)
Definition parse_decimal (s : string) : option Q :=
  let (neg, body) :=
    match s with
    | String "-"%char s' => (true, s')
    | _ => (false, s)
    end in
  let (ip, rest) := split_at "."%char body in
  match digits_value 0 false ip with
  | None => None
  | Some i =>
      let sign := if neg then (-1)%Z else 1%Z in
      match rest with
      | None => Some (Qred (inject_Z (sign * i)))
      | Some fp =>
          match fp with
          | EmptyString => Some (Qred (inject_Z (sign * i)))
          | _ =>
              match digits_value 0 false fp with
              | None => None
              | Some f =>
                  let scale := Pos.pow 10 (Pos.of_nat (String.length fp)) in
                  Some (Qred (Qmake (sign * (i * Zpos scale + f)) scale))
              end
          end
      end
  end.

(* ===================================================================== *)
(** * The pandas calls of the script *)
(* ===================================================================== *)

(** What the model takes from pandas and Python without fixing it:
    - [to_datetime_scalar col c]: the day [pd.to_datetime(col,
      errors="coerce")] gives for the text or number [c] of the column
      [col] ([None] for [NaT]); the column is an argument because pandas
      may infer one format for the whole column;
    - [float_repr q]: the text [to_csv] writes for the number [q];
    - [parse_float f]: the number [read_csv] reads from the field [f], when
      the field is a numeric literal. *)
Record pandas := mkpandas {
  to_datetime_scalar : list cell -> cell -> option date;
  float_repr : Q -> string;
  parse_float : string -> option Q
}.

(** The instance used on concrete ledgers: ISO dates and plain decimals. *)
Definition iso_pandas : pandas :=
  mkpandas
    (fun _ c => match c with Text s => parse_iso_date s | _ => None end)
    decimal_repr
    parse_decimal.

Definition date_eqb (a b : date) : bool :=
  ((year a =? year b) && (month a =? month b) && (day a =? day b))%Z.

Definition date_leb (a b : date) : bool :=
  ((year a <? year b) ||
   ((year a =? year b) &&
    ((month a <? month b) || ((month a =? month b) && (day a <=? day b)))))%Z.

(** [==] on the values of a column. *)
Definition cell_eqb (a b : cell) : bool :=
  match a, b with
  | NaN, NaN => true
  | Float p, Float q => Qeq_bool p q
  | Text s, Text t => String.eqb s t
  | Flag x, Flag y => Bool.eqb x y
  | Timestamp d, Timestamp e => date_eqb d e
  | _, _ => false
  end.

Definition rank (c : cell) : nat :=
  match c with
  | NaN => 0 | Flag _ => 1 | Float _ => 2 | Text _ => 3 | Timestamp _ => 4
  end.

(** The order in which group keys and sorted values come out; values of
    one kind are compared by value. *)
Definition cell_leb (a b : cell) : bool :=
  match a, b with
  | Float p, Float q => Qle_bool p q
  | Text s, Text t => String.leb s t
  | Flag x, Flag y => implb x y
  | Timestamp d, Timestamp e => date_leb d e
  | _, _ => (rank a <=? rank b)%nat
  end.

Definition notna (c : cell) : bool :=
  match c with NaN => false | _ => true end.

Fixpoint index_of (label : string) (cols : list string) : option nat :=
  match cols with
  | [] => None
  | c :: cs =>
      if String.eqb c label then Some O
      else match index_of label cs with
           | Some i => Some (S i)
           | None => None
           end
  end.

Fixpoint replace_nth {A} (i : nat) (x : A) (l : list A) : list A :=
  match l, i with
  | [], _ => []
  | _ :: t, O => x :: t
  | h :: t, S j => h :: replace_nth j x t
  end.

(** [df[label]] *)
Definition getitem (df : DataFrame) (label : string) : result (list cell) :=
  match index_of label (columns df) with
  | Some i => Ok (map (fun r => nth i r NaN) (rows df))
  | None => Raise (KeyError label)
  end.

(** [df[label] = values], for a frame that has the column and as many
    values as rows. *)
Definition setitem (df : DataFrame) (label : string) (values : list cell) : DataFrame :=
  match index_of label (columns df) with
  | Some i =>
      mkframe (columns df)
        (map (fun rv => replace_nth i (snd rv) (fst rv)) (combine (rows df) values))
  | None =>
      mkframe (columns df ++ [label])
        (map (fun rv => fst rv ++ [snd rv]) (combine (rows df) values))
  end.

(** [df.empty]: no column or no row. *)
Definition empty (df : DataFrame) : bool :=
  ((List.length (columns df) =? 0) || (List.length (rows df) =? 0))%nat.

(** [df.shape[0]] *)
Definition shape0 (df : DataFrame) : nat := List.length (rows df).

(** [df[mask]] *)
Definition select (df : DataFrame) (mask : list bool) : DataFrame :=
  mkframe (columns df)
    (map fst (filter snd (combine (rows df) mask))).

(** The number a cell counts for in a sum: missing values are skipped,
    booleans count as 0 and 1, text and dates do not add up to a number.
    (A column that holds texts only is joined by pandas into one text,
    which the script then fails to format as a number; that case is taken
    as the same failure here.) *)
Definition as_number (c : cell) : result Q :=
  match c with
  | NaN => Ok 0%Q
  | Float q => Ok q
  | Flag b => Ok (if b then 1%Q else 0%Q)
  | Text _ | Timestamp _ => Raise TypeError
  end.

Definition Qsum (l : list Q) : Q := fold_right Qplus 0%Q l.

(** [series.sum()], in exact arithmetic. *)
Definition series_sum (s : list cell) : result Q :=
  rbind (rmap as_number s) (fun qs => Ok (Qsum qs)).

Fixpoint dedup (l : list cell) : list cell :=
  match l with
  | [] => []
  | x :: xs => x :: filter (fun y => negb (cell_eqb y x)) (dedup xs)
  end.

Fixpoint insert_sorted (x : cell) (l : list cell) : list cell :=
  match l with
  | [] => [x]
  | y :: ys => if cell_leb x y then x :: l else y :: insert_sorted x ys
  end.

Definition sort_cells (l : list cell) : list cell :=
  fold_right insert_sorted [] l.

(** [series.nunique()]: the distinct values, missing ones left out. *)
Definition nunique (s : list cell) : nat := List.length (dedup (filter notna s)).

(** The keys of [groupby]: the distinct values of the key column in
    order, rows with a missing key left out. *)
Definition group_keys (keys : list cell) : list cell :=
  sort_cells (dedup (filter notna keys)).

Definition group_total (k : cell) (kvs : list (cell * Q)) : Q :=
  Qsum (map snd (filter (fun kv => cell_eqb (fst kv) k) kvs)).

(** [df.groupby(key, as_index=False)[value].sum()], as the list of its
    rows (key, sum). *)
Definition groupby_sum (keys values : list cell) : result (list (cell * Q)) :=
  rbind (rmap as_number values) (fun qs =>
    Ok (map (fun k => (k, group_total k (combine keys qs))) (group_keys keys))).

Fixpoint insert_by_key (x : cell * Q) (l : list (cell * Q)) : list (cell * Q) :=
  match l with
  | [] => [x]
  | y :: ys => if cell_leb (fst x) (fst y) then x :: l else y :: insert_by_key x ys
  end.

(** [frame.sort_values(key)] on the rows of a grouped frame. *)
Definition sort_values (l : list (cell * Q)) : list (cell * Q) :=
  fold_right insert_by_key [] l.

(** [pd.api.types.is_datetime64_any_dtype]: every value is a date or is
    missing.  A column of date objects is not told apart from a datetime
    column; coercing it changes none of its values. *)
Definition is_datetime64_any_dtype (s : list cell) : bool :=
  forallb (fun c => match c with Timestamp _ | NaN => true | _ => false end) s.

Definition is_some {A} (o : option A) : bool :=
  match o with Some _ => true | None => false end.

Definition na_values : list string :=
  [""; "#N/A"; "#N/A N/A"; "#NA"; "-1.#IND"; "-1.#QNAN"; "-NaN"; "-nan";
   "1.#IND"; "1.#QNAN"; "<NA>"; "N/A"; "NA"; "NULL"; "NaN"; "None"; "n/a";
   "nan"; "null"].

Definition is_na (f : string) : bool := existsb (String.eqb f) na_values.

Definition is_true_literal (f : string) : bool :=
  existsb (String.eqb f) ["True"; "TRUE"; "true"].

Definition is_false_literal (f : string) : bool :=
  existsb (String.eqb f) ["False"; "FALSE"; "false"].

Inductive dtype := float64 | bool_ | object_.

Definition pad (n : nat) (r : list string) : list string :=
  r ++ repeat "" (n - List.length r).

Section Pandas.

Variable pd : pandas.

(** What [pd.to_datetime(col, errors="coerce")] makes of one value of
    [col]: dates and missing values stay, text and numbers are read or
    become [NaT], and so does a boolean, which is not convertible. *)
Definition to_datetime_cell (col : list cell) (c : cell) : result cell :=
  match c with
  | Timestamp d => Ok (Timestamp d)
  | NaN => Ok NaN
  | Flag _ => Ok NaN
  | Float _ | Text _ =>
      Ok (match to_datetime_scalar pd col c with
          | Some d => Timestamp d
          | None => NaN
          end)
  end.

(** [pd.to_datetime(series, errors="coerce")] *)
Definition to_datetime (s : list cell) : result (list cell) :=
  rmap (to_datetime_cell s) s.

(** The text of a cell in [to_csv]; a missing value is written empty. *)
Definition render (c : cell) : string :=
  match c with
  | NaN => ""
  | Float q => float_repr pd q
  | Text s => s
  | Flag true => "True"
  | Flag false => "False"
  | Timestamp d => isoformat d
  end.

(** [df.to_csv(index=False)]: the header, then one record per row. *)
Definition to_csv (df : DataFrame) : csv_file :=
  columns df :: map (map render) (rows df).

(** The type [read_csv] gives a column: numbers if every field that is
    not a missing-value marker reads as a number, else booleans if every
    such field is a boolean literal, else text. *)
Definition infer_dtype (fields : list string) : dtype :=
  if forallb (fun f => is_na f || is_some (parse_float pd f)) fields then float64
  else if forallb (fun f => is_na f || is_true_literal f || is_false_literal f) fields
       then bool_
       else object_.

Definition convert (t : dtype) (f : string) : cell :=
  if is_na f then NaN
  else match t with
       | float64 => match parse_float pd f with Some q => Float q | None => NaN end
       | bool_ => Flag (is_true_literal f)
       | object_ => Text f
       end.

(** The number of fields the tokenizer expects in every record: the
    header's, unless the first record has more. *)
Definition table_width (n : nat) (records : list (list string)) : nat :=
  match records with
  | [] => n
  | first :: _ => Nat.max n (List.length first)
  end.

(** [pd.read_csv(file)].  A file without header has no columns to
    parse.  The first record may be longer than the header: its extra
    leading fields, and those of every later record, then become the row
    labels, which nothing in the script reads and the frame here does not
    keep.  A later record with more fields than that is rejected; short
    records are filled with missing values.  The renaming pandas applies
    to blank or repeated header names is not modelled. *)
Definition read_csv (f : csv_file) : result DataFrame :=
  match f with
  | [] => Raise EmptyDataError
  | header :: records =>
      let n := List.length header in
      let width := table_width n records in
      if (n =? 0)%nat then Raise EmptyDataError
      else if existsb (fun r => (width <? List.length r)%nat) records
      then Raise ParserError
      else
        let table := map (fun r => skipn (width - n) (pad width r)) records in
        let dtypes :=
          map (fun i => infer_dtype (map (fun r => nth i r "") table)) (seq 0 n) in
        Ok (mkframe header
              (map (fun r => map (fun tf => convert (fst tf) (snd tf)) (combine dtypes r))
                   table))
  end.

End Pandas.

(* ===================================================================== *)
(** * Session state and the script monad *)
(* ===================================================================== *)

(** [st.session_state], with the keys the script sets on its first run. *)
Record session_state := mkstate {
  expenses : DataFrame;
  monthly_budget : Q;
  profile_image : string;
  banner_image : string
}.

(** What a run hands to Streamlit or to the file system. *)
Inductive element :=
| st_success (msg : string)
| st_error (msg : string)
| st_warning (msg : string)
| st_info (msg : string)
| offline_banner
| st_image (img : string)
| st_dataframe (df : DataFrame)
| metric_card (title : string) (value : Q)
| budget_card (budget used : Q)
| st_progress (value : Q)
| bar_chart (fig : list (cell * Q))
| line_chart (fig : list (cell * Q))
| st_download_button (label : string) (data : csv_file) (file_name mime : string)
| file_written (path : string) (data : csv_file).

(** A step of the script: it may raise, it leaves a session state (also
    when it raises, since the state is changed in place) and the
    elements rendered so far. *)
Definition app (A : Type) : Type :=
  session_state -> result A * session_state * list element.

Definition ret {A} (a : A) : app A := fun s => (Ok a, s, []).

Definition bind {A B} (m : app A) (k : A -> app B) : app B :=
  fun s =>
    match m s with
    | (Ok a, s1, out1) =>
        match k a s1 with
        | (r, s2, out2) => (r, s2, out1 ++ out2)
        end
    | (Raise e, s1, out1) => (Raise e, s1, out1)
    end.

Notation "x <- m ;; k" := (bind m (fun x => k))
  (at level 61, m at next level, right associativity).
Notation "m ;; k" := (bind m (fun _ => k))
  (at level 61, right associativity).

Definition get : app session_state := fun s => (Ok s, s, []).

Definition emit (e : element) : app unit := fun s => (Ok tt, s, [e]).

Definition lift {A} (r : result A) : app A := fun s => (r, s, []).

(** [st.session_state.expenses = df] *)
Definition set_expenses (df : DataFrame) : app unit :=
  fun s => (Ok tt, mkstate df (monthly_budget s) (profile_image s) (banner_image s), []).

(** [st.session_state.monthly_budget = b] *)
Definition set_monthly_budget (b : Q) : app unit :=
  fun s => (Ok tt, mkstate (expenses s) b (profile_image s) (banner_image s), []).

Definition set_profile_image (img : string) : app unit :=
  fun s => (Ok tt, mkstate (expenses s) (monthly_budget s) img (banner_image s), []).

Definition set_banner_image (img : string) : app unit :=
  fun s => (Ok tt, mkstate (expenses s) (monthly_budget s) (profile_image s) img, []).

(** The state a run leaves, its outcome and what it rendered. *)
Definition state_after {A} (x : result A * session_state * list element) : session_state :=
  snd (fst x).
Definition outcome {A} (x : result A * session_state * list element) : result A :=
  fst (fst x).
Definition rendered {A} (x : result A * session_state * list element) : list element :=
  snd x.

(* ===================================================================== *)
(** * The script *)
(* ===================================================================== *)

(** What [requests.get] does: it answers or it raises. *)
Inductive get_outcome :=
| Response
| Fails (e : requests_exn).

(** [issubclass(e, requests.ConnectionError)] *)
Definition is_ConnectionError (e : requests_exn) : bool :=
  match e with
  | ConnectionError | ProxyError | SSLError | ConnectTimeout => true
  | ReadTimeout | TooManyRedirects | HTTPError => false
  end.

Definition check_internet (get_google : get_outcome) : result bool :=
  match get_google with
  | Response => Ok true
  | Fails e => if is_ConnectionError e then Ok false else Raise (RequestsError e)
  end.

Definition required_cols : list string := ["Date"; "Category"; "Amount"; "Description"].

(** [pd.DataFrame(columns=["Date", "Category", "Amount", "Description"])] *)
Definition empty_expenses : DataFrame := mkframe required_cols [].

Definition default_profile : string :=
  "https://upload.wikimedia.org/wikipedia/commons/5/50/Emoji_u1f600.svg".
Definition default_banner : string :=
  "https://via.placeholder.com/800x200.png?text=Expense+Tracker".

(** The session state after the first run's defaults. *)
Definition initial_session : session_state :=
  mkstate empty_expenses 1000 default_profile default_banner.

(** [required_cols.issubset(df.columns)] *)
Definition issubset (small big : list string) : bool :=
  forallb (fun c => existsb (String.eqb c) big) small.

(** [pd.DataFrame([values], columns=cols)] *)
Definition one_row_frame (values : list cell) (cols : list string) : result DataFrame :=
  if (List.length values =? List.length cols)%nat then Ok (mkframe cols [values])
  else Raise ValueError.

(** [pd.concat([a, b], ignore_index=True)] for frames with the same
    columns. *)
Definition concat (a b : DataFrame) : DataFrame :=
  mkframe (columns a) (rows a ++ rows b).

Definition missing_columns_msg : string :=
  "CSV file missing required columns: Date, Category, Amount, Description.".

(** [a / b] *)
Definition true_divide (a b : Q) : result Q :=
  if Qeq_bool b 0 then Raise ZeroDivisionError else Ok (a / b)%Q.

Definition Qlt_bool (a b : Q) : bool := negb (Qle_bool b a).

(** The value the Home page computes for the progress bar. *)
Definition progress (monthly_expenses budget : Q) : result Q :=
  rbind (if Qlt_bool 0 budget then true_divide monthly_expenses budget else Ok 0%Q)
    (fun p => Ok (if Qle_bool p 1 then p else 1%Q)).

(** [st.progress(value)] accepts values from 0 to 1 only. *)
Definition progress_bar (value : Q) : app unit :=
  if Qle_bool 0 value && Qle_bool value 1 then emit (st_progress value)
  else lift (Raise StreamlitAPIException).

(** [(dates.dt.month == m) & (dates.dt.year == y)] on one value *)
Definition in_month (now : date) (c : cell) : bool :=
  match c with
  | Timestamp d => ((month d =? month now) && (year d =? year now))%Z
  | _ => false
  end.

Section Script.

Variable pd : pandas.

Definition add_expense (d : date) (category : string) (amount : Q)
    (description : string) : app unit :=
  s <- get ;;
  new_entry <- lift (one_row_frame
                       [Timestamp d; Text category; Float amount; Text description]
                       (columns (expenses s))) ;;
  set_expenses (concat (expenses s) new_entry).

Definition load_expenses_from_file (uploaded_file : option csv_file) : app unit :=
  match uploaded_file with
  | Some file =>
      df <- lift (read_csv pd file) ;;
      if issubset required_cols (columns df) then
        set_expenses df ;;
        emit (st_success "Expenses loaded successfully!")
      else
        emit (st_error missing_columns_msg)
  | None => ret tt
  end.

Definition save_expenses_to_file : app unit :=
  s <- get ;;
  if negb (empty (expenses s)) then
    emit (file_written "expenses.csv" (to_csv pd (expenses s))) ;;
    emit (st_success "Expenses saved to 'expenses.csv'!")
  else
    emit (st_warning "No expense data available to save.").

Definition download_expenses : app unit :=
  s <- get ;;
  if negb (empty (expenses s)) then
    emit (st_download_button "Download Expenses CSV" (to_csv pd (expenses s))
            "expenses.csv" "text/csv")
  else
    emit (st_warning "No expense data to download!").

(** [df.groupby(key, as_index=False)["Amount"].sum()] *)
Definition groupby_amount (df : DataFrame) (key : string) : result (list (cell * Q)) :=
  rbind (getitem df key) (fun keys =>
  rbind (getitem df "Amount") (fun amounts =>
  groupby_sum keys amounts)).

Definition cat_summary (df : DataFrame) : result (list (cell * Q)) :=
  groupby_amount df "Category".

Definition time_summary (df : DataFrame) : result (list (cell * Q)) :=
  rbind (groupby_amount df "Date") (fun g => Ok (sort_values g)).

Definition show_visualizations : app unit :=
  s <- get ;;
  if empty (expenses s) then
    emit (st_warning "No expenses data available for visualization.")
  else
    dates <- lift (getitem (expenses s) "Date") ;;
    (if negb (is_datetime64_any_dtype dates) then
       coerced <- lift (to_datetime pd dates) ;;
       set_expenses (setitem (expenses s) "Date" coerced)
     else ret tt) ;;
    s <- get ;;
    fig_bar <- lift (cat_summary (expenses s)) ;;
    fig_line <- lift (time_summary (expenses s)) ;;
    emit (bar_chart fig_bar) ;;
    emit (line_chart fig_line).

Definition reset_data : app unit :=
  set_expenses empty_expenses ;;
  emit (st_success "Expense data has been reset.").

Definition sample_data : DataFrame :=
  mkframe ["Date"; "Category"; "Amount"; "Description"]
    [ [Text "2025-01-01"; Text "Food"; Float (63 # 4); Text "Breakfast"];
      [Text "2025-01-02"; Text "Transport"; Float (39 # 5); Text "Bus fare"];
      [Text "2025-01-03"; Text "Entertainment"; Float (45 # 2); Text "Movie ticket"] ].

Definition load_sample_data : app unit :=
  set_expenses sample_data ;;
  emit (st_success "Sample expense data loaded!").

(** [st.session_state.expenses["Amount"].sum()] *)
Definition total_expense (df : DataFrame) : result Q :=
  rbind (getitem df "Amount") series_sum.

Definition num_categories (df : DataFrame) : result nat :=
  if negb (empty df) then rbind (getitem df "Category") (fun c => Ok (nunique c))
  else Ok O.

(** The sum of the amounts dated in the month and year of [now],
    computed on a copy of the ledger. *)
Definition monthly_expenses (now : date) (expenses : DataFrame) : result Q :=
  if negb (empty expenses) then
    rbind (getitem expenses "Date") (fun dates =>
    rbind (to_datetime pd dates) (fun coerced =>
    let df := setitem expenses "Date" coerced in
    rbind (getitem df "Date") (fun dates' =>
    rbind (getitem (select df (map (in_month now) dates')) "Amount") series_sum)))
  else Ok 0%Q.

Definition home_page (now : date) : app unit :=
  s <- get ;;
  emit (st_image (banner_image s)) ;;
  total <- lift (total_expense (expenses s)) ;;
  emit (metric_card "Total Expenses" total) ;;
  emit (metric_card "Transactions" (inject_Z (Z.of_nat (shape0 (expenses s))))) ;;
  ncat <- lift (num_categories (expenses s)) ;;
  emit (metric_card "Categories" (inject_Z (Z.of_nat ncat))) ;;
  monthly <- lift (monthly_expenses now (expenses s)) ;;
  let budget := monthly_budget s in
  p <- lift (progress monthly budget) ;;
  emit (budget_card budget monthly) ;;
  progress_bar p.

(** What the user did on the page that is shown. *)
Inductive page :=
| Home
| AddExpense (submitted : option (date * string * Q * string))
| ViewExpenses (uploaded_file : option csv_file) (save : bool)
| Visualizations
| DownloadData
| Settings (budget_input : Q) (uploaded_file : option csv_file)
    (delete_csv reset sample : bool).

Definition when (b : bool) (m : app unit) : app unit :=
  if b then m else ret tt.

Definition show_page (now : date) (p : page) : app unit :=
  match p with
  | Home => home_page now
  | AddExpense submitted =>
      match submitted with
      | Some (d, category, amount, description) =>
          add_expense d category amount description ;;
          emit (st_success "Expense added successfully!")
      | None => ret tt
      end
  | ViewExpenses uploaded_file save =>
      s <- get ;;
      when (empty (expenses s))
        (emit (st_info "No expense data available. Load sample data or add expenses!")) ;;
      emit (st_dataframe (expenses s)) ;;
      load_expenses_from_file uploaded_file ;;
      when save save_expenses_to_file
  | Visualizations => show_visualizations
  | DownloadData => download_expenses
  | Settings budget_input uploaded_file delete_csv reset sample =>
      set_monthly_budget budget_input ;;
      load_expenses_from_file uploaded_file ;;
      when delete_csv reset_data ;;
      when reset reset_data ;;
      when sample load_sample_data
  end.

(** An uploaded picture: [Some img] when [Image.open] reads it, [None]
    when it raises; the text of the exception is left out of the message. *)
Definition sidebar (custom_profile custom_banner : option (option string)) : app unit :=
  match custom_profile with
  | Some (Some img) => set_profile_image img
  | Some None => emit (st_error "Error loading custom profile picture")
  | None => ret tt
  end ;;
  s <- get ;;
  emit (st_image (profile_image s)) ;;
  match custom_banner with
  | Some (Some img) => set_banner_image img
  | Some None => emit (st_error "Error loading banner image")
  | None => ret tt
  end.

(** One run of the script, top to bottom. *)
Definition script (get_google : get_outcome)
    (custom_profile custom_banner : option (option string))
    (now : date) (p : page) : app unit :=
  online <- lift (check_internet get_google) ;;
  when (negb online) (emit offline_banner) ;;
  sidebar custom_profile custom_banner ;;
  show_page now p.

End Script.

(* ===================================================================== *)
(** * Vocabulary of the statements *)
(* ===================================================================== *)

(** Every row has one cell per column. *)
Definition rectangular (df : DataFrame) : bool :=
  forallb (fun r => (List.length r =? List.length (columns df))%nat) (rows df).

Definition summable (c : cell) : bool :=
  match c with Text _ | Timestamp _ => false | _ => true end.

Definition datelike (c : cell) : bool :=
  match c with Flag _ => false | _ => true end.

Definition column_ok (df : DataFrame) (label : string) (p : cell -> bool) : bool :=
  match getitem df label with
  | Ok s => forallb p s
  | Raise _ => false
  end.

(** A ledger as the data model has it: the four columns are there, the
    rows are full, the amounts are numbers (or missing) and no date is a
    boolean. *)
Definition ledger_ok (df : DataFrame) : bool :=
  issubset required_cols (columns df) && rectangular df &&
  column_ok df "Amount" summable && column_ok df "Date" datelike.

(** The number [as_number] yields on a summable cell. *)
Definition number_of (c : cell) : Q :=
  match c with
  | Float q => q
  | Flag true => 1
  | _ => 0
  end.

Definition nonneg_amounts (df : DataFrame) : bool :=
  column_ok df "Amount" (fun c => Qle_bool 0 (number_of c)).

(** The dates [to_datetime] yields: a value that is no date and cannot
    be read as one becomes [NaT]. *)
Definition coerce_cell (pd : pandas) (col : list cell) (c : cell) : cell :=
  match c with
  | Timestamp d => Timestamp d
  | Float _ | Text _ =>
      match to_datetime_scalar pd col c with
      | Some d => Timestamp d
      | None => NaN
      end
  | _ => NaN
  end.

Definition coerce (pd : pandas) (s : list cell) : list cell :=
  map (coerce_cell pd s) s.

Fixpoint prefix_of (p s : string) : bool :=
  match p, s with
  | EmptyString, _ => true
  | String a p', String b s' => Ascii.eqb a b && prefix_of p' s'
  | String _ _, EmptyString => false
  end.

(** [needle in hay] *)
Fixpoint contains (needle hay : string) : bool :=
  prefix_of needle hay ||
  match hay with
  | EmptyString => false
  | String _ hay' => contains needle hay'
  end.

(** The required columns a message names, and those a frame lacks. *)
Definition named_in (msg : string) : list string :=
  filter (fun c => contains c msg) required_cols.

Definition missing_in (df : DataFrame) : list string :=
  filter (fun c => negb (existsb (String.eqb c) (columns df))) required_cols.

Definition Qeqb_strict (a b : Q) : bool :=
  (Qnum a =? Qnum b)%Z && (Qden a =? Qden b)%positive.

(** A text [read_csv] gives back as the same text whatever the rest of
    its column holds. *)
Definition plain_text (pd : pandas) (t : string) : bool :=
  negb (is_na t) && negb (is_some (parse_float pd t)) &&
  negb (is_true_literal t) && negb (is_false_literal t).

(** A number whose text [read_csv] reads back as the same number. *)
Definition plain_number (pd : pandas) (q : Q) : bool :=
  negb (is_na (float_repr pd q)) &&
  match parse_float pd (float_repr pd q) with
  | Some q' => Qeqb_strict q' q
  | None => false
  end.

(** A row of text date, text category, numeric amount and text
    description that the interchange format carries unchanged. *)
Definition plain_row (pd : pandas) (r : list cell) : bool :=
  match r with
  | [Text d; Text c; Float a; Text t] =>
      plain_text pd d && plain_text pd c && plain_number pd a && plain_text pd t
  | _ => false
  end.

(** States reached from the first run by the operations that build the
    ledger inside the application, import left out. *)
Inductive built_in_app : session_state -> Prop :=
| built_initial : built_in_app initial_session
| built_add s d category amount description :
    built_in_app s ->
    built_in_app (state_after (add_expense d category amount description s))
| built_reset s : built_in_app s -> built_in_app (state_after (reset_data s))
| built_sample s : built_in_app s -> built_in_app (state_after (load_sample_data s))
| built_budget s b : built_in_app s -> built_in_app (state_after (set_monthly_budget b s)).

(** Removes the [i]-th element. *)
Fixpoint remove_nth {A} (i : nat) (l : list A) : list A :=
  match l, i with
  | [], _ => []
  | _ :: t, O => t
  | h :: t, S j => h :: remove_nth j t
  end.

(** The value listed for a key in a grouped frame. *)
Fixpoint lookup_group (k : cell) (g : list (cell * Q)) : option Q :=
  match g with
  | [] => None
  | (k', v) :: g' => if cell_eqb k' k then Some v else lookup_group k g'
  end.

(** The ledger with its Date column coerced to dates. *)
Definition coerced_ledger (pd : pandas) (df : DataFrame) : DataFrame :=
  match getitem df "Date" with
  | Ok dates => setitem df "Date" (coerce pd dates)
  | Raise _ => df
  end.

(** The frame without its [i]-th row. *)
Definition drop_row (i : nat) (df : DataFrame) : DataFrame :=
  mkframe (columns df) (remove_nth i (rows df)).

(** The cell of row [i] in the column [label]. *)
Definition cell_at (df : DataFrame) (label : string) (i : nat) : cell :=
  match getitem df label with
  | Ok s => nth i s NaN
  | Raise _ => NaN
  end.

(** The session with another ledger. *)
Definition with_expenses (df : DataFrame) (s : session_state) : session_state :=
  mkstate df (monthly_budget s) (profile_image s) (banner_image s).

(** The total listed for a key, 0 when the key has no group. *)
Definition group_value (k : cell) (g : list (cell * Q)) : Q :=
  match lookup_group k g with
  | Some v => v
  | None => 0
  end.

(* ===================================================================== *)
(** * Concrete sessions *)
(* ===================================================================== *)

Definition jan15 : date := mkdate 2025 1 15.

(** The session after Load Sample Data. *)
Definition sample_session : session_state := state_after (load_sample_data initial_session).

(** The sample ledger with the budget set to zero on the Settings page. *)
Definition zero_budget_session : session_state :=
  state_after (set_monthly_budget 0 sample_session).

(** A file without the Description column. *)
Definition file_without_description : csv_file :=
  [ ["Date"; "Category"; "Amount"];
    ["2025-01-01"; "Food"; "15.75"] ].

(** A file with a refund: a negative amount. *)
Definition file_with_refund : csv_file :=
  [ ["Date"; "Category"; "Amount"; "Description"];
    ["2025-01-10"; "Food"; "-5.0"; "Refund"] ].

Definition refund_session : session_state :=
  state_after (load_expenses_from_file iso_pandas (Some file_with_refund)
                 (state_after (set_monthly_budget 10 initial_session))).

(** A file whose record has no category. *)
Definition file_blank_category : csv_file :=
  [ ["Date"; "Category"; "Amount"; "Description"];
    ["2025-01-01"; ""; "5.0"; "Taxi"] ].

Definition blank_category_session : session_state :=
  state_after (load_expenses_from_file iso_pandas (Some file_blank_category) initial_session).

(** A file whose first record is dated 30 February and has no category. *)
Definition file_junk_date : csv_file :=
  [ ["Date"; "Category"; "Amount"; "Description"];
    ["2025-02-30"; ""; "5.0"; "Taxi"];
    ["2025-01-02"; "Food"; "3.0"; "Lunch"] ].

Definition junk_date_session : session_state :=
  state_after (load_expenses_from_file iso_pandas (Some file_junk_date) initial_session).

(** A file whose first record is dated 30 February and has a category. *)
Definition file_junk_date_food : csv_file :=
  [ ["Date"; "Category"; "Amount"; "Description"];
    ["2025-02-30"; "Food"; "5.0"; "Snack"];
    ["2025-01-02"; "Food"; "3.0"; "Lunch"] ].

Definition junk_food_session : session_state :=
  state_after (load_expenses_from_file iso_pandas (Some file_junk_date_food) initial_session).

(** A file with the four columns in another order. *)
Definition file_reordered : csv_file :=
  [ ["Amount"; "Date"; "Category"; "Description"];
    ["15.75"; "2025-01-01"; "Food"; "Breakfast"] ].

Definition reordered_session : session_state :=
  state_after (load_expenses_from_file iso_pandas (Some file_reordered) initial_session).

(** The session after adding one expense with an empty description. *)
Definition empty_description_session : session_state :=
  state_after (add_expense (mkdate 2025 1 1) "Food" (63 # 4) "" initial_session).

(* ===================================================================== *)
(** * Vocabulary of the further properties *)
(* ===================================================================== *)

(** What the Add Expense form submits. *)
Definition expense : Type := (date * string * Q * string)%type.

(** The row [add_expense] builds from a submission. *)
Definition expense_row (e : expense) : list cell :=
  match e with
  | (d, category, amount, description) =>
      [Timestamp d; Text category; Float amount; Text description]
  end.

(** Several submissions of the form, one after the other. *)
Fixpoint add_expenses (es : list expense) : app unit :=
  match es with
  | [] => ret tt
  | (d, category, amount, description) :: es' =>
      add_expense d category amount description ;;
      add_expenses es'
  end.

(** What every run keeps of the ledger: the four columns are there and
    every row has one cell per column. *)
Definition ledger_invariant (df : DataFrame) : bool :=
  issubset required_cols (columns df) && rectangular df.

(** The ledger of the session has the shape every run keeps. *)
Definition shaped (s : session_state) : Prop :=
  ledger_invariant (expenses s) = true.

(** A step that leaves a part of the session state as it was. *)
Definition preserves {A X} (part : session_state -> X) (m : app A) : Prop :=
  forall s, part (state_after (m s)) = part s.

(** A step that keeps a property of the session state. *)
Definition maintains {A} (P : session_state -> Prop) (m : app A) : Prop :=
  forall s, P s -> P (state_after (m s)).

(** What a cell tells about the field it was read from: a missing value
    stands for a missing-value marker; a text is the field; a number is
    the number the field reads as; a boolean is the literal the field is;
    and no cell is a date. *)
Definition read_from (pd : pandas) (field : string) (c : cell) : Prop :=
  match c with
  | NaN => is_na field = true
  | Text t => is_na field = false /\ t = field
  | Float q => is_na field = false /\ parse_float pd field = Some q
  | Flag b =>
      is_na field = false /\ b = is_true_literal field /\
      is_true_literal field || is_false_literal field = true
  | Timestamp _ => False
  end.

(** A file whose first record has one field more than the header: the
    first field of every record becomes the row label. *)
Definition file_with_labels : csv_file :=
  [ ["Date"; "Category"; "Amount"; "Description"];
    ["r1"; "2025-01-05"; "Food"; "12.5"; "Lunch"];
    ["r2"; "2025-01-06"; "Transport"; "3.0"] ].

Definition labels_session : session_state :=
  state_after (load_expenses_from_file iso_pandas (Some file_with_labels) initial_session).

(** What the Home page adds up for the month: the Amount column of the
    rows dated in the month and year of [now], before [.sum()]. *)
Definition monthly_amounts (pd : pandas) (now : date) (expenses : DataFrame)
    : result (list cell) :=
  if negb (empty expenses) then
    rbind (getitem expenses "Date") (fun dates =>
    rbind (to_datetime pd dates) (fun coerced =>
    let df := setitem expenses "Date" coerced in
    rbind (getitem df "Date") (fun dates' =>
    getitem (select df (map (in_month now) dates')) "Amount")))
  else Ok [].

(** Column names pandas keeps as they are when it reads a header: none
    is blank and none comes twice. *)
Definition plain_names (names : list string) : bool :=
  forallb (fun n => negb (String.eqb n "") &&
                    (List.length (filter (String.eqb n) names) =? 1)%nat) names.

(** The categories are texts, where they are not missing. *)
Definition text_categories (df : DataFrame) : bool :=
  column_ok df "Category"
    (fun c => match c with Text _ | NaN => true | _ => false end).

(** Keys in the order of [cell_leb], each next to the following one. *)
Fixpoint ascending (l : list cell) : bool :=
  match l with
  | [] => true
  | x :: t =>
      match t with
      | [] => true
      | y :: _ => cell_leb x y && ascending t
      end
  end.

(** No two keys of the list are equal. *)
Definition one_each (l : list cell) : bool :=
  forallb (fun k => (List.length (filter (cell_eqb k) l) =? 1)%nat) l.

(** The pages and actions that only show the session. *)
Definition read_only (p : page) : bool :=
  match p with
  | Home | DownloadData | AddExpense None | ViewExpenses None _ => true
  | _ => false
  end.

(** A file with a fifth column. *)
Definition file_with_notes : csv_file :=
  [ ["Date"; "Category"; "Amount"; "Description"; "Notes"];
    ["2025-01-05"; "Food"; "12.5"; "Lunch"; "with Ana"];
    ["2025-01-06"; "Transport"; "3.0"; "Bus"] ].

Definition notes_session : session_state :=
  state_after (load_expenses_from_file iso_pandas (Some file_with_notes) initial_session).

(** The session after two expenses were added on the Add Expense page. *)
Definition two_added_session : session_state :=
  state_after (add_expenses [ (mkdate 2025 1 3, "Food", 63 # 4, "Breakfast");
                              (mkdate 2024 12 30, "Utilities", 40 # 1, "Power") ]
                 initial_session).

(* ===================================================================== *)
(** * Reset, the connectivity probe, import validation and export *)
(* ===================================================================== *)

(** C10. Reset leaves the empty table with the four columns Date,
    Category, Amount, Description as the ledger, reports success, and
    keeps the monthly budget and the two images as they were. *)
Theorem reset_data_frame (s : session_state) :
  outcome (reset_data s) = Ok tt /\
  columns (expenses (state_after (reset_data s))) =
    ["Date"; "Category"; "Amount"; "Description"] /\
  rows (expenses (state_after (reset_data s))) = [] /\
  monthly_budget (state_after (reset_data s)) = monthly_budget s /\
  profile_image (state_after (reset_data s)) = profile_image s /\
  banner_image (state_after (reset_data s)) = banner_image s /\
  rendered (reset_data s) = [st_success "Expense data has been reset."].
Proof. repeat split. Qed.

(** The probe answers [True] when the request is answered and [False]
    on a connection error or one of its subclasses. *)
Lemma check_internet_contained (o : get_outcome) :
  match o with
  | Response => check_internet o = Ok true
  | Fails e => is_ConnectionError e = true -> check_internet o = Ok false
  end.
Proof.
  destruct o as [|e]; simpl; [reflexivity|].
  intros He. now rewrite He.
Qed.

Lemma check_internet_raises (e : requests_exn) :
  is_ConnectionError e = false ->
  check_internet (Fails e) = Raise (RequestsError e).
Proof. intros He. simpl. now rewrite He. Qed.

(** C9 (where the code departs from the claim). A read timeout is not a
    connection error: it leaves [check_internet] as an exception, and the
    run of the script ends there, with nothing rendered, whatever page
    was asked for. *)
Theorem read_timeout_escapes_check_internet :
  check_internet (Fails ReadTimeout) = Raise (RequestsError ReadTimeout) /\
  forall pd profile banner now p s,
    script pd (Fails ReadTimeout) profile banner now p s =
      (Raise (RequestsError ReadTimeout), s, []).
Proof. split; reflexivity. Qed.

Lemma issubset_false_missing (df : DataFrame) :
  issubset required_cols (columns df) = false -> missing_in df <> [].
Proof.
  unfold issubset, missing_in. intros H.
  induction required_cols as [|c cs IH]; simpl in *; [discriminate|].
  destruct (existsb (String.eqb c) (columns df)); simpl in *.
  - auto.
  - discriminate.
Qed.

Lemma missing_in_required (df : DataFrame) (c : string) :
  In c (missing_in df) -> In c required_cols.
Proof. unfold missing_in. intros H. apply filter_In in H. tauto. Qed.

Lemma message_names_required (c : string) :
  In c required_cols -> contains c missing_columns_msg = true.
Proof.
  unfold required_cols. simpl.
  intros [<-|[<-|[<-|[<-|[]]]]]; vm_compute; reflexivity.
Qed.

(** C1, as the code has it. When the parsed file lacks a required
    column, the import reports one fixed error message, which lists all
    four required columns (so every missing one is among those named),
    and the session state, the ledger in it, is left as it was. *)
Theorem import_missing_columns_atomic (pd : pandas) (s : session_state)
    (file : csv_file) (df : DataFrame) :
  read_csv pd file = Ok df ->
  issubset required_cols (columns df) = false ->
  load_expenses_from_file pd (Some file) s = (Ok tt, s, [st_error missing_columns_msg]) /\
  missing_in df <> [] /\
  (forall c, In c (missing_in df) -> contains c missing_columns_msg = true) /\
  named_in missing_columns_msg = required_cols.
Proof.
  intros Hread Hsub. repeat split.
  - unfold load_expenses_from_file, bind, lift. rewrite Hread, Hsub.
    reflexivity.
  - now apply issubset_false_missing.
  - intros c Hc. apply message_names_required. eapply missing_in_required; eauto.
Qed.

Lemma import_missing_columns_atomic_witness :
  load_expenses_from_file iso_pandas (Some file_without_description) sample_session =
    (Ok tt, sample_session, [st_error missing_columns_msg]).
Proof.
  apply (@import_missing_columns_atomic iso_pandas sample_session
           file_without_description
           (mkframe ["Date"; "Category"; "Amount"]
                    [[Text "2025-01-01"; Text "Food"; Float (63 # 4)]]));
    reflexivity.
Defined.

(** C1, against the claim as stated. A file with Date, Category and
    Amount lacks only Description, yet the error the import reports names
    Date, Category and Amount as well: the columns it names are not the
    missing ones. *)
Lemma import_error_names_present_columns :
  read_csv iso_pandas file_without_description =
    Ok (mkframe ["Date"; "Category"; "Amount"]
                [[Text "2025-01-01"; Text "Food"; Float (63 # 4)]]) /\
  rendered (load_expenses_from_file iso_pandas (Some file_without_description) sample_session) =
    [st_error "CSV file missing required columns: Date, Category, Amount, Description."] /\
  missing_in (mkframe ["Date"; "Category"; "Amount"]
                [[Text "2025-01-01"; Text "Food"; Float (63 # 4)]]) = ["Description"] /\
  named_in "CSV file missing required columns: Date, Category, Amount, Description." =
    ["Date"; "Category"; "Amount"; "Description"] /\
  named_in "CSV file missing required columns: Date, Category, Amount, Description." <>
    missing_in (mkframe ["Date"; "Category"; "Amount"]
                  [[Text "2025-01-01"; Text "Food"; Float (63 # 4)]]).
Proof.
  repeat split; try reflexivity.
  vm_compute. discriminate.
Qed.

(** A failed import of any kind, a file that cannot be read or one
    without the required columns, leaves the session state as it was. *)
Lemma failed_import_keeps_state (pd : pandas) (s : session_state)
    (uploaded_file : option csv_file) :
  ~ In (st_success "Expenses loaded successfully!")
       (rendered (load_expenses_from_file pd uploaded_file s)) ->
  state_after (load_expenses_from_file pd uploaded_file s) = s.
Proof.
  destruct uploaded_file as [file|]; [|reflexivity].
  unfold load_expenses_from_file, bind, lift.
  destruct (read_csv pd file) as [df|e]; [|reflexivity].
  destruct (issubset required_cols (columns df)); [|reflexivity].
  simpl. intros H. exfalso. apply H. now left.
Qed.

Lemma built_in_app_columns (s : session_state) :
  built_in_app s -> columns (expenses s) = required_cols.
Proof.
  induction 1 as [|s d c a t _ IH| | |]; try reflexivity.
  - unfold add_expense, bind, get, lift, one_row_frame. rewrite IH.
    unfold required_cols at 1. simpl. exact IH.
  - assumption.
Qed.

(** C8, as the code has it. On an empty ledger both export paths only
    warn and leave the session state as it was. On a ledger with rows
    they succeed without changing the state and hand over the ledger's
    column names as the header followed by one record per row, in row
    order; the header is Date, Category, Amount, Description for a ledger
    built inside the application. *)
Theorem export_contract (pd : pandas) (s : session_state) :
  (empty (expenses s) = true ->
   download_expenses pd s = (Ok tt, s, [st_warning "No expense data to download!"]) /\
   save_expenses_to_file pd s =
     (Ok tt, s, [st_warning "No expense data available to save."])) /\
  (empty (expenses s) = false ->
   exists records,
     download_expenses pd s =
       (Ok tt, s,
        [st_download_button "Download Expenses CSV" (columns (expenses s) :: records)
           "expenses.csv" "text/csv"]) /\
     save_expenses_to_file pd s =
       (Ok tt, s,
        [file_written "expenses.csv" (columns (expenses s) :: records);
         st_success "Expenses saved to 'expenses.csv'!"]) /\
     List.length records = List.length (rows (expenses s)) /\
     (forall i r, nth_error (rows (expenses s)) i = Some r ->
                  nth_error records i = Some (map (render pd) r)) /\
     (built_in_app s ->
      columns (expenses s) = ["Date"; "Category"; "Amount"; "Description"])).
Proof.
  split; intros He.
  - unfold download_expenses, save_expenses_to_file, bind, get, emit.
    rewrite He. simpl. split; reflexivity.
  - exists (map (map (render pd)) (rows (expenses s))).
    unfold download_expenses, save_expenses_to_file, bind, get, emit, to_csv.
    rewrite He. simpl. repeat split.
    + apply length_map.
    + intros i r Hr. now apply map_nth_error.
    + apply built_in_app_columns.
Qed.

Lemma export_contract_witness :
  download_expenses iso_pandas initial_session =
    (Ok tt, initial_session, [st_warning "No expense data to download!"]) /\
  exists records,
    download_expenses iso_pandas sample_session =
      (Ok tt, sample_session,
       [st_download_button "Download Expenses CSV"
          (columns (expenses sample_session) :: records) "expenses.csv" "text/csv"]).
Proof.
  split.
  - apply (proj1 (export_contract iso_pandas initial_session)). reflexivity.
  - destruct (proj2 (export_contract iso_pandas sample_session) eq_refl)
      as [records [H _]].
    exists records. exact H.
Defined.

(** C8, against the claim as stated. After importing a file whose
    columns come in the order Amount, Date, Category, Description, the
    ledger is not empty and its export starts with that header, not with
    Date, Category, Amount, Description. *)
Lemma export_header_follows_import_order :
  rendered (load_expenses_from_file iso_pandas (Some file_reordered) initial_session) =
    [st_success "Expenses loaded successfully!"] /\
  empty (expenses reordered_session) = false /\
  rendered (download_expenses iso_pandas reordered_session) =
    [st_download_button "Download Expenses CSV"
       [ ["Amount"; "Date"; "Category"; "Description"];
         ["15.75"; "2025-01-01"; "Food"; "Breakfast"] ]
       "expenses.csv" "text/csv"] /\
  hd [] (to_csv iso_pandas (expenses reordered_session)) <>
    ["Date"; "Category"; "Amount"; "Description"].
Proof.
  repeat split; try reflexivity.
  vm_compute. discriminate.
Qed.

(* ===================================================================== *)
(** * Facts about columns, sums and date coercion *)
(* ===================================================================== *)

Lemma rmap_as_number (s : list cell) :
  forallb summable s = true -> rmap as_number s = Ok (map number_of s).
Proof.
  induction s as [|c s IH]; simpl; [reflexivity|].
  intros H. apply andb_true_iff in H as [Hc Hs].
  rewrite (IH Hs).
  destruct c as [|q|t|[|]|d]; simpl in *; try discriminate; reflexivity.
Qed.

Lemma series_sum_ok (s : list cell) :
  forallb summable s = true -> series_sum s = Ok (Qsum (map number_of s)).
Proof. intros H. unfold series_sum. now rewrite rmap_as_number. Qed.

Lemma rmap_to_datetime_cell (pd : pandas) (col l : list cell) :
  forallb datelike l = true ->
  rmap (to_datetime_cell pd col) l = Ok (map (coerce_cell pd col) l).
Proof.
  induction l as [|c l IH]; simpl; [reflexivity|].
  intros H. apply andb_true_iff in H as [Hc Hl].
  rewrite (IH Hl).
  destruct c as [|q|t|b|d]; simpl in *; try discriminate; reflexivity.
Qed.

Lemma to_datetime_ok (pd : pandas) (s : list cell) :
  forallb datelike s = true -> to_datetime pd s = Ok (coerce pd s).
Proof. apply rmap_to_datetime_cell. Qed.

Lemma coerce_length (pd : pandas) (s : list cell) :
  List.length (coerce pd s) = List.length s.
Proof. apply length_map. Qed.

Lemma coerce_is_datetime (pd : pandas) (s : list cell) :
  is_datetime64_any_dtype (coerce pd s) = true.
Proof.
  unfold coerce, is_datetime64_any_dtype.
  generalize s at 1. intros col.
  induction s as [|c s IH]; simpl; [reflexivity|].
  rewrite IH, andb_true_r.
  destruct c; simpl; try reflexivity;
    destruct (to_datetime_scalar pd col _); reflexivity.
Qed.

Lemma datetime_is_datelike (s : list cell) :
  is_datetime64_any_dtype s = true -> forallb datelike s = true.
Proof.
  unfold is_datetime64_any_dtype.
  induction s as [|c s IH]; simpl; [reflexivity|].
  intros H. apply andb_true_iff in H as [Hc Hs].
  rewrite (IH Hs), andb_true_r. destruct c; simpl in *; congruence.
Qed.

(** Coercing a column of dates and missing values changes nothing. *)
Lemma coerce_cell_datetime_id (pd : pandas) (col s : list cell) :
  is_datetime64_any_dtype s = true -> map (coerce_cell pd col) s = s.
Proof.
  unfold is_datetime64_any_dtype.
  induction s as [|c s IH]; simpl; [reflexivity|].
  intros H. apply andb_true_iff in H as [Hc Hs].
  rewrite (IH Hs). destruct c; simpl in *; congruence.
Qed.

Lemma coerce_datetime_id (pd : pandas) (s : list cell) :
  is_datetime64_any_dtype s = true -> coerce pd s = s.
Proof. apply coerce_cell_datetime_id. Qed.

Lemma index_of_lt (label : string) (cols : list string) (i : nat) :
  index_of label cols = Some i -> (i < List.length cols)%nat.
Proof.
  revert i. induction cols as [|c cs IH]; simpl; intros i H; [discriminate|].
  destruct (String.eqb c label).
  - injection H as <-. lia.
  - destruct (index_of label cs) as [j|]; [|discriminate].
    injection H as <-. specialize (IH j eq_refl). lia.
Qed.

Lemma index_of_nth (label : string) (cols : list string) (i : nat) :
  index_of label cols = Some i -> nth i cols "" = label.
Proof.
  revert i. induction cols as [|c cs IH]; simpl; intros i H; [discriminate|].
  destruct (String.eqb c label) eqn:E.
  - injection H as <-. now apply String.eqb_eq.
  - destruct (index_of label cs) as [j|]; [|discriminate].
    injection H as <-. now apply IH.
Qed.

Lemma index_of_inj (a b : string) (cols : list string) (i : nat) :
  index_of a cols = Some i -> index_of b cols = Some i -> a = b.
Proof.
  intros Ha Hb. rewrite <- (index_of_nth _ _ Ha). now apply index_of_nth.
Qed.

Lemma existsb_index_of (label : string) (cols : list string) :
  existsb (String.eqb label) cols = true -> exists i, index_of label cols = Some i.
Proof.
  induction cols as [|c cs IH]; simpl; [discriminate|].
  intros H. rewrite String.eqb_sym.
  destruct (String.eqb label c); [now exists O|].
  simpl in H. destruct (IH H) as [i Hi]. rewrite Hi. now exists (S i).
Qed.

Lemma nth_replace_nth_same {A} (i : nat) (x d : A) (l : list A) :
  (i < List.length l)%nat -> nth i (replace_nth i x l) d = x.
Proof.
  revert i. induction l as [|h t IH]; simpl; intros i H; [lia|].
  destruct i; simpl; [reflexivity|]. apply IH. lia.
Qed.

Lemma nth_replace_nth_other {A} (i j : nat) (x d : A) (l : list A) :
  i <> j -> nth j (replace_nth i x l) d = nth j l d.
Proof.
  revert i j. induction l as [|h t IH]; intros i j H;
    destruct i, j; simpl; try reflexivity; try lia.
  apply IH. lia.
Qed.

Lemma replace_nth_length {A} (i : nat) (x : A) (l : list A) :
  List.length (replace_nth i x l) = List.length l.
Proof.
  revert i. induction l as [|h t IH]; intros i; destruct i; simpl;
    try reflexivity.
  now rewrite IH.
Qed.

Section Columns.

Variables (df : DataFrame) (label : string) (i : nat) (values : list cell).
Hypothesis Hlabel : index_of label (columns df) = Some i.
Hypothesis Hlen : List.length values = List.length (rows df).

Lemma setitem_columns : columns (setitem df label values) = columns df.
Proof. unfold setitem. now rewrite Hlabel. Qed.

Lemma setitem_rows :
  rows (setitem df label values) =
    map (fun rv => replace_nth i (snd rv) (fst rv)) (combine (rows df) values).
Proof. unfold setitem. now rewrite Hlabel. Qed.

Lemma setitem_shape : List.length (rows (setitem df label values)) = List.length (rows df).
Proof. rewrite setitem_rows, length_map, length_combine. lia. Qed.

Lemma setitem_empty : empty (setitem df label values) = empty df.
Proof. unfold empty. now rewrite setitem_columns, setitem_shape. Qed.

Lemma setitem_rectangular :
  rectangular df = true -> rectangular (setitem df label values) = true.
Proof.
  unfold rectangular. rewrite setitem_columns, setitem_rows.
  clear Hlen. revert values.
  induction (rows df) as [|r rs IH]; intros vs H; simpl; [reflexivity|].
  destruct vs as [|v vs]; simpl; [reflexivity|].
  simpl in H. apply andb_true_iff in H as [Hr Hrs].
  rewrite replace_nth_length, Hr. simpl. now apply IH.
Qed.

Lemma getitem_setitem_other (other : string) :
  other <> label -> getitem (setitem df label values) other = getitem df other.
Proof.
  intros Hne. unfold getitem. rewrite setitem_columns, setitem_rows.
  destruct (index_of other (columns df)) as [j|] eqn:Hj; [|reflexivity].
  assert (Hij : i <> j).
  { intros ->. apply Hne. eapply index_of_inj; eauto. }
  f_equal. clear Hlabel Hj. revert values Hlen.
  induction (rows df) as [|r rs IH]; intros vs Hl; simpl.
  - reflexivity.
  - destruct vs as [|v vs]; simpl in *; [discriminate|].
    rewrite nth_replace_nth_other by assumption. f_equal. apply IH. lia.
Qed.

Lemma getitem_setitem_same :
  rectangular df = true -> getitem (setitem df label values) label = Ok values.
Proof.
  intros Hrect. unfold getitem. rewrite setitem_columns, setitem_rows, Hlabel.
  f_equal. pose proof (index_of_lt _ _ Hlabel) as Hi.
  unfold rectangular in Hrect. clear Hlabel. revert values Hlen.
  induction (rows df) as [|r rs IH]; intros vs Hl; simpl.
  - destruct vs; [reflexivity|discriminate].
  - destruct vs as [|v vs]; simpl in *; [discriminate|].
    apply andb_true_iff in Hrect as [Hr Hrs].
    apply Nat.eqb_eq in Hr.
    rewrite nth_replace_nth_same by lia. f_equal. apply IH; [assumption|lia].
Qed.

End Columns.

Lemma map_select {A B} (f : A -> B) (l : list A) (mask : list bool) :
  map f (map fst (filter snd (combine l mask))) =
  map fst (filter snd (combine (map f l) mask)).
Proof.
  revert mask. induction l as [|x l IH]; intros mask; simpl; [reflexivity|].
  destruct mask as [|[|] mask]; simpl; [reflexivity| |]; now rewrite IH.
Qed.

Lemma getitem_select (df : DataFrame) (label : string) (s : list cell) (mask : list bool) :
  getitem df label = Ok s ->
  getitem (select df mask) label = Ok (map fst (filter snd (combine s mask))).
Proof.
  unfold getitem, select. simpl.
  destruct (index_of label (columns df)) as [i|]; [|discriminate].
  intros H. injection H as <-. f_equal. apply map_select.
Qed.

Lemma forallb_select {A} (p : A -> bool) (l : list A) (mask : list bool) :
  forallb p l = true -> forallb p (map fst (filter snd (combine l mask))) = true.
Proof.
  revert mask. induction l as [|x l IH]; intros mask; simpl; [reflexivity|].
  intros H. apply andb_true_iff in H as [Hx Hl].
  destruct mask as [|[|] mask]; simpl; [reflexivity| |].
  - rewrite Hx. now apply IH.
  - now apply IH.
Qed.

Lemma getitem_length (df : DataFrame) (label : string) (s : list cell) :
  getitem df label = Ok s -> List.length s = List.length (rows df).
Proof.
  unfold getitem. destruct (index_of label (columns df)); [|discriminate].
  intros H. injection H as <-. apply length_map.
Qed.

(** What [ledger_ok] gives: the positions of the columns and the typed
    columns themselves. *)
Lemma ledger_ok_columns (df : DataFrame) :
  ledger_ok df = true ->
  rectangular df = true /\
  (exists i dates, index_of "Date" (columns df) = Some i /\
                   getitem df "Date" = Ok dates /\ forallb datelike dates = true) /\
  (exists cats, getitem df "Category" = Ok cats) /\
  (exists amounts, getitem df "Amount" = Ok amounts /\ forallb summable amounts = true).
Proof.
  unfold ledger_ok, column_ok, issubset.
  intros H.
  apply andb_true_iff in H as [H H0].
  apply andb_true_iff in H as [H H1].
  apply andb_true_iff in H as [H H2].
  assert (Hin : forall c, In c required_cols -> exists i, index_of c (columns df) = Some i).
  { intros c Hc. apply existsb_index_of.
    exact (proj1 (forallb_forall _ _) H c Hc). }
  destruct (Hin "Date") as [i Hi]; [unfold required_cols; simpl; tauto|].
  destruct (Hin "Category") as [j Hj]; [unfold required_cols; simpl; tauto|].
  unfold getitem in *. rewrite Hi, Hj in *.
  destruct (index_of "Amount" (columns df)); [|discriminate].
  repeat split; eauto.
Qed.

(* ===================================================================== *)
(** * The monthly budget progress of the Home page *)
(* ===================================================================== *)

(** On a well-typed ledger the monthly sum is computed without error: it
    is the sum of the amounts of the rows whose coerced date falls in the
    month and year of [now]. *)
Lemma monthly_expenses_ok (pd : pandas) (now : date) (df : DataFrame) :
  ledger_ok df = true ->
  exists dates amounts,
    getitem df "Date" = Ok dates /\
    getitem df "Amount" = Ok amounts /\
    forallb summable amounts = true /\
    monthly_expenses pd now df =
      Ok (if empty df then 0%Q
          else Qsum (map number_of
                       (map fst (filter snd
                          (combine amounts (map (in_month now) (coerce pd dates))))))).
Proof.
  intros Hok.
  destruct (ledger_ok_columns df Hok)
    as (Hrect & (i & dates & Hi & Hdates & Hdl) & _ & (amounts & Hamounts & Hsum)).
  exists dates, amounts. repeat split; try assumption.
  unfold monthly_expenses. destruct (empty df); simpl; [reflexivity|].
  rewrite Hdates. simpl. rewrite (to_datetime_ok pd dates Hdl). simpl.
  assert (Hlen : List.length (coerce pd dates) = List.length (rows df)).
  { rewrite coerce_length. eapply getitem_length; eauto. }
  rewrite (@getitem_setitem_same _ _ _ _ Hi Hlen Hrect). simpl.
  rewrite (getitem_select _ "Amount" (s := amounts)).
  - simpl. apply series_sum_ok. now apply forallb_select.
  - rewrite (@getitem_setitem_other _ _ _ _ Hi Hlen); [assumption|discriminate].
Qed.

Lemma Qsum_nonneg (l : list Q) :
  forallb (Qle_bool 0) l = true -> (0 <= Qsum l)%Q.
Proof.
  induction l as [|q l IH]; simpl; intros H.
  - apply Qle_refl.
  - apply andb_true_iff in H as [Hq Hl].
    apply Qle_bool_iff in Hq.
    replace 0%Q with (0 + 0)%Q by reflexivity.
    apply Qplus_le_compat; auto.
Qed.

Lemma forallb_map {A B} (p : B -> bool) (f : A -> B) (l : list A) :
  forallb p (map f l) = forallb (fun x => p (f x)) l.
Proof. induction l as [|x l IH]; simpl; [reflexivity|]. now rewrite IH. Qed.

Lemma monthly_expenses_nonneg (pd : pandas) (now : date) (df : DataFrame) (m : Q) :
  ledger_ok df = true ->
  nonneg_amounts df = true ->
  monthly_expenses pd now df = Ok m ->
  (0 <= m)%Q.
Proof.
  intros Hok Hnn Hm.
  destruct (monthly_expenses_ok pd now df Hok)
    as (dates & amounts & _ & Hamounts & _ & Heq).
  rewrite Heq in Hm. injection Hm as <-.
  destruct (empty df); [apply Qle_refl|].
  apply Qsum_nonneg. rewrite forallb_map. apply forallb_select.
  unfold nonneg_amounts, column_ok in Hnn. now rewrite Hamounts in Hnn.
Qed.

Lemma Qlt_bool_iff (a b : Q) : Qlt_bool a b = true <-> (a < b)%Q.
Proof.
  unfold Qlt_bool. rewrite negb_true_iff. split.
  - intros H. apply Qnot_le_lt. intros Hle.
    apply Qle_bool_iff in Hle. congruence.
  - intros H. destruct (Qle_bool b a) eqn:E; [|reflexivity].
    apply Qle_bool_iff in E. exfalso. eapply Qlt_not_le; eauto.
Qed.

(** The progress value is always computed, never through a division by
    zero; it is at most 1, it is not negative when the monthly sum is
    not, and it is 0 when the budget is not positive. *)
Lemma progress_value (m b : Q) :
  exists p,
    progress m b = Ok p /\
    (p <= 1)%Q /\
    ((0 <= m)%Q -> (0 <= p)%Q) /\
    (~ (0 < b)%Q -> p = 0%Q).
Proof.
  unfold progress. destruct (Qlt_bool 0 b) eqn:Hb.
  - apply Qlt_bool_iff in Hb. unfold true_divide.
    assert (Hnz : Qeq_bool b 0 = false).
    { destruct (Qeq_bool b 0) eqn:E; [|reflexivity].
      apply Qeq_bool_iff in E. rewrite E in Hb. now apply Qlt_irrefl in Hb. }
    rewrite Hnz. simpl.
    assert (Hdiv : (0 <= m)%Q -> (0 <= m / b)%Q).
    { intros Hm. apply Qle_shift_div_l; [assumption|].
      now rewrite Qmult_0_l. }
    destruct (Qle_bool (m / b) 1) eqn:Hc.
    + eexists. split; [reflexivity|]. repeat split.
      * now apply Qle_bool_iff.
      * assumption.
      * intros Hn. contradiction.
    + eexists. split; [reflexivity|]. repeat split.
      * apply Qle_refl.
      * intros _. discriminate.
      * intros Hn. contradiction.
  - simpl. exists 0%Q. repeat split.
    + discriminate.
    + intros _. apply Qle_refl.
Qed.

Lemma progress_never_divides_by_zero (m b : Q) :
  progress m b <> Raise ZeroDivisionError.
Proof.
  destruct (progress_value m b) as (p & Hp & _). rewrite Hp. discriminate.
Qed.

(** The Home page only reads the session state. *)
Lemma home_page_keeps_state (pd : pandas) (now : date) (s : session_state) :
  state_after (home_page pd now s) = s.
Proof.
  unfold home_page, bind, get, emit, lift, progress_bar.
  destruct (total_expense (expenses s)); simpl; [|reflexivity].
  destruct (num_categories (expenses s)); simpl; [|reflexivity].
  destruct (monthly_expenses pd now (expenses s)); simpl; [|reflexivity].
  destruct (progress _ _) as [p|]; simpl; [|reflexivity].
  destruct (Qle_bool 0 p && Qle_bool p 1); reflexivity.
Qed.

(** On a well-typed ledger the Home page renders its cards and then the
    progress bar, when the value is one the bar accepts. *)
Lemma home_page_run (pd : pandas) (now : date) (s : session_state) (m p : Q) :
  ledger_ok (expenses s) = true ->
  monthly_expenses pd now (expenses s) = Ok m ->
  progress m (monthly_budget s) = Ok p ->
  exists cards,
    home_page pd now s =
      if Qle_bool 0 p && Qle_bool p 1
      then (Ok tt, s, cards ++ [budget_card (monthly_budget s) m; st_progress p])
      else (Raise StreamlitAPIException, s, cards ++ [budget_card (monthly_budget s) m]).
Proof.
  intros Hok Hm Hp.
  destruct (ledger_ok_columns _ Hok)
    as (_ & _ & (cats & Hcats) & (amounts & Hamounts & Hsum)).
  unfold home_page, bind, get, emit, lift, progress_bar.
  unfold total_expense, num_categories.
  rewrite Hamounts, Hcats. simpl. rewrite (series_sum_ok _ Hsum). simpl.
  destruct (negb (empty (expenses s))); simpl; rewrite Hm; simpl; rewrite Hp; simpl;
    destruct (Qle_bool 0 p && Qle_bool p 1); simpl;
    eexists [_; _; _; _]; reflexivity.
Qed.

(** The clamp the Home page has.  On a well-typed ledger the value
    computed for the progress bar exists and is at most 1 whatever the
    budget; it is not negative when the sum of the month is not negative.
    When no amount of the ledger is negative the value lies between 0 and
    1 and the Home page hands it to the progress bar. *)
Lemma progress_clamped (pd : pandas) (now : date) (s : session_state) :
  ledger_ok (expenses s) = true ->
  exists m p,
    monthly_expenses pd now (expenses s) = Ok m /\
    progress m (monthly_budget s) = Ok p /\
    (p <= 1)%Q /\
    ((0 <= m)%Q -> (0 <= p <= 1)%Q) /\
    (nonneg_amounts (expenses s) = true ->
     (0 <= p <= 1)%Q /\
     outcome (home_page pd now s) = Ok tt /\
     In (st_progress p) (rendered (home_page pd now s))).
Proof.
  intros Hok.
  destruct (monthly_expenses_ok pd now _ Hok) as (dates & amounts & _ & _ & _ & Hm).
  eexists. destruct (progress_value
    (if empty (expenses s) then 0%Q
     else Qsum (map number_of (map fst (filter snd
            (combine amounts (map (in_month now) (coerce pd dates)))))))
    (monthly_budget s)) as (p & Hp & Hle & Hge & _).
  exists p. split; [exact Hm|]. split; [exact Hp|]. split; [exact Hle|].
  split; [tauto|].
  intros Hnn.
  pose proof (monthly_expenses_nonneg pd now _ Hok Hnn Hm) as Hm0.
  specialize (Hge Hm0).
  split; [tauto|].
  destruct (home_page_run pd now s Hok Hm Hp) as (cards & Hrun).
  assert (Hb : Qle_bool 0 p && Qle_bool p 1 = true).
  { apply andb_true_iff. split; now apply Qle_bool_iff. }
  rewrite Hb in Hrun. rewrite Hrun. split; [reflexivity|].
  unfold rendered. simpl. apply in_or_app. right. simpl. tauto.
Qed.

Lemma progress_clamped_witness :
  exists m p,
    monthly_expenses iso_pandas jan15 (expenses sample_session) = Ok m /\
    progress m (monthly_budget sample_session) = Ok p /\
    (p <= 1)%Q /\
    ((0 <= m)%Q -> (0 <= p <= 1)%Q) /\
    (nonneg_amounts (expenses sample_session) = true ->
     (0 <= p <= 1)%Q /\
     outcome (home_page iso_pandas jan15 sample_session) = Ok tt /\
     In (st_progress p) (rendered (home_page iso_pandas jan15 sample_session))).
Proof.
  apply (progress_clamped iso_pandas jan15 sample_session). reflexivity.
Defined.

(** With a positive budget a negative sum of the month passes the clamp
    as it is: the value for the progress bar is negative. *)
Lemma progress_negative (m b : Q) :
  (m < 0)%Q -> (0 < b)%Q ->
  exists p, progress m b = Ok p /\ (p < 0)%Q.
Proof.
  intros Hm Hb. unfold progress.
  assert (Hlt : Qlt_bool 0 b = true) by (now apply Qlt_bool_iff).
  assert (Hnz : Qeq_bool b 0 = false).
  { destruct (Qeq_bool b 0) eqn:E; [|reflexivity].
    apply Qeq_bool_iff in E. rewrite E in Hb. now apply Qlt_irrefl in Hb. }
  unfold true_divide. rewrite Hlt, Hnz. cbn [rbind].
  assert (Hneg : (m / b < 0)%Q).
  { apply Qlt_shift_div_r; [exact Hb|]. now rewrite Qmult_0_l. }
  assert (Hle : Qle_bool (m / b) 1 = true).
  { apply Qle_bool_iff. apply Qlt_le_weak. eapply Qlt_trans; [exact Hneg|reflexivity]. }
  rewrite Hle. eauto.
Qed.

(** C2. The claim fails on the code, which clamps the ratio from above
    only: [progress if progress <= 1 else 1].  Every value it computes
    is at most 1, but with a positive budget every negative sum of the
    month gives a negative value.  Such a sum is reachable: the Add form
    keeps amounts at 0 or more, the import does not.  A file with a
    refund of 5.0 dated in the current month is imported without
    complaint and the ledger is well-typed; with a budget of 10 the value
    handed to the progress bar is -5/10, below 0, the progress bar
    refuses it and the run of the Home page ends in its exception. *)
Theorem refund_breaks_lower_bound :
  (forall m b, exists p, progress m b = Ok p /\ (p <= 1)%Q) /\
  (forall m b, (m < 0)%Q -> (0 < b)%Q -> exists p, progress m b = Ok p /\ (p < 0)%Q) /\
  rendered (load_expenses_from_file iso_pandas (Some file_with_refund)
              (state_after (set_monthly_budget 10 initial_session))) =
    [st_success "Expenses loaded successfully!"] /\
  ledger_ok (expenses refund_session) = true /\
  monthly_expenses iso_pandas jan15 (expenses refund_session) = Ok (-5 # 1) /\
  progress (-5 # 1) (monthly_budget refund_session) = Ok (-5 # 10) /\
  ~ (0 <= -5 # 10)%Q /\
  outcome (home_page iso_pandas jan15 refund_session) = Raise StreamlitAPIException.
Proof.
  split.
  { intros m b. destruct (progress_value m b) as (p & Hp & Hle & _). eauto. }
  split; [exact progress_negative|].
  repeat split; try reflexivity.
  intros H. vm_compute in H. apply H. reflexivity.
Qed.

(** C3. With a budget of zero the value for the progress bar is
    computed and is 0, for every well-typed ledger and every current
    month; the Home page hands 0 to the progress bar; and whatever the
    sum and the budget, computing the value never divides by zero. *)
Theorem zero_budget_progress (pd : pandas) (now : date) (s : session_state) :
  ledger_ok (expenses s) = true ->
  (monthly_budget s == 0)%Q ->
  (exists m, monthly_expenses pd now (expenses s) = Ok m /\
             progress m (monthly_budget s) = Ok 0%Q) /\
  (forall m b, progress m b <> Raise ZeroDivisionError) /\
  outcome (home_page pd now s) = Ok tt /\
  In (st_progress 0) (rendered (home_page pd now s)).
Proof.
  intros Hok Hb.
  destruct (monthly_expenses_ok pd now _ Hok) as (dates & amounts & _ & _ & _ & Hm).
  match type of Hm with _ = Ok ?x => set (m := x) in * end.
  destruct (progress_value m (monthly_budget s)) as (p & Hp & _ & _ & Hz).
  assert (Hp0 : p = 0%Q).
  { apply Hz. rewrite Hb. apply Qlt_irrefl. }
  subst p. split; [|split].
  - exists m. split; assumption.
  - apply progress_never_divides_by_zero.
  - destruct (home_page_run pd now s Hok Hm Hp) as (cards & Hrun).
    simpl in Hrun. rewrite Hrun. split; [reflexivity|].
    unfold rendered. simpl. apply in_or_app. right. simpl. tauto.
Qed.

Lemma zero_budget_progress_witness :
  (exists m, monthly_expenses iso_pandas jan15 (expenses zero_budget_session) = Ok m /\
             progress m (monthly_budget zero_budget_session) = Ok 0%Q) /\
  (forall m b, progress m b <> Raise ZeroDivisionError) /\
  outcome (home_page iso_pandas jan15 zero_budget_session) = Ok tt /\
  In (st_progress 0) (rendered (home_page iso_pandas jan15 zero_budget_session)).
Proof.
  apply (zero_budget_progress iso_pandas jan15 zero_budget_session); reflexivity.
Defined.

(* ===================================================================== *)
(** * Group sums *)
(* ===================================================================== *)

Lemma date_eqb_refl (d : date) : date_eqb d d = true.
Proof. unfold date_eqb. now rewrite !Z.eqb_refl. Qed.

Lemma date_eqb_eq (d e : date) : date_eqb d e = true -> d = e.
Proof.
  unfold date_eqb. intros H.
  apply andb_true_iff in H as [H Hd]. apply andb_true_iff in H as [Hy Hm].
  apply Z.eqb_eq in Hy, Hm, Hd. destruct d, e; simpl in *. congruence.
Qed.

Lemma cell_eqb_refl (c : cell) : cell_eqb c c = true.
Proof.
  destruct c as [|q|t|b|d]; simpl.
  - reflexivity.
  - apply Qeq_bool_refl.
  - apply String.eqb_refl.
  - now destruct b.
  - apply date_eqb_refl.
Qed.

Lemma cell_eqb_sym (a b : cell) : cell_eqb a b = cell_eqb b a.
Proof.
  destruct a as [|p|s|x|d], b as [|q|t|y|e]; simpl; try reflexivity.
  - apply Qeq_bool_comm.
  - apply String.eqb_sym.
  - now destruct x, y.
  - unfold date_eqb. now rewrite (Z.eqb_sym (year d)), (Z.eqb_sym (month d)),
      (Z.eqb_sym (day d)).
Qed.

Lemma cell_eqb_trans (a b c : cell) :
  cell_eqb a b = true -> cell_eqb b c = true -> cell_eqb a c = true.
Proof.
  destruct a as [|p|s|x|d], b as [|q|t|y|e], c as [|r|u|z|f]; simpl;
    try discriminate; try reflexivity.
  - apply Qeq_bool_trans.
  - intros H1 H2. apply String.eqb_eq in H1, H2. subst. apply String.eqb_refl.
  - destruct x, y, z; simpl; congruence.
  - intros H1 H2. apply date_eqb_eq in H1, H2. subst. apply date_eqb_refl.
Qed.

(** Two keys that are equal select the same rows. *)
Lemma cell_eqb_congr (a b c : cell) :
  cell_eqb a b = true -> cell_eqb c a = cell_eqb c b.
Proof.
  intros Hab. destruct (cell_eqb c a) eqn:Hca.
  - symmetry. eapply cell_eqb_trans; eauto.
  - destruct (cell_eqb c b) eqn:Hcb; [|reflexivity].
    rewrite cell_eqb_sym in Hab.
    rewrite (cell_eqb_trans _ _ _ Hcb Hab) in Hca. discriminate.
Qed.

Lemma cell_eqb_NaN (c : cell) : notna c = true -> cell_eqb NaN c = false.
Proof. now destruct c. Qed.

Lemma Qsum_app (l l' : list Q) : (Qsum (l ++ l') == Qsum l + Qsum l')%Q.
Proof.
  induction l as [|q l IH]; simpl.
  - ring.
  - rewrite IH. ring.
Qed.

Lemma Qsum_perm {A} (f : A -> Q) (l l' : list A) :
  Permutation l l' -> (Qsum (map f l) == Qsum (map f l'))%Q.
Proof.
  induction 1 as [|x l l' _ IH|x y l|l l' l'' _ IH1 _ IH2]; simpl.
  - reflexivity.
  - now rewrite IH.
  - ring.
  - now rewrite IH1.
Qed.

Lemma insert_sorted_perm (x : cell) (l : list cell) :
  Permutation (insert_sorted x l) (x :: l).
Proof.
  induction l as [|y l IH]; simpl; [reflexivity|].
  destruct (cell_leb x y); [reflexivity|].
  rewrite IH. apply perm_swap.
Qed.

Lemma sort_cells_perm (l : list cell) : Permutation (sort_cells l) l.
Proof.
  induction l as [|x l IH]; simpl; [reflexivity|].
  rewrite insert_sorted_perm. now constructor.
Qed.

Lemma filter_filter_keep {A} (p q : A -> bool) (l : list A) :
  (forall x, p x = true -> q x = true) ->
  filter p (filter q l) = filter p l.
Proof.
  intros H. induction l as [|x l IH]; simpl; [reflexivity|].
  destruct (q x) eqn:Hq; simpl.
  - now rewrite IH.
  - destruct (p x) eqn:Hp; [|assumption].
    rewrite (H x Hp) in Hq. discriminate.
Qed.

Lemma filter_filter_none {A} (p q : A -> bool) (l : list A) :
  (forall x, p x = true -> q x = false) ->
  filter p (filter q l) = [].
Proof.
  intros H. induction l as [|x l IH]; simpl; [reflexivity|].
  destruct (q x) eqn:Hq; simpl; [|assumption].
  destruct (p x) eqn:Hp; [|assumption].
  rewrite (H x Hp) in Hq. discriminate.
Qed.

Lemma dedup_incl (l : list cell) (x : cell) : In x (dedup l) -> In x l.
Proof.
  revert x. induction l as [|y l IH]; simpl; intros x; [tauto|].
  intros [->|H]; [now left|].
  right. apply IH. apply filter_In in H. tauto.
Qed.

(** Every value of a list has exactly one equal value in [dedup]. *)
Lemma dedup_once (l : list cell) (k : cell) :
  (exists x, In x l /\ cell_eqb k x = true) ->
  List.length (filter (cell_eqb k) (dedup l)) = 1%nat.
Proof.
  induction l as [|y l IH]; simpl.
  - intros (x & [] & _).
  - intros (x & Hx & Hk).
    destruct (cell_eqb k y) eqn:Hky; simpl.
    + rewrite filter_filter_none; [reflexivity|].
      intros z Hz. apply negb_false_iff.
      rewrite cell_eqb_sym in Hz.
      exact (cell_eqb_trans _ _ _ Hz Hky).
    + rewrite filter_filter_keep.
      * apply IH. destruct Hx as [->|Hx]; [congruence|]. eauto.
      * intros z Hz. apply negb_true_iff.
        destruct (cell_eqb z y) eqn:Hzy; [|reflexivity].
        rewrite (cell_eqb_trans _ _ _ Hz Hzy) in Hky. discriminate.
Qed.

Lemma indicator_sum (p : cell -> bool) (q : Q) (ks : list cell) :
  (Qsum (map (fun k => if p k then q else 0) ks) ==
   inject_Z (Z.of_nat (List.length (filter p ks))) * q)%Q.
Proof.
  induction ks as [|k ks IH]; simpl.
  - ring.
  - destruct (p k); simpl.
    + rewrite IH. rewrite Zpos_P_of_succ_nat. unfold Z.succ.
      rewrite inject_Z_plus. ring.
    + rewrite IH. ring.
Qed.

Lemma group_total_cons (k k0 : cell) (q0 : Q) (kvs : list (cell * Q)) :
  (group_total k ((k0, q0) :: kvs) ==
   (if cell_eqb k0 k then q0 else 0) + group_total k kvs)%Q.
Proof.
  unfold group_total. simpl. destruct (cell_eqb k0 k); simpl; ring.
Qed.

Lemma Qsum_map_plus {A} (f g : A -> Q) (l : list A) :
  (Qsum (map (fun x => f x + g x) l) == Qsum (map f l) + Qsum (map g l))%Q.
Proof.
  induction l as [|x l IH]; simpl.
  - ring.
  - rewrite IH. ring.
Qed.

Lemma Qsum_map_ext {A} (f g : A -> Q) (l : list A) :
  (forall x, In x l -> (f x == g x)%Q) ->
  (Qsum (map f l) == Qsum (map g l))%Q.
Proof.
  induction l as [|x l IH]; simpl; intros H.
  - reflexivity.
  - rewrite (H x) by now left. rewrite IH; [reflexivity|].
    intros y Hy. apply H. now right.
Qed.

(** The totals of groups that represent every key once add up to the
    sum of all values. *)
Lemma group_totals_sum (ks : list cell) (kvs : list (cell * Q)) :
  (forall kv, In kv kvs -> List.length (filter (cell_eqb (fst kv)) ks) = 1%nat) ->
  (Qsum (map (fun k => group_total k kvs) ks) == Qsum (map snd kvs))%Q.
Proof.
  induction kvs as [|[k0 q0] kvs IH]; intros H; simpl.
  - unfold group_total. simpl. clear H.
    induction ks as [|k ks IHk]; simpl; [reflexivity|]. rewrite IHk. ring.
  - rewrite (Qsum_map_ext _
      (fun k => (if cell_eqb k0 k then q0 else 0) + group_total k kvs)%Q).
    + rewrite Qsum_map_plus, (indicator_sum (cell_eqb k0)), IH.
      * pose proof (H (k0, q0) (or_introl eq_refl)) as Hone. simpl in Hone.
        rewrite Hone. simpl. ring.
      * intros kv Hkv. apply H. now right.
    + intros k _. apply group_total_cons.
Qed.

Lemma combine_fst {A B} (l : list A) (l' : list B) :
  List.length l = List.length l' -> map fst (combine l l') = l.
Proof.
  revert l'. induction l as [|x l IH]; intros [|y l'] H; simpl in *;
    try reflexivity; try discriminate.
  f_equal. apply IH. lia.
Qed.

Lemma combine_snd {A B} (l : list A) (l' : list B) :
  List.length l = List.length l' -> map snd (combine l l') = l'.
Proof.
  revert l'. induction l as [|x l IH]; intros [|y l'] H; simpl in *;
    try reflexivity; try discriminate.
  f_equal. apply IH. lia.
Qed.

Lemma filter_all {A} (p : A -> bool) (l : list A) :
  forallb p l = true -> filter p l = l.
Proof.
  induction l as [|x l IH]; simpl; [reflexivity|].
  intros H. apply andb_true_iff in H as [Hx Hl]. rewrite Hx. now rewrite IH.
Qed.

(** Conservation: when no key is missing, the group totals add up to
    the sum of the values. *)
Lemma groupby_conservation (keys : list cell) (qs : list Q) :
  List.length keys = List.length qs ->
  forallb notna keys = true ->
  (Qsum (map (fun k => group_total k (combine keys qs)) (group_keys keys)) == Qsum qs)%Q.
Proof.
  intros Hlen Hna. unfold group_keys. rewrite (filter_all _ _ Hna).
  rewrite (Qsum_perm _ (sort_cells_perm (dedup keys))).
  rewrite group_totals_sum.
  - now rewrite combine_snd.
  - intros [k q] Hkv. simpl. apply dedup_once.
    exists k. split; [|apply cell_eqb_refl].
    apply in_combine_l in Hkv. assumption.
Qed.

Lemma groupby_sum_ok (keys values : list cell) :
  forallb summable values = true ->
  groupby_sum keys values =
    Ok (map (fun k => (k, group_total k (combine keys (map number_of values))))
          (group_keys keys)).
Proof. intros H. unfold groupby_sum. now rewrite rmap_as_number. Qed.

(* ===================================================================== *)
(** * The charts of the Visualizations page *)
(* ===================================================================== *)

Lemma replace_nth_nth_id {A} (i : nat) (d : A) (l : list A) :
  replace_nth i (nth i l d) l = l.
Proof.
  revert i. induction l as [|h t IH]; intros i; destruct i; simpl;
    try reflexivity.
  now rewrite IH.
Qed.

Lemma setitem_getitem_id (df : DataFrame) (label : string) (s : list cell) :
  getitem df label = Ok s -> setitem df label s = df.
Proof.
  unfold getitem, setitem.
  destruct (index_of label (columns df)) as [i|]; [|discriminate].
  intros H. injection H as <-. destruct df as [cols rs]. simpl. f_equal.
  induction rs as [|r rs IH]; simpl; [reflexivity|].
  now rewrite replace_nth_nth_id, IH.
Qed.

Lemma coerced_ledger_datetime (pd : pandas) (df : DataFrame) (dates : list cell) :
  getitem df "Date" = Ok dates ->
  is_datetime64_any_dtype dates = true ->
  coerced_ledger pd df = df.
Proof.
  intros Hd Hdt. unfold coerced_ledger. rewrite Hd.
  rewrite (coerce_datetime_id pd dates Hdt). now apply setitem_getitem_id.
Qed.

Section Coerced.

Variables (pd : pandas) (df : DataFrame).
Hypothesis Hok : ledger_ok df = true.

Lemma coerced_columns : columns (coerced_ledger pd df) = columns df.
Proof.
  destruct (ledger_ok_columns df Hok) as (_ & (i & dates & Hi & Hd & _) & _).
  unfold coerced_ledger. rewrite Hd. now apply setitem_columns with (i := i).
Qed.

Lemma coerced_shape :
  List.length (rows (coerced_ledger pd df)) = List.length (rows df).
Proof.
  destruct (ledger_ok_columns df Hok) as (_ & (i & dates & Hi & Hd & _) & _).
  unfold coerced_ledger. rewrite Hd. apply setitem_shape with (i := i); [assumption|].
  rewrite coerce_length. eapply getitem_length; eauto.
Qed.

Lemma coerced_empty : empty (coerced_ledger pd df) = empty df.
Proof. unfold empty. now rewrite coerced_columns, coerced_shape. Qed.

Lemma coerced_other (label : string) :
  label <> "Date" -> getitem (coerced_ledger pd df) label = getitem df label.
Proof.
  intros Hne.
  destruct (ledger_ok_columns df Hok) as (_ & (i & dates & Hi & Hd & _) & _).
  unfold coerced_ledger. rewrite Hd.
  apply getitem_setitem_other with (i := i); try assumption.
  rewrite coerce_length. eapply getitem_length; eauto.
Qed.

Lemma coerced_dates (dates : list cell) :
  getitem df "Date" = Ok dates ->
  getitem (coerced_ledger pd df) "Date" = Ok (coerce pd dates).
Proof.
  intros Hd.
  destruct (ledger_ok_columns df Hok) as (Hrect & (i & dates' & Hi & Hd' & _) & _).
  unfold coerced_ledger. rewrite Hd.
  apply getitem_setitem_same with (i := i); try assumption.
  rewrite coerce_length. eapply getitem_length; eauto.
Qed.

Lemma coerced_rectangular : rectangular (coerced_ledger pd df) = true.
Proof.
  destruct (ledger_ok_columns df Hok) as (Hrect & (i & dates & Hi & Hd & _) & _).
  unfold coerced_ledger. rewrite Hd. now apply setitem_rectangular with (i := i).
Qed.

Lemma coerced_ledger_ok : ledger_ok (coerced_ledger pd df) = true.
Proof.
  pose proof Hok as H. unfold ledger_ok in H |- *.
  apply andb_true_iff in H as [H Hdate].
  apply andb_true_iff in H as [H Hamount].
  apply andb_true_iff in H as [Hcols Hrect].
  rewrite coerced_columns, Hcols, coerced_rectangular. simpl.
  unfold column_ok in *.
  rewrite (coerced_other (label := "Amount")) by discriminate.
  rewrite Hamount. simpl.
  destruct (getitem df "Date") as [dates|] eqn:Hd; [|discriminate].
  rewrite (coerced_dates Hd).
  apply datetime_is_datelike, coerce_is_datetime.
Qed.

Lemma coerced_twice : coerced_ledger pd (coerced_ledger pd df) = coerced_ledger pd df.
Proof.
  destruct (ledger_ok_columns df Hok) as (_ & (i & dates & Hi & Hd & _) & _).
  apply coerced_ledger_datetime with (dates := coerce pd dates).
  - now apply coerced_dates.
  - apply coerce_is_datetime.
Qed.

Lemma coerced_cat_summary : cat_summary (coerced_ledger pd df) = cat_summary df.
Proof.
  unfold cat_summary, groupby_amount.
  rewrite (coerced_other (label := "Category")) by discriminate.
  now rewrite (coerced_other (label := "Amount")) by discriminate.
Qed.

End Coerced.

(** On a well-typed ledger with rows the Visualizations page stores the
    coerced dates in the session and renders the two charts. *)
Lemma show_visualizations_run (pd : pandas) (s : session_state) :
  ledger_ok (expenses s) = true ->
  empty (expenses s) = false ->
  exists g l,
    cat_summary (expenses s) = Ok g /\
    time_summary (coerced_ledger pd (expenses s)) = Ok l /\
    show_visualizations pd s =
      (Ok tt, with_expenses (coerced_ledger pd (expenses s)) s,
       [bar_chart g; line_chart l]).
Proof.
  intros Hok Hne.
  destruct (ledger_ok_columns _ Hok)
    as (Hrect & (i & dates & Hi & Hd & Hdl) & (cats & Hc) & (amounts & Ha & Hsum)).
  pose proof (@coerced_cat_summary pd _ Hok) as Hcat.
  assert (Hg : exists g, cat_summary (expenses s) = Ok g).
  { unfold cat_summary, groupby_amount. rewrite Hc, Ha. simpl.
    rewrite (groupby_sum_ok _ _ Hsum). eauto. }
  destruct Hg as [g Hg].
  assert (Hl : exists l, time_summary (coerced_ledger pd (expenses s)) = Ok l).
  { unfold time_summary, groupby_amount.
    rewrite (@coerced_dates pd _ Hok _ Hd).
    rewrite (@coerced_other pd _ Hok "Amount") by discriminate.
    rewrite Ha. simpl. rewrite (groupby_sum_ok _ _ Hsum). simpl. eauto. }
  destruct Hl as [l Hl].
  exists g, l. split; [assumption|]. split; [assumption|].
  unfold show_visualizations, bind, get, lift, emit, set_expenses.
  rewrite Hne, Hd.
  destruct (is_datetime64_any_dtype dates) eqn:Hdt; cbn [negb].
  - rewrite (@coerced_ledger_datetime pd _ _ Hd Hdt) in Hl |- *.
    cbn -[cat_summary time_summary]. rewrite Hg.
    cbn -[cat_summary time_summary]. rewrite Hl.
    destruct s; reflexivity.
  - rewrite (to_datetime_ok pd dates Hdl).
    cbn -[cat_summary time_summary setitem].
    replace (setitem (expenses s) "Date" (coerce pd dates))
      with (coerced_ledger pd (expenses s))
      by (unfold coerced_ledger; now rewrite Hd).
    rewrite Hcat, Hg. cbn -[cat_summary time_summary]. rewrite Hl. reflexivity.
Qed.

(** C4, as the code has it. On a well-typed ledger in which no record
    lacks its category, the totals of the category groups add up to the
    total of all amounts; for a ledger with rows these groups are the bar
    chart the Visualizations page renders. *)
Theorem category_totals_conserve (pd : pandas) (s : session_state) :
  ledger_ok (expenses s) = true ->
  column_ok (expenses s) "Category" notna = true ->
  exists g t,
    cat_summary (expenses s) = Ok g /\
    total_expense (expenses s) = Ok t /\
    (Qsum (map snd g) == t)%Q /\
    (empty (expenses s) = false ->
     exists l, rendered (show_visualizations pd s) = [bar_chart g; line_chart l]).
Proof.
  intros Hok Hcat.
  destruct (ledger_ok_columns _ Hok)
    as (_ & _ & (cats & Hc) & (amounts & Ha & Hsum)).
  unfold column_ok in Hcat. rewrite Hc in Hcat.
  exists (map (fun k => (k, group_total k (combine cats (map number_of amounts))))
            (group_keys cats)),
         (Qsum (map number_of amounts)).
  assert (Hg : cat_summary (expenses s) =
               Ok (map (fun k => (k, group_total k (combine cats (map number_of amounts))))
                     (group_keys cats))).
  { unfold cat_summary, groupby_amount. rewrite Hc, Ha. simpl.
    now apply groupby_sum_ok. }
  split; [exact Hg|]. split.
  - unfold total_expense. rewrite Ha. simpl. now apply series_sum_ok.
  - split.
    + rewrite map_map. simpl. apply groupby_conservation; [|assumption].
      rewrite length_map. rewrite (getitem_length _ _ Hc).
      symmetry. eapply getitem_length; eauto.
    + intros Hne.
      destruct (show_visualizations_run pd s Hok Hne) as (g & l & Hg' & _ & Hrun).
      rewrite Hg in Hg'. injection Hg' as <-.
      exists l. now rewrite Hrun.
Qed.

Lemma category_totals_conserve_witness :
  exists g t,
    cat_summary (expenses sample_session) = Ok g /\
    total_expense (expenses sample_session) = Ok t /\
    (Qsum (map snd g) == t)%Q /\
    (empty (expenses sample_session) = false ->
     exists l, rendered (show_visualizations iso_pandas sample_session) =
                 [bar_chart g; line_chart l]).
Proof.
  apply (category_totals_conserve iso_pandas sample_session); reflexivity.
Defined.

(** C4, against the claim as stated. A file whose only record has an
    empty Category field is imported without complaint; the record
    belongs to no category group, so the groups add up to 0 while the
    total of the ledger is 5. *)
Lemma blank_category_breaks_conservation :
  rendered (load_expenses_from_file iso_pandas (Some file_blank_category) initial_session) =
    [st_success "Expenses loaded successfully!"] /\
  ledger_ok (expenses blank_category_session) = true /\
  cat_summary (expenses blank_category_session) = Ok [] /\
  rendered (show_visualizations iso_pandas blank_category_session) =
    [bar_chart []; line_chart [(Timestamp (mkdate 2025 1 1), 5%Q)]] /\
  total_expense (expenses blank_category_session) = Ok 5%Q /\
  ~ (Qsum (map snd (@nil (cell * Q))) == 5)%Q.
Proof.
  repeat split; try reflexivity.
  intros H. vm_compute in H. discriminate.
Qed.

Lemma ledger_ok_rows_empty (df : DataFrame) :
  ledger_ok df = true -> empty df = true -> rows df = [].
Proof.
  intros Hok He.
  destruct (ledger_ok_columns df Hok) as (_ & (i & dates & Hi & _) & _).
  apply index_of_lt in Hi. unfold empty in He.
  apply orb_true_iff in He as [He|He]; apply Nat.eqb_eq in He; [lia|].
  now apply length_zero_iff_nil.
Qed.

Lemma coerced_ledger_empty (pd : pandas) (df : DataFrame) :
  ledger_ok df = true -> empty df = true -> coerced_ledger pd df = df.
Proof.
  intros Hok He.
  pose proof (ledger_ok_rows_empty df Hok He) as Hr.
  pose proof (@coerced_columns pd df Hok) as Hc.
  pose proof (@coerced_shape pd df Hok) as Hs.
  destruct (coerced_ledger pd df) as [c r], df as [c' r']. simpl in *. subst.
  apply length_zero_iff_nil in Hs. now subst.
Qed.

(** Whatever the ledger holds, the Visualizations page leaves behind the
    session with the Date column coerced and nothing else changed. *)
Lemma show_visualizations_effect (pd : pandas) (s : session_state) :
  ledger_ok (expenses s) = true ->
  exists out,
    show_visualizations pd s =
      (Ok tt, with_expenses (coerced_ledger pd (expenses s)) s, out).
Proof.
  intros Hok. destruct (empty (expenses s)) eqn:He.
  - rewrite (coerced_ledger_empty pd _ Hok He).
    unfold show_visualizations, bind, get, emit. rewrite He.
    eexists. destruct s; reflexivity.
  - destruct (show_visualizations_run pd s Hok He) as (g & l & _ & _ & Hrun).
    eauto.
Qed.

(** C6, as the code has it. The Home page, which computes the totals
    and the monthly utilization, leaves the session state as it was.  The
    Visualizations page, which computes the category and time views,
    changes one thing: it stores the Date column coerced to dates in the
    ledger (an unreadable date becomes a missing value).  The budget, the
    images, the columns, the number and order of the rows and every
    other column stay as they were, and computing the views again
    renders the same charts and changes nothing further. *)
Theorem views_effect_on_session (pd : pandas) (now : date) (s : session_state) :
  ledger_ok (expenses s) = true ->
  let s' := state_after (show_visualizations pd s) in
  state_after (home_page pd now s) = s /\
  s' = with_expenses (coerced_ledger pd (expenses s)) s /\
  monthly_budget s' = monthly_budget s /\
  profile_image s' = profile_image s /\
  banner_image s' = banner_image s /\
  columns (expenses s') = columns (expenses s) /\
  List.length (rows (expenses s')) = List.length (rows (expenses s)) /\
  (forall label, label <> "Date" ->
                 getitem (expenses s') label = getitem (expenses s) label) /\
  (exists dates, getitem (expenses s) "Date" = Ok dates /\
                 getitem (expenses s') "Date" = Ok (coerce pd dates)) /\
  show_visualizations pd s' =
    (outcome (show_visualizations pd s), s', rendered (show_visualizations pd s)) /\
  state_after (home_page pd now s') = s'.
Proof.
  intros Hok s'.
  destruct (show_visualizations_effect pd s Hok) as (out & Hrun).
  assert (Hs' : s' = with_expenses (coerced_ledger pd (expenses s)) s).
  { unfold s'. now rewrite Hrun. }
  destruct (ledger_ok_columns _ Hok) as (_ & (i & dates & Hi & Hd & _) & _).
  split; [apply home_page_keeps_state|].
  split; [exact Hs'|].
  rewrite Hs'. simpl.
  split; [reflexivity|]. split; [reflexivity|]. split; [reflexivity|].
  split; [now apply coerced_columns|].
  split; [now apply coerced_shape|].
  split; [intros label Hl; now apply coerced_other|].
  split; [exists dates; split; [assumption|now apply coerced_dates]|].
  split; [|apply home_page_keeps_state].
  destruct (empty (expenses s)) eqn:He.
  - rewrite (coerced_ledger_empty pd _ Hok He) in Hrun |- *.
    replace (with_expenses (expenses s) s) with s in Hrun |- *
      by (destruct s; reflexivity).
    now rewrite Hrun.
  - destruct (show_visualizations_run pd s Hok He) as (g & l & Hg & Hl & Hrun').
    rewrite Hrun'. unfold outcome, rendered. simpl.
    set (t := with_expenses (coerced_ledger pd (expenses s)) s).
    assert (Hokt : ledger_ok (expenses t) = true) by (now apply coerced_ledger_ok).
    assert (Het : empty (expenses t) = false).
    { unfold t. simpl. now rewrite coerced_empty. }
    destruct (show_visualizations_run pd t Hokt Het) as (g' & l' & Hg' & Hl' & Hrunt).
    rewrite Hrunt. unfold t in Hg', Hl' |- *. simpl in Hg', Hl' |- *.
    rewrite (@coerced_cat_summary pd _ Hok), Hg in Hg'. injection Hg' as <-.
    rewrite (@coerced_twice pd _ Hok) in Hl' |- *. rewrite Hl in Hl'.
    injection Hl' as <-. reflexivity.
Qed.

Lemma views_effect_on_session_witness :
  state_after (home_page iso_pandas jan15 sample_session) = sample_session /\
  columns (expenses (state_after (show_visualizations iso_pandas sample_session))) =
    columns (expenses sample_session).
Proof.
  pose proof (views_effect_on_session iso_pandas jan15 sample_session eq_refl) as H.
  cbv zeta in H. split; [apply H|apply H].
Defined.

(** C6, against the claim as stated. After importing a file whose first
    record is dated 30 February, computing the views replaces the dates
    held in the ledger: the text of the date that could not be read is
    gone, the other date is no longer text, and an export made afterwards
    writes an empty Date field for the first record. *)
Lemma visualizations_rewrite_dates :
  getitem (expenses junk_date_session) "Date" = Ok [Text "2025-02-30"; Text "2025-01-02"] /\
  outcome (show_visualizations iso_pandas junk_date_session) = Ok tt /\
  getitem (expenses (state_after (show_visualizations iso_pandas junk_date_session))) "Date" =
    Ok [NaN; Timestamp (mkdate 2025 1 2)] /\
  expenses (state_after (show_visualizations iso_pandas junk_date_session)) <>
    expenses junk_date_session /\
  to_csv iso_pandas (expenses junk_date_session) =
    [ ["Date"; "Category"; "Amount"; "Description"];
      ["2025-02-30"; ""; "5.0"; "Taxi"];
      ["2025-01-02"; "Food"; "3.0"; "Lunch"] ] /\
  to_csv iso_pandas (expenses (state_after (show_visualizations iso_pandas junk_date_session))) =
    [ ["Date"; "Category"; "Amount"; "Description"];
      [""; ""; "5.0"; "Taxi"];
      ["2025-01-02"; "Food"; "3.0"; "Lunch"] ].
Proof.
  repeat split; try reflexivity.
  vm_compute. discriminate.
Qed.

(* ===================================================================== *)
(** * Records whose date cannot be read *)
(* ===================================================================== *)

Lemma map_remove_nth {A B} (f : A -> B) (i : nat) (l : list A) :
  map f (remove_nth i l) = remove_nth i (map f l).
Proof.
  revert i. induction l as [|x l IH]; intros i; destruct i; simpl;
    try reflexivity.
  now rewrite IH.
Qed.

Lemma remove_nth_length {A} (i : nat) (l : list A) :
  (i < List.length l)%nat -> S (List.length (remove_nth i l)) = List.length l.
Proof.
  revert i. induction l as [|x l IH]; intros i H; simpl in *; [lia|].
  destruct i; simpl; [reflexivity|]. rewrite IH by lia. reflexivity.
Qed.

Lemma getitem_drop_row (df : DataFrame) (label : string) (i : nat) (s : list cell) :
  getitem df label = Ok s -> getitem (drop_row i df) label = Ok (remove_nth i s).
Proof.
  unfold getitem, drop_row. simpl.
  destruct (index_of label (columns df)); [|discriminate].
  intros H. injection H as <-. f_equal. apply map_remove_nth.
Qed.

Lemma forallb_remove_nth {A} (p : A -> bool) (i : nat) (l : list A) :
  forallb p l = true -> forallb p (remove_nth i l) = true.
Proof.
  revert i. induction l as [|x l IH]; intros i H; destruct i; simpl in *;
    try reflexivity; apply andb_true_iff in H as [Hx Hl]; [assumption|].
  rewrite Hx. now apply IH.
Qed.

(** A row with a missing key belongs to no group: removing it changes
    neither the keys nor any group total. *)
Lemma filter_notna_remove (i : nat) (keys : list cell) :
  nth i keys NaN = NaN -> filter notna (remove_nth i keys) = filter notna keys.
Proof.
  revert i. induction keys as [|k keys IH]; intros i H; destruct i; simpl in *;
    try reflexivity.
  - now subst k.
  - now rewrite IH.
Qed.

Lemma group_total_remove (k : cell) (i : nat) (keys : list cell) (qs : list Q) :
  List.length keys = List.length qs ->
  nth i keys NaN = NaN ->
  notna k = true ->
  group_total k (combine (remove_nth i keys) (remove_nth i qs)) =
  group_total k (combine keys qs).
Proof.
  intros Hlen Hi Hk. unfold group_total. f_equal. f_equal.
  revert i qs Hlen Hi.
  induction keys as [|x keys IH]; intros i [|q qs] Hlen Hi; simpl in *;
    try discriminate; destruct i; simpl; try reflexivity.
  - subst x. destruct k; simpl in *; try discriminate; reflexivity.
  - rewrite IH; [reflexivity|lia|assumption].
Qed.

Lemma group_keys_notna (keys : list cell) (k : cell) :
  In k (group_keys keys) -> notna k = true.
Proof.
  unfold group_keys. intros H.
  apply (Permutation_in _ (sort_cells_perm _)) in H.
  apply dedup_incl in H. apply filter_In in H. tauto.
Qed.

Lemma groupby_sum_remove (i : nat) (keys values : list cell) :
  List.length keys = List.length values ->
  forallb summable values = true ->
  nth i keys NaN = NaN ->
  groupby_sum (remove_nth i keys) (remove_nth i values) = groupby_sum keys values.
Proof.
  intros Hlen Hsum Hi.
  rewrite (groupby_sum_ok _ _ Hsum).
  rewrite (groupby_sum_ok _ _ (forallb_remove_nth _ i _ Hsum)).
  f_equal. unfold group_keys at 1. rewrite (filter_notna_remove _ _ Hi).
  fold (group_keys keys). apply map_ext_in. intros k Hk. f_equal.
  rewrite map_remove_nth. apply group_total_remove.
  - now rewrite length_map.
  - assumption.
  - eapply group_keys_notna; eauto.
Qed.

Lemma lookup_group_map (c : cell) (f : cell -> Q) (ks : list cell) :
  lookup_group c (map (fun k => (k, f k)) ks) =
  option_map f (find (fun k => cell_eqb k c) ks).
Proof.
  induction ks as [|k ks IH]; simpl; [reflexivity|].
  destruct (cell_eqb k c); [reflexivity|assumption].
Qed.

Lemma group_total_congr (a b : cell) (kvs : list (cell * Q)) :
  cell_eqb a b = true -> group_total a kvs = group_total b kvs.
Proof.
  intros H. unfold group_total. f_equal. f_equal.
  apply filter_ext. intros kv. now apply cell_eqb_congr.
Qed.

(** Every key that is not missing has a group. *)
Lemma group_keys_represent (keys : list cell) (c : cell) :
  In c keys -> notna c = true ->
  exists k, In k (group_keys keys) /\ cell_eqb k c = true.
Proof.
  intros Hin Hna.
  assert (Hone : List.length (filter (cell_eqb c) (dedup (filter notna keys))) = 1%nat).
  { apply dedup_once. exists c. split; [|apply cell_eqb_refl].
    apply filter_In. tauto. }
  destruct (filter (cell_eqb c) (dedup (filter notna keys))) as [|k rest] eqn:E;
    [discriminate|].
  assert (Hk : In k (filter (cell_eqb c) (dedup (filter notna keys)))).
  { rewrite E. now left. }
  apply filter_In in Hk as [Hk Hck].
  exists k. split.
  - unfold group_keys. apply (Permutation_in _ (Permutation_sym (sort_cells_perm _))).
    assumption.
  - now rewrite cell_eqb_sym.
Qed.

Lemma filter_none {A} (p : A -> bool) (l : list A) :
  (forall x, In x l -> p x = false) -> filter p l = [].
Proof.
  induction l as [|x l IH]; simpl; intros H; [reflexivity|].
  rewrite (H x) by now left. apply IH. intros y Hy. apply H. now right.
Qed.

(** The value a grouped frame lists for a key is the total of the rows
    with that key. *)
Lemma group_value_total (keys : list cell) (qs : list Q) (c : cell) :
  notna c = true ->
  group_value c (map (fun k => (k, group_total k (combine keys qs))) (group_keys keys)) =
  group_total c (combine keys qs).
Proof.
  intros Hna. unfold group_value. rewrite lookup_group_map.
  destruct (find (fun k => cell_eqb k c) (group_keys keys)) as [k|] eqn:E; simpl.
  - apply find_some in E as [_ Hk]. now apply group_total_congr.
  - unfold group_total.
    replace (filter (fun kv => cell_eqb (fst kv) c) (combine keys qs)) with
      (@nil (cell * Q)); [reflexivity|].
    symmetry. apply filter_none. intros [k q] Hkv. simpl.
    destruct (cell_eqb k c) eqn:Hkc; [|reflexivity].
    assert (Hnk : notna k = true) by (destruct k, c; simpl in *; congruence).
    destruct (group_keys_represent keys k) as (r & Hr & Hrk);
      [eapply in_combine_l; eauto|assumption|].
    pose proof (find_none _ _ E r Hr) as Hnone. simpl in Hnone.
    rewrite (cell_eqb_trans _ _ _ Hrk Hkc) in Hnone. discriminate.
Qed.

Lemma lookup_group_present (keys : list cell) (f : cell -> Q) (c : cell) :
  In c keys -> notna c = true ->
  exists v, lookup_group c (map (fun k => (k, f k)) (group_keys keys)) = Some v.
Proof.
  intros Hin Hna. rewrite lookup_group_map.
  destruct (find (fun k => cell_eqb k c) (group_keys keys)) as [k|] eqn:E; simpl.
  - eauto.
  - destruct (group_keys_represent keys c Hin Hna) as (r & Hr & Hrc).
    pose proof (find_none _ _ E r Hr) as Hnone. simpl in Hnone. congruence.
Qed.

Lemma group_total_split (c : cell) (i : nat) (keys : list cell) (qs : list Q) :
  List.length keys = List.length qs ->
  (i < List.length keys)%nat ->
  cell_eqb (nth i keys NaN) c = true ->
  (group_total c (combine keys qs) ==
   nth i qs 0 + group_total c (combine (remove_nth i keys) (remove_nth i qs)))%Q.
Proof.
  revert i qs.
  induction keys as [|k keys IH]; intros i [|q qs] Hlen Hi Hc; simpl in *;
    try discriminate; try lia.
  destruct i; simpl.
  - rewrite group_total_cons, Hc. reflexivity.
  - rewrite !group_total_cons. rewrite (IH i qs); [ring|lia|lia|assumption].
Qed.

Lemma Qsum_split (i : nat) (qs : list Q) :
  (i < List.length qs)%nat ->
  (Qsum qs == nth i qs 0 + Qsum (remove_nth i qs))%Q.
Proof.
  revert i. induction qs as [|q qs IH]; intros i Hi; simpl in *; [lia|].
  destruct i; simpl; [reflexivity|].
  rewrite (IH i) by lia. ring.
Qed.

Lemma nth_number_of (i : nat) (s : list cell) :
  nth i (map number_of s) 0%Q = number_of (nth i s NaN).
Proof. change 0%Q with (number_of NaN). apply map_nth. Qed.

Lemma cat_summary_ok (df : DataFrame) (cats amounts : list cell) :
  getitem df "Category" = Ok cats ->
  getitem df "Amount" = Ok amounts ->
  forallb summable amounts = true ->
  cat_summary df =
    Ok (map (fun k => (k, group_total k (combine cats (map number_of amounts))))
          (group_keys cats)).
Proof.
  intros Hc Ha Hsum. unfold cat_summary, groupby_amount. rewrite Hc, Ha. simpl.
  now apply groupby_sum_ok.
Qed.

(** C5, as the code has it. Take a well-typed ledger and a record of it
    whose date is not readable and whose category is not missing.  The
    time series the page renders is the time series of the ledger
    without that record; the bar chart has a group for the record's
    category, whose total is the record's amount added to what the other
    records of that category amount to; and the total of the ledger is
    the record's amount added to the total of the other records. *)
Theorem unparseable_date_scoping (pd : pandas) (s : session_state) (i : nat) :
  ledger_ok (expenses s) = true ->
  (i < List.length (rows (expenses s)))%nat ->
  cell_at (coerced_ledger pd (expenses s)) "Date" i = NaN ->
  notna (cell_at (expenses s) "Category" i) = true ->
  let s' := state_after (show_visualizations pd s) in
  let category := cell_at (expenses s) "Category" i in
  let amount := number_of (cell_at (expenses s) "Amount" i) in
  exists g l g' t t',
    rendered (show_visualizations pd s) = [bar_chart g; line_chart l] /\
    time_summary (drop_row i (expenses s')) = Ok l /\
    cat_summary (drop_row i (expenses s)) = Ok g' /\
    (exists v, lookup_group category g = Some v /\
               (v == amount + group_value category g')%Q) /\
    total_expense (expenses s) = Ok t /\
    total_expense (drop_row i (expenses s)) = Ok t' /\
    (t == amount + t')%Q.
Proof.
  intros Hok Hi Hdate Hcat. cbv zeta.
  set (s' := state_after (show_visualizations pd s)).
  destruct (ledger_ok_columns _ Hok)
    as (Hrect & (j & dates & Hj & Hd & Hdl) & (cats & Hc) & (amounts & Ha & Hsum)).
  pose proof (getitem_length _ _ Hd) as Hld.
  pose proof (getitem_length _ _ Hc) as Hlc.
  pose proof (getitem_length _ _ Ha) as Hla.
  assert (Hne : empty (expenses s) = false).
  { unfold empty. apply index_of_lt in Hj. apply orb_false_iff.
    split; apply Nat.eqb_neq; lia. }
  destruct (show_visualizations_run pd s Hok Hne) as (g & l & Hg & Hl & Hrun).
  assert (Hs' : expenses s' = coerced_ledger pd (expenses s)).
  { unfold s'. now rewrite Hrun. }
  set (qs := map number_of amounts).
  set (F := fun ks vs => map (fun k : cell => (k, group_total k (combine ks vs)))
                           (group_keys ks)).
  pose proof (cat_summary_ok _ Hc Ha Hsum) as Hg0. rewrite Hg in Hg0.
  injection Hg0 as ->.
  exists (F cats qs), l,
         (F (remove_nth i cats) (map number_of (remove_nth i amounts))),
         (Qsum qs), (Qsum (map number_of (remove_nth i amounts))).
  unfold cell_at in Hdate, Hcat |- *.
  rewrite (@coerced_dates pd _ Hok _ Hd) in Hdate.
  rewrite Hc in Hcat |- *. rewrite Ha.
  set (category := nth i cats NaN) in *.
  set (amount := number_of (nth i amounts NaN)).
  split; [now rewrite Hrun|].
  split.
  { rewrite Hs'. unfold time_summary, groupby_amount in Hl |- *.
    rewrite (getitem_drop_row _ _ i (@coerced_dates pd _ Hok _ Hd)).
    rewrite (@coerced_dates pd _ Hok _ Hd) in Hl.
    rewrite (@coerced_other pd _ Hok "Amount") in Hl by discriminate.
    rewrite (getitem_drop_row _ _ i
               (eq_trans (@coerced_other pd _ Hok "Amount" ltac:(discriminate)) Ha)).
    rewrite Ha in Hl. simpl in Hl |- *.
    rewrite groupby_sum_remove; [exact Hl| |assumption|assumption].
    rewrite coerce_length. lia. }
  split.
  { apply cat_summary_ok.
    - now apply getitem_drop_row.
    - now apply getitem_drop_row.
    - now apply forallb_remove_nth. }
  split.
  { assert (Hin : In (nth i cats NaN) cats) by (apply nth_In; lia).
    destruct (lookup_group_present cats
                (fun k => group_total k (combine cats qs)) _ Hin Hcat) as (v & Hv).
    exists v. split; [exact Hv|].
    assert (Hval : group_value category (F cats qs) = v).
    { unfold group_value, category, F. now rewrite Hv. }
    rewrite <- Hval. unfold F.
    rewrite !group_value_total by assumption.
    unfold category, amount, qs. rewrite map_remove_nth, <- nth_number_of.
    apply group_total_split.
    - rewrite length_map. lia.
    - lia.
    - apply cell_eqb_refl. }
  split.
  { unfold total_expense. rewrite Ha. simpl. now apply series_sum_ok. }
  split.
  { unfold total_expense. rewrite (getitem_drop_row _ _ i Ha). simpl.
    apply series_sum_ok. now apply forallb_remove_nth. }
  unfold amount, qs. rewrite map_remove_nth, <- nth_number_of.
  apply Qsum_split. rewrite length_map. lia.
Qed.

Lemma unparseable_date_scoping_witness :
  exists g l g' t t',
    rendered (show_visualizations iso_pandas junk_food_session) =
      [bar_chart g; line_chart l] /\
    time_summary (drop_row 0
      (expenses (state_after (show_visualizations iso_pandas junk_food_session)))) = Ok l /\
    cat_summary (drop_row 0 (expenses junk_food_session)) = Ok g' /\
    (exists v, lookup_group (cell_at (expenses junk_food_session) "Category" 0) g = Some v /\
               (v == number_of (cell_at (expenses junk_food_session) "Amount" 0) +
                     group_value (cell_at (expenses junk_food_session) "Category" 0) g')%Q) /\
    total_expense (expenses junk_food_session) = Ok t /\
    total_expense (drop_row 0 (expenses junk_food_session)) = Ok t' /\
    (t == number_of (cell_at (expenses junk_food_session) "Amount" 0) + t')%Q.
Proof.
  apply (@unparseable_date_scoping iso_pandas junk_food_session 0%nat).
  - reflexivity.
  - vm_compute. lia.
  - reflexivity.
  - reflexivity.
Defined.

(** C5, against the claim as stated. The first record of this imported
    ledger is dated 30 February, which is no calendar date, and has no
    category.  It is left out of the
    time series, and it is left out of the category totals as well: the
    bar chart has the single group Food with total 3, although the
    ledger totals 8 and the record's amount is 5. *)
Lemma junk_date_blank_category_in_no_group :
  rendered (load_expenses_from_file iso_pandas (Some file_junk_date) initial_session) =
    [st_success "Expenses loaded successfully!"] /\
  ledger_ok (expenses junk_date_session) = true /\
  cell_at (coerced_ledger iso_pandas (expenses junk_date_session)) "Date" 0 = NaN /\
  cell_at (expenses junk_date_session) "Category" 0 = NaN /\
  cell_at (expenses junk_date_session) "Amount" 0 = Float 5 /\
  rendered (show_visualizations iso_pandas junk_date_session) =
    [bar_chart [(Text "Food", 3%Q)];
     line_chart [(Timestamp (mkdate 2025 1 2), 3%Q)]] /\
  lookup_group NaN [(Text "Food", 3%Q)] = None /\
  total_expense (expenses junk_date_session) = Ok 8%Q /\
  ~ (Qsum (map snd [(Text "Food", 3%Q)]) == 8)%Q.
Proof.
  repeat split; try reflexivity.
  intros H. vm_compute in H. discriminate.
Qed.

(* ===================================================================== *)
(** * Export followed by import *)
(* ===================================================================== *)

Lemma Qeqb_strict_eq (a b : Q) : Qeqb_strict a b = true -> a = b.
Proof.
  unfold Qeqb_strict. intros H. apply andb_true_iff in H as [Hn Hd].
  apply Z.eqb_eq in Hn. apply Pos.eqb_eq in Hd.
  destruct a, b; simpl in *. congruence.
Qed.

Lemma plain_row_inv (pd : pandas) (r : list cell) :
  plain_row pd r = true ->
  exists d c a t,
    r = [Text d; Text c; Float a; Text t] /\
    plain_text pd d = true /\ plain_text pd c = true /\
    plain_number pd a = true /\ plain_text pd t = true.
Proof.
  unfold plain_row.
  destruct r as [|[| |d| |] [|[| |c| |] [|[|a| | |] [|[| |t| |] [|]]]]];
    try discriminate.
  intros H.
  apply andb_true_iff in H as [H Ht]. apply andb_true_iff in H as [H Ha].
  apply andb_true_iff in H as [Hd Hc].
  exists d, c, a, t. tauto.
Qed.

Lemma plain_text_inv (pd : pandas) (t : string) :
  plain_text pd t = true ->
  is_na t = false /\ parse_float pd t = None /\
  is_true_literal t = false /\ is_false_literal t = false.
Proof.
  unfold plain_text. intros H.
  apply andb_true_iff in H as [H Hf]. apply andb_true_iff in H as [H Ht].
  apply andb_true_iff in H as [Hna Hp].
  apply negb_true_iff in Hna, Hp, Ht, Hf.
  destruct (parse_float pd t); [discriminate|]. tauto.
Qed.

Lemma plain_number_inv (pd : pandas) (q : Q) :
  plain_number pd q = true ->
  is_na (float_repr pd q) = false /\ parse_float pd (float_repr pd q) = Some q.
Proof.
  unfold plain_number. intros H. apply andb_true_iff in H as [Hna Hp].
  apply negb_true_iff in Hna. split; [assumption|].
  destruct (parse_float pd (float_repr pd q)) as [q'|]; [|discriminate].
  now rewrite (Qeqb_strict_eq _ _ Hp).
Qed.

(** A column with at least one field, all plain text, is read as text. *)
Lemma infer_dtype_text (pd : pandas) (fields : list string) :
  fields <> [] ->
  forallb (plain_text pd) fields = true ->
  infer_dtype pd fields = object_.
Proof.
  destruct fields as [|f fields]; [congruence|].
  intros _ H. simpl in H. apply andb_true_iff in H as [Hf _].
  destruct (plain_text_inv pd f Hf) as (Hna & Hp & Ht & Hfl).
  unfold infer_dtype. simpl. now rewrite Hna, Hp, Ht, Hfl.
Qed.

(** A column whose fields all read as numbers is read as numbers. *)
Lemma infer_dtype_number (pd : pandas) (fields : list string) :
  forallb (fun f => is_some (parse_float pd f)) fields = true ->
  infer_dtype pd fields = float64.
Proof.
  intros H. unfold infer_dtype.
  replace (forallb (fun f => is_na f || is_some (parse_float pd f)) fields) with true;
    [reflexivity|].
  symmetry. apply forallb_forall. intros f Hf.
  rewrite (proj1 (forallb_forall _ _) H f Hf). apply orb_true_r.
Qed.

(** No record longer than the header: the table is as wide as the
    header, and no field becomes a row label. *)
Lemma table_width_fit (n : nat) (records : list (list string)) :
  forallb (fun r => (List.length r <=? n)%nat) records = true ->
  table_width n records = n.
Proof.
  destruct records as [|r records]; [reflexivity|].
  cbn [forallb table_width]. intros H. apply andb_true_iff in H as [H _].
  apply Nat.leb_le in H. lia.
Qed.

Lemma fit_not_long (n : nat) (records : list (list string)) :
  forallb (fun r => (List.length r <=? n)%nat) records = true ->
  existsb (fun r => (n <? List.length r)%nat) records = false.
Proof.
  intros H. destruct (existsb _ records) eqn:E; [|reflexivity].
  apply existsb_exists in E as (r & Hin & Hlt).
  pose proof (proj1 (forallb_forall _ _) H r Hin) as Hle. cbv beta in Hle.
  apply Nat.ltb_lt in Hlt. apply Nat.leb_le in Hle. lia.
Qed.

(** [read_csv] on a file none of whose records is longer than the
    header. *)
Lemma read_csv_fit (pd : pandas) (header : list string) (records : list (list string)) :
  header <> [] ->
  forallb (fun r => (List.length r <=? List.length header)%nat) records = true ->
  read_csv pd (header :: records) =
    Ok (mkframe header
          (map (fun r =>
                  map (fun tf => convert pd (fst tf) (snd tf))
                    (combine
                       (map (fun i => infer_dtype pd
                                        (map (fun r => nth i r "")
                                           (map (pad (List.length header)) records)))
                          (seq 0 (List.length header))) r))
             (map (pad (List.length header)) records))).
Proof.
  intros Hh Hfit. unfold read_csv. cbv zeta.
  rewrite (table_width_fit _ _ Hfit), Nat.sub_diag, (fit_not_long _ _ Hfit).
  destruct header as [|h header]; [congruence|]. reflexivity.
Qed.

Section Records.

Variables (pd : pandas) (rs : list (list cell)).
Hypothesis Hplain : forallb (plain_row pd) rs = true.

Lemma records_fit :
  forallb (fun r => (List.length r <=? 4)%nat) (map (map (render pd)) rs) = true.
Proof.
  induction rs as [|r l IH]; simpl; [reflexivity|].
  simpl in Hplain. apply andb_true_iff in Hplain as [Hr Hl].
  destruct (plain_row_inv pd r Hr) as (d & c & a & t & Hshape & _); subst r.
  simpl. now apply IH.
Qed.

Lemma records_padded :
  map (pad 4) (map (map (render pd)) rs) = map (map (render pd)) rs.
Proof.
  induction rs as [|r l IH]; simpl; [reflexivity|].
  simpl in Hplain. apply andb_true_iff in Hplain as [Hr Hl].
  destruct (plain_row_inv pd r Hr) as (d & c & a & t & Hshape & _); subst r.
  rewrite (IH Hl). reflexivity.
Qed.

Lemma records_text_column (i : nat) :
  i = 0%nat \/ i = 1%nat \/ i = 3%nat ->
  forallb (plain_text pd) (map (fun r => nth i r "") (map (map (render pd)) rs)) = true.
Proof.
  intros Hi.
  induction rs as [|r l IH]; simpl; [reflexivity|].
  simpl in Hplain. apply andb_true_iff in Hplain as [Hr Hl].
  destruct (plain_row_inv pd r Hr) as (d & c & a & t & Hshape & Hd & Hc & _ & Ht); subst r.
  rewrite (IH Hl), andb_true_r.
  destruct Hi as [-> | [-> | ->]]; assumption.
Qed.

Lemma records_amount_column :
  forallb (fun f => is_some (parse_float pd f))
    (map (fun r => nth 2 r "") (map (map (render pd)) rs)) = true.
Proof.
  induction rs as [|r l IH]; simpl; [reflexivity|].
  simpl in Hplain. apply andb_true_iff in Hplain as [Hr Hl].
  destruct (plain_row_inv pd r Hr) as (d & c & a & t & Hshape & _ & _ & Ha & _); subst r.
  rewrite (IH Hl), andb_true_r. simpl.
  destruct (plain_number_inv pd a Ha) as [_ Hp]. now rewrite Hp.
Qed.

Lemma records_convert :
  map (fun r => map (fun tf => convert pd (fst tf) (snd tf))
                  (combine [object_; object_; float64; object_] r))
    (map (map (render pd)) rs) = rs.
Proof.
  induction rs as [|r l IH]; [reflexivity|].
  simpl in Hplain. apply andb_true_iff in Hplain as [Hr Hl].
  destruct (plain_row_inv pd r Hr) as (d & c & a & t & Hshape & Hd & Hc & Ha & Ht); subst r.
  rewrite !map_cons. rewrite (IH Hl). f_equal.
  destruct (plain_text_inv pd d Hd) as (Hnd & _).
  destruct (plain_text_inv pd c Hc) as (Hnc & _).
  destruct (plain_text_inv pd t Ht) as (Hnt & _).
  destruct (plain_number_inv pd a Ha) as (Hna & Hpa).
  simpl. unfold convert. now rewrite Hnd, Hnc, Hnt, Hna, Hpa.
Qed.

(** Reading back what [to_csv] wrote gives the frame that was written. *)
Lemma read_csv_to_csv :
  rs <> [] ->
  read_csv pd (to_csv pd (mkframe required_cols rs)) = Ok (mkframe required_cols rs).
Proof.
  intros Hne. unfold to_csv. cbn [columns rows].
  rewrite read_csv_fit by (discriminate || exact records_fit).
  change (List.length required_cols) with 4%nat.
  rewrite records_padded.
  cbn [seq map].
  assert (Hrec : forall i, map (fun r => nth i r "") (map (map (render pd)) rs) <> []).
  { intros i. destruct rs; [congruence|discriminate]. }
  rewrite (infer_dtype_text pd (Hrec 0%nat) (records_text_column (or_introl eq_refl))).
  rewrite (infer_dtype_text pd (Hrec 1%nat)
             (records_text_column (or_intror (or_introl eq_refl)))).
  rewrite (infer_dtype_text pd (Hrec 3%nat)
             (records_text_column (or_intror (or_intror eq_refl)))).
  rewrite (infer_dtype_number pd _ records_amount_column).
  now rewrite records_convert.
Qed.

End Records.




(* ===================================================================== *)
(** * Frames: what a run leaves alone *)
(* ===================================================================== *)

Lemma preserves_bind {A B X} (part : session_state -> X) (m : app A) (k : A -> app B) :
  preserves part m -> (forall a, preserves part (k a)) -> preserves part (bind m k).
Proof.
  intros Hm Hk s. unfold bind, state_after.
  specialize (Hm s). unfold state_after in Hm.
  destruct (m s) as [[[a|e] s1] out1]; simpl in *; [|assumption].
  specialize (Hk a s1). unfold state_after in Hk.
  destruct (k a s1) as [[r s2] out2]. simpl in *. congruence.
Qed.

Lemma maintains_bind {A B} (P : session_state -> Prop) (m : app A) (k : A -> app B) :
  maintains P m -> (forall a, maintains P (k a)) -> maintains P (bind m k).
Proof.
  intros Hm Hk s Hs. unfold bind, state_after.
  specialize (Hm s Hs). unfold state_after in Hm.
  destruct (m s) as [[[a|e] s1] out1]; simpl in *; [|assumption].
  specialize (Hk a s1 Hm). unfold state_after in Hk.
  destruct (k a s1) as [[r s2] out2]. simpl in *. assumption.
Qed.

Lemma preserves_maintains {A X} (part : session_state -> X) (Q : X -> Prop) (m : app A) :
  preserves part m -> maintains (fun s => Q (part s)) m.
Proof. intros H s Hs. now rewrite H. Qed.

(** One step of a frame proof: through a sequence, a test, a match, or a
    step that does not write the part. *)
Ltac frame :=
  repeat match goal with
         | |- preserves _ (bind _ _) => apply preserves_bind; [|intros ?]
         | |- preserves _ (when ?b _) => unfold when
         | |- preserves _ (if ?b then _ else _) => destruct b
         | |- preserves _ (match ?x with _ => _ end) => destruct x
         | |- preserves _ _ => solve [intros ?; reflexivity]
         end.

Section BudgetFrame.

Variable pd : pandas.

Lemma add_expense_keeps_budget d category amount description :
  preserves monthly_budget (add_expense d category amount description).
Proof. unfold add_expense. frame. Qed.

Lemma load_keeps_budget uploaded_file :
  preserves monthly_budget (load_expenses_from_file pd uploaded_file).
Proof. unfold load_expenses_from_file. frame. Qed.

Lemma save_keeps_budget : preserves monthly_budget (save_expenses_to_file pd).
Proof. unfold save_expenses_to_file. frame. Qed.

Lemma download_keeps_budget : preserves monthly_budget (download_expenses pd).
Proof. unfold download_expenses. frame. Qed.

Lemma show_visualizations_keeps_budget : preserves monthly_budget (show_visualizations pd).
Proof. unfold show_visualizations. frame. Qed.

Lemma reset_keeps_budget : preserves monthly_budget reset_data.
Proof. unfold reset_data. frame. Qed.

Lemma sample_keeps_budget : preserves monthly_budget load_sample_data.
Proof. unfold load_sample_data. frame. Qed.

Lemma home_keeps_budget now : preserves monthly_budget (home_page pd now).
Proof. intros s. now rewrite home_page_keeps_state. Qed.

Lemma sidebar_keeps_budget custom_profile custom_banner :
  preserves monthly_budget (sidebar custom_profile custom_banner).
Proof. unfold sidebar. frame. Qed.

Lemma sidebar_keeps_expenses custom_profile custom_banner :
  preserves expenses (sidebar custom_profile custom_banner).
Proof. unfold sidebar. frame. Qed.

End BudgetFrame.

Lemma show_page_keeps_budget (pd : pandas) (now : date) (p : page) :
  match p with Settings _ _ _ _ _ => True | _ => preserves monthly_budget (show_page pd now p) end.
Proof.
  destruct p as [|[[[[d c] a] t]|]|uploaded_file save| | |]; simpl; try exact I.
  - apply home_keeps_budget.
  - apply preserves_bind; [apply add_expense_keeps_budget|]. intros ?. frame.
  - frame.
  - apply preserves_bind; [frame|]. intros s0.
    apply preserves_bind; [frame|]. intros _.
    apply preserves_bind; [frame|]. intros _.
    apply preserves_bind; [apply load_keeps_budget|]. intros _.
    unfold when. destruct save; [apply save_keeps_budget|frame].
  - apply show_visualizations_keeps_budget.
  - apply download_keeps_budget.
Qed.

Lemma settings_sets_budget (pd : pandas) (now : date) (s : session_state)
    (budget_input : Q) (uploaded_file : option csv_file)
    (delete_csv reset sample : bool) :
  monthly_budget
    (state_after (show_page pd now
                    (Settings budget_input uploaded_file delete_csv reset sample) s)) =
  budget_input.
Proof.
  simpl. unfold bind at 1. unfold set_monthly_budget at 1.
  match goal with
  | |- context [let (_, _) := ?m ?s1 in _] =>
      assert (Hp : preserves monthly_budget m);
      [|specialize (Hp s1); unfold state_after in *;
        destruct (m s1) as [[r s2] out]; simpl in *; exact Hp]
  end.
  apply preserves_bind; [apply load_keeps_budget|]. intros _.
  apply preserves_bind; [unfold when; destruct delete_csv; [apply reset_keeps_budget|frame]|].
  intros _.
  apply preserves_bind; [unfold when; destruct reset; [apply reset_keeps_budget|frame]|].
  intros _. unfold when. destruct sample; [apply sample_keeps_budget|frame].
Qed.

Lemma sidebar_returns (custom_profile custom_banner : option (option string))
    (s : session_state) :
  outcome (sidebar custom_profile custom_banner s) = Ok tt.
Proof. destruct custom_profile as [[|]|], custom_banner as [[|]|]; reflexivity. Qed.

(** After the probe the script runs the sidebar and then the page; when
    the probe raises, nothing runs. *)
Lemma script_state (pd : pandas) (get_google : get_outcome)
    (custom_profile custom_banner : option (option string))
    (now : date) (p : page) (s : session_state) :
  state_after (script pd get_google custom_profile custom_banner now p s) =
  match check_internet get_google with
  | Ok _ => state_after (show_page pd now p (state_after (sidebar custom_profile custom_banner s)))
  | Raise _ => s
  end.
Proof.
  unfold script, bind at 1, lift.
  destruct (check_internet get_google) as [online|e]; [|reflexivity].
  cbv beta iota.
  assert (Hw : when (negb online) (emit offline_banner) s =
               (Ok tt, s, if negb online then [offline_banner] else [])).
  { unfold when. now destruct (negb online). }
  unfold bind at 1. rewrite Hw. cbv beta iota.
  pose proof (sidebar_returns custom_profile custom_banner s) as Hside.
  unfold bind at 1. unfold outcome, state_after in *.
  destruct (sidebar custom_profile custom_banner s) as [[r s1] out1].
  simpl in Hside. subst r. cbv beta iota. cbn [fst snd].
  destruct (show_page pd now p s1) as [[r2 s2] out2]. reflexivity.
Qed.

(** X1. The monthly budget is written by the Settings page and by
    nothing else: after a run that shows the Settings page the budget is
    the value of its input, even if a later step of the page fails; after
    any other run, also one that raises, it is what it was. *)
Theorem budget_written_by_settings_only (pd : pandas) (get_google : get_outcome)
    (custom_profile custom_banner : option (option string))
    (now : date) (p : page) (s : session_state) :
  monthly_budget
    (state_after (script pd get_google custom_profile custom_banner now p s)) =
  match check_internet get_google, p with
  | Ok _, Settings budget_input _ _ _ _ => budget_input
  | _, _ => monthly_budget s
  end.
Proof.
  rewrite script_state.
  destruct (check_internet get_google) as [online|e]; [|now destruct p].
  pose proof (show_page_keeps_budget pd now p) as Hp.
  destruct p; try (rewrite Hp; apply sidebar_keeps_budget).
  apply settings_sets_budget.
Qed.

Lemma download_keeps_state (pd : pandas) : preserves (fun s => s) (download_expenses pd).
Proof. unfold download_expenses. frame. Qed.

Lemma save_keeps_state (pd : pandas) : preserves (fun s => s) (save_expenses_to_file pd).
Proof. unfold save_expenses_to_file. frame. Qed.

(** X2. Showing the Home page, the Download page, the Add Expense form
    before it is submitted, or the View Expenses page without a new
    upload (with or without pressing Save) changes nothing in the session
    state, whether the run succeeds or raises. *)
Theorem read_only_pages_keep_session (pd : pandas) (get_google : get_outcome)
    (now : date) (p : page) (s : session_state) :
  read_only p = true ->
  state_after (script pd get_google None None now p s) = s.
Proof.
  intros Hp. rewrite script_state.
  destruct (check_internet get_google) as [online|e]; [|reflexivity].
  change (state_after (sidebar None None s)) with s.
  destruct p as [|[sub|]|[file|] save| | |]; try discriminate; simpl.
  - apply home_page_keeps_state.
  - reflexivity.
  - assert (H : preserves (fun s => s)
                  (s0 <- get ;;
                   when (empty (expenses s0))
                     (emit (st_info "No expense data available. Load sample data or add expenses!")) ;;
                   emit (st_dataframe (expenses s0)) ;;
                   load_expenses_from_file pd None ;;
                   when save (save_expenses_to_file pd))).
    { apply preserves_bind; [frame|]. intros s0.
      apply preserves_bind; [frame|]. intros _.
      apply preserves_bind; [frame|]. intros _.
      apply preserves_bind; [frame|]. intros _.
      unfold when. destruct save; [apply save_keeps_state|frame]. }
    apply H.
  - apply (download_keeps_state pd).
Qed.

Lemma read_only_pages_keep_session_witness :
  state_after (script iso_pandas (Fails ConnectionError) None None jan15
                 (ViewExpenses None true) sample_session) = sample_session.
Proof.
  apply (read_only_pages_keep_session iso_pandas (Fails ConnectionError) jan15
           (ViewExpenses None true) sample_session).
  reflexivity.
Defined.

(** A run is the probe, then the banner when offline, then the sidebar
    and the page. *)
Lemma script_run (pd : pandas) (get_google : get_outcome)
    (custom_profile custom_banner : option (option string))
    (now : date) (p : page) (s : session_state) :
  script pd get_google custom_profile custom_banner now p s =
  match check_internet get_google with
  | Ok online =>
      (outcome ((sidebar custom_profile custom_banner ;; show_page pd now p) s),
       state_after ((sidebar custom_profile custom_banner ;; show_page pd now p) s),
       (if online then [] else [offline_banner]) ++
       rendered ((sidebar custom_profile custom_banner ;; show_page pd now p) s))
  | Raise e => (Raise e, s, [])
  end.
Proof.
  unfold script, bind, lift, when, emit, ret, outcome, state_after, rendered.
  destruct (check_internet get_google) as [[|]|e]; simpl; [| |reflexivity];
    destruct (sidebar custom_profile custom_banner s) as [[[u|e1] s1] o1]; simpl;
    try reflexivity;
    destruct (show_page pd now p s1) as [[r2 s2] o2]; reflexivity.
Qed.

(** X3. The connectivity probe is advisory: when the request fails with
    a connection error (or a subclass of it, a connect timeout included)
    the run does what it does when the request is answered, with the same
    outcome and the same session state, and renders the same elements
    after one more, the offline banner. *)
Theorem offline_run_is_online_run_with_banner (pd : pandas) (e : requests_exn)
    (custom_profile custom_banner : option (option string))
    (now : date) (p : page) (s : session_state) :
  is_ConnectionError e = true ->
  script pd (Fails e) custom_profile custom_banner now p s =
    (outcome (script pd Response custom_profile custom_banner now p s),
     state_after (script pd Response custom_profile custom_banner now p s),
     offline_banner :: rendered (script pd Response custom_profile custom_banner now p s)).
Proof.
  intros He. rewrite !script_run. simpl check_internet. rewrite He. reflexivity.
Qed.

Lemma offline_run_is_online_run_with_banner_witness :
  script iso_pandas (Fails ConnectTimeout) None None jan15 Home sample_session =
    (outcome (script iso_pandas Response None None jan15 Home sample_session),
     state_after (script iso_pandas Response None None jan15 Home sample_session),
     offline_banner :: rendered (script iso_pandas Response None None jan15 Home sample_session)).
Proof.
  apply (offline_run_is_online_run_with_banner iso_pandas ConnectTimeout None None jan15 Home
           sample_session).
  reflexivity.
Defined.

(* ===================================================================== *)
(** * Adding expenses *)
(* ===================================================================== *)

Lemma with_expenses_same (s : session_state) : with_expenses (expenses s) s = s.
Proof. now destruct s. Qed.

Lemma add_expense_run (d : date) (category : string) (amount : Q) (description : string)
    (s : session_state) :
  List.length (columns (expenses s)) = 4%nat ->
  add_expense d category amount description s =
    (Ok tt,
     with_expenses
       (mkframe (columns (expenses s))
          (rows (expenses s) ++ [expense_row (d, category, amount, description)])) s,
     []).
Proof.
  intros H. unfold add_expense, bind, get, lift, one_row_frame, set_expenses.
  rewrite H. reflexivity.
Qed.

Lemma add_expense_fails (d : date) (category : string) (amount : Q) (description : string)
    (s : session_state) :
  List.length (columns (expenses s)) <> 4%nat ->
  add_expense d category amount description s = (Raise ValueError, s, []).
Proof.
  intros H. unfold add_expense, bind, get, lift, one_row_frame.
  replace (List.length [Timestamp d; Text category; Float amount; Text description] =?
           List.length (columns (expenses s)))%nat with false; [reflexivity|].
  symmetry. apply Nat.eqb_neq. simpl. congruence.
Qed.

(** X4. On a ledger with four columns, expenses added one after the
    other all succeed and end up as rows after the rows already there,
    in the order in which they were added; the columns, the budget and
    the images stay as they were and nothing is rendered by the helper
    itself. *)
Theorem add_expenses_append_in_order (es : list expense) (s : session_state) :
  List.length (columns (expenses s)) = 4%nat ->
  add_expenses es s =
    (Ok tt,
     with_expenses
       (mkframe (columns (expenses s)) (rows (expenses s) ++ map expense_row es)) s,
     []).
Proof.
  revert s. induction es as [|[[[d c] a] t] es IH]; intros s H.
  - simpl. rewrite app_nil_r. destruct s as [[cols rs] b p1 p2]. reflexivity.
  - cbn [add_expenses]. unfold bind. rewrite (add_expense_run d c a t s H).
    rewrite IH by exact H. cbn [map]. cbn [with_expenses expenses columns rows
      monthly_budget profile_image banner_image app].
    now rewrite <- app_assoc.
Qed.

Lemma add_expenses_append_in_order_witness :
  add_expenses [ (mkdate 2025 1 3, "Food", 63 # 4, "Breakfast");
                 (mkdate 2024 12 30, "Utilities", 40 # 1, "Power") ] sample_session =
    (Ok tt,
     with_expenses
       (mkframe (columns (expenses sample_session))
          (rows (expenses sample_session) ++
           map expense_row [ (mkdate 2025 1 3, "Food", 63 # 4, "Breakfast");
                             (mkdate 2024 12 30, "Utilities", 40 # 1, "Power") ]))
       sample_session,
     []).
Proof.
  apply (add_expenses_append_in_order
           [ (mkdate 2025 1 3, "Food", 63 # 4, "Breakfast");
             (mkdate 2024 12 30, "Utilities", 40 # 1, "Power") ] sample_session).
  reflexivity.
Defined.

(** X5. When the ledger does not have exactly four columns, as after
    the import of a file with an extra column, adding an expense raises
    ValueError: the ledger and the rest of the session state stay as they
    were, and the Add Expense page does not report success. *)
Theorem add_expense_needs_four_columns (pd : pandas) (now : date) (d : date)
    (category : string) (amount : Q) (description : string) (s : session_state) :
  List.length (columns (expenses s)) <> 4%nat ->
  add_expense d category amount description s = (Raise ValueError, s, []) /\
  show_page pd now (AddExpense (Some (d, category, amount, description))) s =
    (Raise ValueError, s, []).
Proof.
  intros H. pose proof (add_expense_fails d category amount description s H) as Hf.
  split; [exact Hf|]. simpl. unfold bind. now rewrite Hf.
Qed.

Lemma add_expense_needs_four_columns_witness :
  add_expense (mkdate 2025 1 7) "Food" (5 # 1) "Tea" notes_session =
    (Raise ValueError, notes_session, []) /\
  show_page iso_pandas jan15 (AddExpense (Some (mkdate 2025 1 7, "Food", 5 # 1, "Tea")))
    notes_session = (Raise ValueError, notes_session, []).
Proof.
  apply (add_expense_needs_four_columns iso_pandas jan15 (mkdate 2025 1 7) "Food" (5 # 1)
           "Tea" notes_session).
  vm_compute. discriminate.
Defined.

Lemma rmap_app {A B} (f : A -> result B) (l l' : list A) (ys : list B) :
  rmap f l = Ok ys ->
  rmap f (l ++ l') = rbind (rmap f l') (fun ys' => Ok (ys ++ ys')).
Proof.
  revert ys. induction l as [|x l IH]; simpl; intros ys H.
  - injection H as <-. destruct (rmap f l'); reflexivity.
  - destruct (f x) as [y|e]; simpl in *; [|discriminate].
    destruct (rmap f l) as [zs|e]; simpl in *; [|discriminate].
    injection H as <-. rewrite (IH zs eq_refl).
    destruct (rmap f l'); reflexivity.
Qed.

Lemma getitem_app (cols : list string) (rs rs' : list (list cell)) (label : string)
    (i : nat) :
  index_of label cols = Some i ->
  getitem (mkframe cols (rs ++ rs')) label =
    Ok (map (fun r => nth i r NaN) rs ++ map (fun r => nth i r NaN) rs').
Proof. intros H. unfold getitem. simpl. rewrite H. now rewrite map_app. Qed.

(** X6. In a ledger whose columns are Date, Category, Amount and
    Description in this order and whose total can be computed, adding an
    expense makes the number of transactions one more and the total of
    the Home page the old total plus the amount added. *)
Theorem add_expense_raises_total (d : date) (category : string) (amount : Q)
    (description : string) (s : session_state) (total : Q) :
  columns (expenses s) = required_cols ->
  total_expense (expenses s) = Ok total ->
  exists total',
    total_expense (expenses (state_after (add_expense d category amount description s))) =
      Ok total' /\
    (total' == total + amount)%Q /\
    shape0 (expenses (state_after (add_expense d category amount description s))) =
      S (shape0 (expenses s)).
Proof.
  intros Hcols Htot.
  rewrite add_expense_run by (rewrite Hcols; reflexivity).
  unfold state_after. cbn [fst snd with_expenses expenses].
  unfold total_expense in *. rewrite Hcols.
  assert (Hi : index_of "Amount" required_cols = Some 2%nat) by reflexivity.
  rewrite (@getitem_app required_cols (rows (expenses s)) _ "Amount" 2%nat Hi).
  unfold getitem in Htot. rewrite Hcols, Hi in Htot. cbn [rbind] in Htot |- *.
  unfold series_sum in *.
  destruct (rmap as_number (map (fun r => nth 2 r NaN) (rows (expenses s))))
    as [qs|e] eqn:E; [|discriminate].
  simpl in Htot. injection Htot as <-.
  rewrite (@rmap_app _ _ as_number _ _ _ E). simpl.
  eexists. split; [reflexivity|]. split.
  - rewrite Qsum_app. simpl. ring.
  - unfold shape0. simpl. rewrite length_app. simpl. lia.
Qed.

Lemma add_expense_raises_total_witness :
  exists total',
    total_expense (expenses (state_after
      (add_expense (mkdate 2025 1 7) "Food" (5 # 1) "Tea" sample_session))) = Ok total' /\
    (total' == (1842 # 40) + (5 # 1))%Q /\
    shape0 (expenses (state_after
      (add_expense (mkdate 2025 1 7) "Food" (5 # 1) "Tea" sample_session))) =
      S (shape0 (expenses sample_session)).
Proof.
  apply (add_expense_raises_total (mkdate 2025 1 7) "Food" (5 # 1) "Tea" sample_session).
  - reflexivity.
  - reflexivity.
Defined.

Lemma rmap_app_fails {A B} (f : A -> result B) (l : list A) (x : A) (ys : list B) (e : exn) :
  rmap f l = Ok ys -> f x = Raise e -> rmap f (l ++ [x]) = Raise e.
Proof.
  intros Hl Hx. rewrite (@rmap_app _ _ f l [x] ys Hl). simpl. now rewrite Hx.
Qed.

(** X7. [add_expense] fills the new row by position, not by column
    name.  In a ledger with rows and four columns where Amount is not the
    third one, as after the import of a file with the columns in another
    order, the cell the added row gets under Amount is the date or a
    text, and from then on the total of the Home page cannot be
    computed: the page raises TypeError. *)
Theorem add_expense_fills_by_position (pd : pandas) (now : date) (d : date)
    (category : string) (amount : Q) (description : string) (s : session_state)
    (i : nat) (total : Q) :
  List.length (columns (expenses s)) = 4%nat ->
  index_of "Amount" (columns (expenses s)) = Some i ->
  i <> 2%nat ->
  empty (expenses s) = false ->
  total_expense (expenses s) = Ok total ->
  let s' := state_after (add_expense d category amount description s) in
  total_expense (expenses s') = Raise TypeError /\
  outcome (home_page pd now s') = Raise TypeError.
Proof.
  intros Hlen Hi Hne _ Htot s'.
  assert (Ht : total_expense (expenses s') = Raise TypeError).
  { unfold s'. rewrite add_expense_run by exact Hlen.
    unfold state_after. cbn [fst snd with_expenses expenses].
    unfold total_expense in *.
    rewrite (@getitem_app _ (rows (expenses s)) _ "Amount" i Hi).
    unfold getitem in Htot. rewrite Hi in Htot. cbn [rbind] in Htot |- *.
    unfold series_sum in *.
    destruct (rmap as_number (map (fun r => nth i r NaN) (rows (expenses s))))
      as [qs|e] eqn:E; [|discriminate].
    cbn [map].
    rewrite (@rmap_app_fails _ _ as_number _ _ _ TypeError E); [reflexivity|].
    apply index_of_lt in Hi. rewrite Hlen in Hi.
    destruct i as [|[|[|[|i]]]]; try reflexivity; try lia; congruence. }
  split; [exact Ht|].
  unfold home_page, bind, get, emit, lift, outcome. rewrite Ht. reflexivity.
Qed.

Lemma add_expense_fills_by_position_witness :
  total_expense (expenses (state_after
    (add_expense (mkdate 2025 1 7) "Food" (5 # 1) "Tea" reordered_session))) =
    Raise TypeError /\
  outcome (home_page iso_pandas jan15 (state_after
    (add_expense (mkdate 2025 1 7) "Food" (5 # 1) "Tea" reordered_session))) =
    Raise TypeError.
Proof.
  apply (@add_expense_fills_by_position iso_pandas jan15 (mkdate 2025 1 7) "Food" (5 # 1)
           "Tea" reordered_session 0%nat (63 # 4)%Q).
  - reflexivity.
  - reflexivity.
  - discriminate.
  - reflexivity.
  - reflexivity.
Defined.

(* ===================================================================== *)
(** * Reading a file *)
(* ===================================================================== *)

Lemma pad_length (n : nat) (r : list string) :
  (List.length r <= n)%nat -> List.length (pad n r) = n.
Proof. intros H. unfold pad. rewrite length_app, repeat_length. lia. Qed.

Lemma nth_pad (n k : nat) (r : list string) : nth k (pad n r) "" = nth k r "".
Proof.
  unfold pad. destruct (Nat.lt_ge_cases k (List.length r)) as [H|H].
  - now apply app_nth1.
  - rewrite app_nth2 by assumption. rewrite (nth_overflow r) by assumption.
    apply nth_repeat.
Qed.

Lemma existsb_false_forall {A} (p : A -> bool) (l : list A) (x : A) :
  existsb p l = false -> In x l -> p x = false.
Proof.
  intros H Hx. destruct (p x) eqn:E; [|reflexivity].
  assert (Ht : existsb p l = true) by (apply existsb_exists; eauto).
  congruence.
Qed.

Lemma table_width_ge (n : nat) (records : list (list string)) :
  (n <= table_width n records)%nat.
Proof. destruct records as [|r records]; cbn [table_width]; lia. Qed.

(** What [read_csv] returns when it returns: the header as columns and
    one converted row per record, the record padded to the width of the
    table and without the fields that become row labels. *)
Lemma read_csv_inv (pd : pandas) (header : list string) (records : list (list string))
    (df : DataFrame) :
  read_csv pd (header :: records) = Ok df ->
  let n := List.length header in
  let width := table_width n records in
  let table := map (fun r => skipn (width - n) (pad width r)) records in
  let dtypes := map (fun i => infer_dtype pd (map (fun r => nth i r "") table)) (seq 0 n) in
  (forall r, In r records -> (List.length r <= width)%nat) /\
  df = mkframe header
         (map (fun r => map (fun tf => convert pd (fst tf) (snd tf)) (combine dtypes r))
              table).
Proof.
  intros H. cbv zeta. unfold read_csv in H. cbv zeta in H.
  destruct (List.length header =? 0)%nat; [discriminate|].
  destruct (existsb (fun r => (table_width (List.length header) records <? List.length r)%nat)
              records) eqn:E; [discriminate|].
  injection H as <-. split; [|reflexivity].
  intros r Hr. pose proof (@existsb_false_forall _ _ _ r E Hr) as Hlt.
  apply Nat.ltb_ge in Hlt. exact Hlt.
Qed.

Lemma read_csv_shape (pd : pandas) (header : list string) (records : list (list string))
    (df : DataFrame) :
  read_csv pd (header :: records) = Ok df ->
  columns df = header /\
  List.length (rows df) = List.length records /\
  rectangular df = true.
Proof.
  intros H. destruct (@read_csv_inv pd header records df H) as [Hlen ->].
  cbn [columns rows]. split; [reflexivity|]. split.
  - now rewrite !length_map.
  - unfold rectangular. cbn [columns rows]. apply forallb_forall. intros row Hrow.
    apply in_map_iff in Hrow as (r' & <- & Hr').
    apply in_map_iff in Hr' as (r & <- & Hr).
    apply Nat.eqb_eq. rewrite length_map, length_combine, length_map, length_seq.
    rewrite length_skipn, pad_length by (now apply Hlen).
    pose proof (table_width_ge (List.length header) records). lia.
Qed.

Lemma read_csv_ok (pd : pandas) (header : list string) (records : list (list string)) :
  header <> [] ->
  forallb (fun r => (List.length r <=? List.length header)%nat) records = true ->
  exists df, read_csv pd (header :: records) = Ok df.
Proof. intros Hh Hr. rewrite (@read_csv_fit pd header records Hh Hr). eauto. Qed.

Lemma issubset_nonempty (big : list string) :
  issubset required_cols big = true -> big <> [].
Proof. intros H ->. discriminate. Qed.

Lemma import_replaces_ledger_aux (pd : pandas) (header : list string)
    (records : list (list string)) (s : session_state) :
  issubset required_cols header = true ->
  forallb (fun r => (List.length r <=? List.length header)%nat) records = true ->
  exists df,
    load_expenses_from_file pd (Some (header :: records)) s =
      (Ok tt, with_expenses df s, [st_success "Expenses loaded successfully!"]) /\
    columns df = header /\
    List.length (rows df) = List.length records /\
    rectangular df = true.
Proof.
  intros Hsub Hlen.
  destruct (@read_csv_ok pd header records (@issubset_nonempty header Hsub) Hlen) as [df Hdf].
  destruct (@read_csv_shape pd header records df Hdf) as (Hc & Hr & Hrect).
  exists df. split; [|tauto].
  unfold load_expenses_from_file, bind, lift, set_expenses, emit.
  rewrite Hdf, Hc, Hsub. reflexivity.
Qed.

(** X8. A file whose header has the four required names, in any order
    and possibly among other names (no name blank, none repeated), and
    none of whose records is blank or longer than the header, is imported
    with success: the parsed table replaces the ledger whatever the
    ledger was, its columns are the header as it is, it has one row per
    record and every row is full; the budget and the images are kept. *)
Theorem import_replaces_ledger (pd : pandas) (header : list string)
    (records : list (list string)) (s : session_state) :
  issubset required_cols header = true ->
  plain_names header = true ->
  ~ In [] records ->
  forallb (fun r => (List.length r <=? List.length header)%nat) records = true ->
  exists df,
    load_expenses_from_file pd (Some (header :: records)) s =
      (Ok tt, with_expenses df s, [st_success "Expenses loaded successfully!"]) /\
    columns df = header /\
    List.length (rows df) = List.length records /\
    rectangular df = true.
Proof. intros Hsub _ _. now apply import_replaces_ledger_aux. Qed.

Lemma import_replaces_ledger_witness :
  exists df,
    load_expenses_from_file iso_pandas (Some file_with_notes) sample_session =
      (Ok tt, with_expenses df sample_session, [st_success "Expenses loaded successfully!"]) /\
    columns df = ["Date"; "Category"; "Amount"; "Description"; "Notes"] /\
    List.length (rows df) = 2%nat /\
    rectangular df = true.
Proof.
  apply (import_replaces_ledger iso_pandas
           ["Date"; "Category"; "Amount"; "Description"; "Notes"]
           [ ["2025-01-05"; "Food"; "12.5"; "Lunch"; "with Ana"];
             ["2025-01-06"; "Transport"; "3.0"; "Bus"] ] sample_session);
    try reflexivity.
  intros [H|[H|[]]]; discriminate H.
Defined.

Lemma infer_float64_inv (pd : pandas) (col : list string) (f : string) :
  infer_dtype pd col = float64 -> In f col -> is_na f = false ->
  exists q, parse_float pd f = Some q.
Proof.
  unfold infer_dtype. intros H Hin Hna.
  destruct (forallb (fun f => is_na f || is_some (parse_float pd f)) col) eqn:E.
  - pose proof (proj1 (forallb_forall _ _) E f Hin) as Hf. cbv beta in Hf.
    rewrite Hna in Hf. simpl in Hf.
    destruct (parse_float pd f); [eauto|discriminate].
  - destruct (forallb (fun f => is_na f || is_true_literal f || is_false_literal f) col);
      discriminate.
Qed.

Lemma infer_bool_inv (pd : pandas) (col : list string) (f : string) :
  infer_dtype pd col = bool_ -> In f col -> is_na f = false ->
  is_true_literal f || is_false_literal f = true.
Proof.
  unfold infer_dtype. intros H Hin Hna.
  destruct (forallb (fun f => is_na f || is_some (parse_float pd f)) col);
    [discriminate|].
  destruct (forallb (fun f => is_na f || is_true_literal f || is_false_literal f) col)
    eqn:E; [|discriminate].
  pose proof (proj1 (forallb_forall _ _) E f Hin) as Hf. cbv beta in Hf.
  now rewrite Hna in Hf.
Qed.

Lemma convert_spec (pd : pandas) (col : list string) (f : string) :
  In f col -> read_from pd f (convert pd (infer_dtype pd col) f).
Proof.
  intros Hin. unfold convert. destruct (is_na f) eqn:Hna; [exact Hna|].
  destruct (infer_dtype pd col) eqn:Ht; cbn [read_from].
  - destruct (@infer_float64_inv pd col f Ht Hin Hna) as [q Hq]. rewrite Hq.
    cbn [read_from]. now split.
  - pose proof (@infer_bool_inv pd col f Ht Hin Hna). now repeat split.
  - now split.
Qed.

(** X9. Reading a file keeps every value that is there.  In the table
    [read_csv] returns for a file without blank records, the cell of
    record [j] under column [k] is read from the record's field at that
    position, counted after the leading fields that become row labels
    when the first record is longer than the header (none otherwise; a
    field a short record lacks counts as empty).  The cell is missing
    exactly when the field is a missing-value marker; a text cell is the
    text of the field, unchanged; a number is the number the field reads
    as; a boolean is the literal the field is; and no cell is a date:
    dates are not parsed at import. *)
Theorem read_csv_keeps_present_values (pd : pandas) (header : list string)
    (records : list (list string)) (df : DataFrame) (j k : nat) :
  read_csv pd (header :: records) = Ok df ->
  ~ In [] records ->
  (j < List.length records)%nat ->
  (k < List.length header)%nat ->
  let labels := (table_width (List.length header) records - List.length header)%nat in
  let field := nth (labels + k) (nth j records []) "" in
  let c := nth k (nth j (rows df) []) NaN in
  read_from pd field c /\
  (c = NaN <-> is_na field = true).
Proof.
  intros H _ Hj Hk. cbv zeta.
  destruct (@read_csv_inv pd header records df H) as [Hlen ->]. cbn [rows].
  set (n := List.length header) in *.
  set (w := table_width n records) in *.
  set (cut := fun r : list string => skipn (w - n) (pad w r)).
  set (table := map cut records).
  set (dtypes := map (fun i => infer_dtype pd (map (fun r => nth i r "") table)) (seq 0 n)).
  set (G := fun r => map (fun tf => convert pd (fst tf) (snd tf)) (combine dtypes r)).
  set (r0 := nth j records []).
  assert (Hr0 : In r0 records) by (apply nth_In; exact Hj).
  assert (Hwn : (n <= w)%nat) by apply table_width_ge.
  assert (Hrow : nth j (map G table) [] = G (cut r0)).
  { rewrite (nth_indep _ [] (G (cut []))) by (unfold table; now rewrite !length_map).
    rewrite map_nth. unfold table. now rewrite map_nth. }
  rewrite Hrow. unfold G.
  assert (Hld : List.length dtypes = n) by (unfold dtypes; now rewrite length_map, length_seq).
  assert (Hlp : List.length (cut r0) = n).
  { unfold cut. rewrite length_skipn, pad_length by (now apply Hlen). lia. }
  rewrite (nth_indep _ NaN (convert pd (fst (object_, "")) (snd (object_, ""))))
    by (rewrite length_map, length_combine; lia).
  rewrite (map_nth (fun tf => convert pd (fst tf) (snd tf))).
  rewrite combine_nth by lia. cbn [fst snd].
  assert (Hfield : nth k (cut r0) "" = nth (w - n + k) r0 "").
  { unfold cut. now rewrite nth_skipn, nth_pad. }
  rewrite Hfield.
  assert (Hd : nth k dtypes object_ =
               infer_dtype pd (map (fun r => nth k r "") table)).
  { unfold dtypes.
    rewrite (nth_indep _ object_
               (infer_dtype pd (map (fun r => nth 0%nat r "") table)))
      by (now rewrite length_map, length_seq).
    rewrite (map_nth (fun i => infer_dtype pd (map (fun r => nth i r "") table))).
    now rewrite seq_nth. }
  rewrite Hd.
  assert (Hread : read_from pd (nth (w - n + k) r0 "")
            (convert pd (infer_dtype pd (map (fun r => nth k r "") table))
               (nth (w - n + k) r0 ""))).
  { apply convert_spec. apply in_map_iff. exists (cut r0). split; [exact Hfield|].
    unfold table. now apply in_map. }
  split; [exact Hread|].
  destruct (convert pd _ _); cbn [read_from] in Hread.
  - tauto.
  - split; [discriminate|]. intros E. destruct Hread as [Hna _]. congruence.
  - split; [discriminate|]. intros E. destruct Hread as [Hna _]. congruence.
  - split; [discriminate|]. intros E. destruct Hread as [Hna _]. congruence.
  - contradiction.
Qed.

Lemma read_csv_keeps_present_values_witness :
  let field := nth (1 + 2) (nth 1 (tl file_with_labels) []) "" in
  let c := nth 2 (nth 1 (rows (expenses labels_session)) []) NaN in
  read_from iso_pandas field c /\
  (c = NaN <-> is_na field = true).
Proof.
  apply (@read_csv_keeps_present_values iso_pandas
           ["Date"; "Category"; "Amount"; "Description"]
           (tl file_with_labels) (expenses labels_session) 1%nat 2%nat).
  - reflexivity.
  - intros [H|[H|[]]]; discriminate H.
  - vm_compute. lia.
  - vm_compute. lia.
Defined.



(* ===================================================================== *)
(** * What every run keeps of the ledger *)
(* ===================================================================== *)

Lemma bind_get_state {B} (k : session_state -> app B) (s : session_state) :
  state_after ((s0 <- get ;; k s0) s) = state_after (k s s).
Proof. unfold bind, get, state_after. now destruct (k s s) as [[r s2] out]. Qed.

Lemma bind_lift_state {A B} (r : result A) (k : A -> app B) (s : session_state) :
  state_after ((a <- lift r ;; k a) s) =
  match r with
  | Ok a => state_after (k a s)
  | Raise _ => s
  end.
Proof.
  unfold bind, lift, state_after. destruct r as [a|e]; [|reflexivity].
  now destruct (k a s) as [[r2 s2] out].
Qed.

Lemma bind_tail_state {A B} (m : app A) (k : A -> app B) (s : session_state) :
  (forall a, preserves (fun s => s) (k a)) ->
  state_after (bind m k s) = state_after (m s).
Proof.
  intros H. unfold bind, state_after.
  destruct (m s) as [[[a|e] s1] out1]; [|reflexivity].
  specialize (H a s1). unfold state_after in H.
  destruct (k a s1) as [[r2 s2] out2]. exact H.
Qed.

Lemma keeps_state_maintains {A} (P : session_state -> Prop) (m : app A) :
  preserves (fun s => s) m -> maintains P m.
Proof. intros H s Hs. now rewrite (H s). Qed.

(** The Visualizations page leaves the session as it was or with
    another Date column in the ledger. *)
Lemma show_visualizations_state (pd : pandas) (s : session_state) :
  state_after (show_visualizations pd s) = s \/
  exists i coerced,
    index_of "Date" (columns (expenses s)) = Some i /\
    state_after (show_visualizations pd s) =
      with_expenses (setitem (expenses s) "Date" coerced) s.
Proof.
  unfold show_visualizations. rewrite bind_get_state.
  destruct (empty (expenses s)); [now left|].
  rewrite bind_lift_state.
  destruct (getitem (expenses s) "Date") as [dates|e] eqn:Hd; [|now left].
  assert (Hi : exists i, index_of "Date" (columns (expenses s)) = Some i).
  { unfold getitem in Hd. destruct (index_of "Date" (columns (expenses s))); [eauto|discriminate]. }
  destruct Hi as [i Hi].
  rewrite bind_tail_state by (intros ?; frame).
  destruct (negb (is_datetime64_any_dtype dates)); [|now left].
  rewrite bind_lift_state.
  destruct (to_datetime pd dates) as [coerced|e]; [|now left].
  right. exists i, coerced. split; [exact Hi|reflexivity].
Qed.

Lemma setitem_invariant (df : DataFrame) (label : string) (i : nat) (values : list cell) :
  index_of label (columns df) = Some i ->
  ledger_invariant df = true ->
  ledger_invariant (setitem df label values) = true.
Proof.
  intros Hi H. unfold ledger_invariant in *.
  apply andb_true_iff in H as [Hsub Hrect].
  rewrite (@setitem_columns df label i values Hi), Hsub.
  now rewrite (@setitem_rectangular df label i values Hi Hrect).
Qed.

Section Invariant.

Variable pd : pandas.

Lemma add_expense_invariant d category amount description :
  maintains shaped (add_expense d category amount description).
Proof.
  intros s Hs.
  destruct (Nat.eq_dec (List.length (columns (expenses s))) 4) as [H|H].
  - rewrite (add_expense_run d category amount description s H).
    unfold shaped, state_after, ledger_invariant in *. cbn [fst snd with_expenses expenses
      columns rows].
    apply andb_true_iff in Hs as [Hsub Hrect]. rewrite Hsub. cbn [andb].
    unfold rectangular in *. cbn [columns rows].
    rewrite forallb_app, Hrect. cbn. now rewrite H.
  - now rewrite (add_expense_fails d category amount description s H).
Qed.

Lemma load_invariant uploaded_file :
  maintains shaped (load_expenses_from_file pd uploaded_file).
Proof.
  intros s Hs. destruct uploaded_file as [[|header records]|]; try exact Hs.
  unfold load_expenses_from_file. rewrite bind_lift_state.
  destruct (read_csv pd (header :: records)) as [df|e] eqn:Hdf; [|exact Hs].
  destruct (@read_csv_shape pd header records df Hdf) as (_ & _ & Hrect).
  destruct (issubset required_cols (columns df)) eqn:Hsub; [|exact Hs].
  unfold shaped, bind, set_expenses, emit, state_after. cbn [fst snd expenses].
  unfold ledger_invariant. now rewrite Hsub, Hrect.
Qed.

Lemma show_visualizations_invariant : maintains shaped (show_visualizations pd).
Proof.
  intros s Hs. destruct (show_visualizations_state pd s) as [->|(i & c & Hi & ->)].
  - exact Hs.
  - unfold shaped. cbn [with_expenses expenses]. now apply setitem_invariant with (i := i).
Qed.

Lemma reset_invariant : maintains shaped reset_data.
Proof. intros s _. reflexivity. Qed.

Lemma sample_invariant : maintains shaped load_sample_data.
Proof. intros s _. reflexivity. Qed.

Lemma when_invariant (b : bool) (m : app unit) :
  maintains shaped m -> maintains shaped (when b m).
Proof. intros H. unfold when. destruct b; [exact H|]. intros s Hs. exact Hs. Qed.

Lemma show_page_invariant now p : maintains shaped (show_page pd now p).
Proof.
  destruct p as [|[[[[d c] a] t]|]|uploaded_file save| | |b uploaded_file del rst smp]; simpl.
  - apply keeps_state_maintains. intros s. apply home_page_keeps_state.
  - apply maintains_bind; [apply add_expense_invariant|].
    intros _. apply keeps_state_maintains. frame.
  - apply keeps_state_maintains. frame.
  - apply maintains_bind; [apply keeps_state_maintains; frame|]. intros s0.
    apply maintains_bind; [apply keeps_state_maintains; frame|]. intros _.
    apply maintains_bind; [apply keeps_state_maintains; frame|]. intros _.
    apply maintains_bind; [apply load_invariant|]. intros _.
    apply when_invariant. apply keeps_state_maintains. apply save_keeps_state.
  - apply show_visualizations_invariant.
  - apply keeps_state_maintains. apply download_keeps_state.
  - apply maintains_bind; [intros s Hs; exact Hs|]. intros _.
    apply maintains_bind; [apply load_invariant|]. intros _.
    apply maintains_bind; [apply when_invariant, reset_invariant|]. intros _.
    apply maintains_bind; [apply when_invariant, reset_invariant|]. intros _.
    apply when_invariant, sample_invariant.
Qed.

(** X11. Every run of the script keeps the shape of the ledger: if the
    ledger has the four required columns and every row has one cell per
    column before the run, it has them after the run, whatever the probe
    answers, whatever is uploaded, whichever page is shown and whatever
    is done on it, and also when the run raises. *)
Theorem every_run_keeps_ledger_shape (get_google : get_outcome)
    (custom_profile custom_banner : option (option string))
    (now : date) (p : page) (s : session_state) :
  ledger_invariant (expenses s) = true ->
  ledger_invariant
    (expenses (state_after (script pd get_google custom_profile custom_banner now p s))) =
  true.
Proof.
  intros Hs. rewrite script_state.
  destruct (check_internet get_google) as [online|e]; [|exact Hs].
  apply show_page_invariant. unfold shaped.
  now rewrite sidebar_keeps_expenses.
Qed.

End Invariant.

Lemma every_run_keeps_ledger_shape_witness :
  ledger_invariant
    (expenses (state_after
       (script iso_pandas Response None None jan15
          (Settings 500 (Some file_with_notes) false false false) initial_session))) =
  true.
Proof.
  apply (every_run_keeps_ledger_shape iso_pandas Response None None jan15
           (Settings 500 (Some file_with_notes) false false false) initial_session).
  reflexivity.
Defined.

(* ===================================================================== *)
(** * The order of the charts and the count of categories *)
(* ===================================================================== *)

Lemma date_leb_total (a b : date) : date_leb a b = false -> date_leb b a = true.
Proof.
  unfold date_leb. intros H.
  destruct (Z.ltb_spec (year a) (year b)), (Z.ltb_spec (year b) (year a)),
    (Z.eqb_spec (year a) (year b)), (Z.eqb_spec (year b) (year a)),
    (Z.ltb_spec (month a) (month b)), (Z.ltb_spec (month b) (month a)),
    (Z.eqb_spec (month a) (month b)), (Z.eqb_spec (month b) (month a)),
    (Z.leb_spec (day a) (day b)), (Z.leb_spec (day b) (day a));
    simpl in *; try reflexivity; try discriminate; lia.
Qed.

Lemma cell_leb_total (a b : cell) : cell_leb a b = false -> cell_leb b a = true.
Proof.
  destruct a as [|p|s|x|d], b as [|q|t|y|e]; simpl; try discriminate; try reflexivity.
  - intros H. apply Qle_bool_iff. apply Qlt_le_weak, Qnot_le_lt.
    intros Hle. apply Qle_bool_iff in Hle. congruence.
  - intros H. destruct (String.leb_total s t) as [Hl|Hl]; congruence.
  - now destruct x, y.
  - apply date_leb_total.
Qed.

Lemma ascending_tail (x : cell) (l : list cell) :
  ascending (x :: l) = true -> ascending l = true.
Proof.
  destruct l as [|y l]; [reflexivity|]. cbn [ascending].
  intros H. now apply andb_true_iff in H as [_ H].
Qed.

Lemma ascending_cons (x y : cell) (l : list cell) :
  cell_leb x y = true -> ascending (y :: l) = true -> ascending (x :: y :: l) = true.
Proof. intros Hxy Hl. change (cell_leb x y && ascending (y :: l) = true). now rewrite Hxy. Qed.

Lemma insert_sorted_ascending (x : cell) (l : list cell) :
  ascending l = true -> ascending (insert_sorted x l) = true.
Proof.
  induction l as [|y l IH]; intros Hl; [reflexivity|]. cbn [insert_sorted].
  destruct (cell_leb x y) eqn:Hxy.
  - now apply ascending_cons.
  - pose proof (cell_leb_total _ _ Hxy) as Hyx.
    specialize (IH (ascending_tail _ _ Hl)).
    destruct l as [|z l].
    + cbn [insert_sorted] in *. now apply ascending_cons.
    + cbn [insert_sorted] in *. destruct (cell_leb x z) eqn:Hxz.
      * now apply ascending_cons.
      * apply ascending_cons; [|exact IH].
        cbn [ascending] in Hl. now apply andb_true_iff in Hl as [Hl _].
Qed.

Lemma sort_cells_ascending (l : list cell) : ascending (sort_cells l) = true.
Proof.
  induction l as [|x l IH]; [reflexivity|]. cbn [sort_cells fold_right].
  now apply insert_sorted_ascending.
Qed.

Lemma filter_perm_length {A} (p : A -> bool) (l l' : list A) :
  Permutation l l' -> List.length (filter p l) = List.length (filter p l').
Proof.
  induction 1 as [|x l l' _ IH|x y l|l l' l'' _ IH1 _ IH2]; simpl.
  - reflexivity.
  - destruct (p x); simpl; now rewrite IH.
  - destruct (p x), (p y); reflexivity.
  - now rewrite IH1.
Qed.

Lemma group_keys_one_each (keys : list cell) : one_each (group_keys keys) = true.
Proof.
  unfold one_each. apply forallb_forall. intros k Hk. apply Nat.eqb_eq.
  unfold group_keys in *.
  rewrite (filter_perm_length _ (sort_cells_perm _)).
  apply dedup_once. exists k. split; [|apply cell_eqb_refl].
  apply dedup_incl. now apply (Permutation_in _ (sort_cells_perm _)).
Qed.

Lemma group_keys_ascending (keys : list cell) : ascending (group_keys keys) = true.
Proof. apply sort_cells_ascending. Qed.

Lemma map_fst_keyed {B} (f : cell -> B) (ks : list cell) :
  map fst (map (fun k => (k, f k)) ks) = ks.
Proof. induction ks as [|k ks IH]; simpl; [reflexivity|]. now rewrite IH. Qed.

(** Sorting a grouped frame by its key leaves it as it is: the groups
    already come in key order. *)
Lemma sort_values_sorted (l : list (cell * Q)) :
  ascending (map fst l) = true -> sort_values l = l.
Proof.
  induction l as [|x l IH]; intros H; [reflexivity|].
  cbn [sort_values fold_right]. fold (sort_values l).
  rewrite IH by (exact (ascending_tail _ _ H)).
  destruct l as [|y l]; [reflexivity|]. cbn [insert_by_key].
  cbn [map ascending] in H. apply andb_true_iff in H as [H _]. now rewrite H.
Qed.

Lemma time_summary_ok (pd : pandas) (df : DataFrame) (dates amounts : list cell) :
  ledger_ok df = true ->
  getitem df "Date" = Ok dates ->
  getitem df "Amount" = Ok amounts ->
  forallb summable amounts = true ->
  time_summary (coerced_ledger pd df) =
    Ok (map (fun k => (k, group_total k (combine (coerce pd dates) (map number_of amounts))))
          (group_keys (coerce pd dates))).
Proof.
  intros Hok Hd Ha Hsum. unfold time_summary, groupby_amount.
  rewrite (@coerced_dates pd df Hok dates Hd).
  rewrite (@coerced_other pd df Hok "Amount") by discriminate.
  rewrite Ha. cbn [rbind]. rewrite (groupby_sum_ok _ _ Hsum). cbn [rbind].
  rewrite sort_values_sorted; [reflexivity|].
  rewrite map_fst_keyed. apply group_keys_ascending.
Qed.

Lemma coerce_keys_are_dates (pd : pandas) (dates : list cell) (k : cell) :
  In k (group_keys (coerce pd dates)) -> exists d, k = Timestamp d.
Proof.
  intros Hk. pose proof (group_keys_notna _ _ Hk) as Hna.
  unfold group_keys in Hk. apply (Permutation_in _ (sort_cells_perm _)) in Hk.
  apply dedup_incl in Hk. apply filter_In in Hk as [Hk _].
  pose proof (coerce_is_datetime pd dates) as Hdt.
  unfold is_datetime64_any_dtype in Hdt.
  pose proof (proj1 (forallb_forall _ _) Hdt k Hk) as H.
  destruct k; try discriminate. eauto.
Qed.

(** The keys of the groups are values of the column, and none is
    missing. *)
Lemma group_keys_in (keys : list cell) (k : cell) :
  In k (group_keys keys) -> In k keys /\ notna k = true.
Proof.
  intros Hk. split; [|exact (group_keys_notna _ _ Hk)].
  unfold group_keys in Hk. apply (Permutation_in _ (sort_cells_perm _)) in Hk.
  apply dedup_incl in Hk. apply filter_In in Hk. tauto.
Qed.

(** Every text of the column is the key of a group, and so is every
    date. *)
Lemma group_keys_cover_text (keys : list cell) (t : string) :
  In (Text t) keys -> In (Text t) (group_keys keys).
Proof.
  intros Hin. destruct (group_keys_represent keys (Text t) Hin eq_refl) as (k & Hk & He).
  destruct k as [|q|u|b|d]; try discriminate He.
  cbn [cell_eqb] in He. apply String.eqb_eq in He. now subst u.
Qed.

Lemma group_keys_cover_date (keys : list cell) (d : date) :
  In (Timestamp d) keys -> In (Timestamp d) (group_keys keys).
Proof.
  intros Hin.
  destruct (group_keys_represent keys (Timestamp d) Hin eq_refl) as (k & Hk & He).
  destruct k as [|q|u|b|e]; try discriminate He.
  cbn [cell_eqb] in He. apply date_eqb_eq in He. now subst e.
Qed.

(** X12. On a well-typed ledger with rows whose categories are texts,
    the two charts of the Visualizations page show exactly the distinct
    values of their columns, in order.  The bar chart has a bar for
    every text of the Category column and no other bar; the line chart
    has a point for every date of the Date column as the call leaves it
    (coerced) and no other point; a missing category or date has no bar
    or point.  In both charts no key comes twice and the keys ascend:
    the texts in the order of their characters, the dates in calendar
    order.  (Dates are calendar days, as [st.date_input] gives them; a
    time of day is not part of the model.) *)
Theorem charts_are_ordered (pd : pandas) (s : session_state) :
  ledger_ok (expenses s) = true ->
  text_categories (expenses s) = true ->
  empty (expenses s) = false ->
  let s' := state_after (show_visualizations pd s) in
  exists g l cats dates',
    rendered (show_visualizations pd s) = [bar_chart g; line_chart l] /\
    getitem (expenses s) "Category" = Ok cats /\
    getitem (expenses s') "Date" = Ok dates' /\
    (forall k, In k (map fst g) <-> exists t, k = Text t /\ In (Text t) cats) /\
    ascending (map fst g) = true /\ one_each (map fst g) = true /\
    (forall k, In k (map fst l) <-> exists d, k = Timestamp d /\ In (Timestamp d) dates') /\
    ascending (map fst l) = true /\ one_each (map fst l) = true.
Proof.
  intros Hok Htext Hne. cbv zeta.
  destruct (ledger_ok_columns _ Hok)
    as (_ & (i & dates & _ & Hd & _) & (cats & Hc) & (amounts & Ha & Hsum)).
  destruct (show_visualizations_run pd s Hok Hne) as (g & l & Hg & Hl & Hrun).
  rewrite (cat_summary_ok _ Hc Ha Hsum) in Hg. injection Hg as <-.
  rewrite (time_summary_ok pd _ Hok Hd Ha Hsum) in Hl. injection Hl as <-.
  unfold text_categories, column_ok in Htext. rewrite Hc in Htext.
  eexists. eexists. exists cats, (coerce pd dates).
  rewrite Hrun. unfold rendered, state_after. cbn [fst snd with_expenses expenses].
  rewrite !map_fst_keyed.
  split; [reflexivity|]. split; [exact Hc|].
  split; [exact (@coerced_dates pd _ Hok dates Hd)|].
  split; [|split; [apply group_keys_ascending|split; [apply group_keys_one_each|]]].
  - intros k. split.
    + intros Hk. destruct (group_keys_in _ _ Hk) as [Hin Hna].
      pose proof (proj1 (forallb_forall _ _) Htext k Hin) as Hkind.
      destruct k as [|q|t|b|d]; try discriminate. eauto.
    + intros (t & -> & Hin). now apply group_keys_cover_text.
  - split; [|split; [apply group_keys_ascending|apply group_keys_one_each]].
    intros k. split.
    + intros Hk. destruct (coerce_keys_are_dates pd dates k Hk) as [d ->].
      exists d. split; [reflexivity|]. now apply group_keys_in.
    + intros (d & -> & Hin). now apply group_keys_cover_date.
Qed.

Lemma charts_are_ordered_witness :
  exists g l cats dates',
    rendered (show_visualizations iso_pandas junk_date_session) =
      [bar_chart g; line_chart l] /\
    getitem (expenses junk_date_session) "Category" = Ok cats /\
    getitem (expenses (state_after (show_visualizations iso_pandas junk_date_session)))
      "Date" = Ok dates' /\
    (forall k, In k (map fst g) <-> exists t, k = Text t /\ In (Text t) cats) /\
    ascending (map fst g) = true /\ one_each (map fst g) = true /\
    (forall k, In k (map fst l) <-> exists d, k = Timestamp d /\ In (Timestamp d) dates') /\
    ascending (map fst l) = true /\ one_each (map fst l) = true.
Proof.
  apply (charts_are_ordered iso_pandas junk_date_session); reflexivity.
Defined.

Lemma filter_length_le {A} (p : A -> bool) (l : list A) :
  (List.length (filter p l) <= List.length l)%nat.
Proof.
  induction l as [|x l IH]; simpl; [lia|]. destruct (p x); simpl; lia.
Qed.

Lemma dedup_length_le (l : list cell) : (List.length (dedup l) <= List.length l)%nat.
Proof.
  induction l as [|x l IH]; simpl; [lia|].
  pose proof (filter_length_le (fun y => negb (cell_eqb y x)) (dedup l)). lia.
Qed.

(** X13. On a well-typed ledger whose categories are texts the
    Categories figure of the Home page is the number of bars of the bar
    chart, and it is at most the number of transactions; records without
    a category count for neither. *)
Theorem categories_metric_counts_bars (df : DataFrame) :
  ledger_ok df = true ->
  text_categories df = true ->
  exists g n,
    cat_summary df = Ok g /\
    num_categories df = Ok n /\
    n = List.length g /\
    (n <= shape0 df)%nat.
Proof.
  intros Hok _.
  destruct (ledger_ok_columns _ Hok)
    as (_ & _ & (cats & Hc) & (amounts & Ha & Hsum)).
  rewrite (cat_summary_ok _ Hc Ha Hsum).
  assert (Hn : nunique cats = List.length (group_keys cats)).
  { unfold nunique, group_keys. symmetry. apply Permutation_length, sort_cells_perm. }
  assert (Hle : (nunique cats <= shape0 df)%nat).
  { unfold nunique, shape0. rewrite <- (getitem_length _ _ Hc).
    pose proof (dedup_length_le (filter notna cats)).
    pose proof (filter_length_le notna cats). lia. }
  eexists. exists (nunique cats). split; [reflexivity|].
  rewrite length_map. split; [|split; assumption].
  unfold num_categories. destruct (empty df) eqn:He; cbn [negb].
  - pose proof (ledger_ok_rows_empty df Hok He) as Hr.
    pose proof (getitem_length _ _ Hc) as Hl. rewrite Hr in Hl.
    apply length_zero_iff_nil in Hl. now subst cats.
  - rewrite Hc. reflexivity.
Qed.

Lemma categories_metric_counts_bars_witness :
  exists g n,
    cat_summary (expenses junk_date_session) = Ok g /\
    num_categories (expenses junk_date_session) = Ok n /\
    n = List.length g /\
    (n <= shape0 (expenses junk_date_session))%nat.
Proof.
  apply (categories_metric_counts_bars (expenses junk_date_session)); reflexivity.
Defined.

(* ===================================================================== *)
(** * Totals of the time series, of the month and of the empty ledger *)
(* ===================================================================== *)

Lemma Qsum_partition {A} (p : A -> bool) (f : A -> Q) (l : list A) :
  (Qsum (map f l) ==
   Qsum (map f (filter p l)) + Qsum (map f (filter (fun x => negb (p x)) l)))%Q.
Proof.
  induction l as [|x l IH]; simpl.
  - ring.
  - destruct (p x); simpl; rewrite IH; ring.
Qed.

Lemma group_total_present (k : cell) (kvs : list (cell * Q)) :
  notna k = true ->
  group_total k (filter (fun kv => notna (fst kv)) kvs) = group_total k kvs.
Proof.
  intros Hk. unfold group_total. f_equal. f_equal.
  apply filter_filter_keep. intros [k' q] H. simpl in *.
  destruct k', k; simpl in *; congruence.
Qed.

(** The group totals add up to the sum of the values of the rows whose
    key is not missing. *)
Lemma groupby_partition (kvs : list (cell * Q)) :
  (Qsum (map snd kvs) ==
   Qsum (map (fun k => group_total k kvs) (group_keys (map fst kvs))) +
   Qsum (map snd (filter (fun kv => negb (notna (fst kv))) kvs)))%Q.
Proof.
  rewrite (Qsum_partition (fun kv => notna (fst kv)) snd kvs).
  apply Qplus_inj_r.
  rewrite (Qsum_map_ext (fun k => group_total k kvs)
             (fun k => group_total k (filter (fun kv => notna (fst kv)) kvs))).
  - rewrite group_totals_sum; [reflexivity|].
    intros [k q] Hkv. cbn [fst]. apply filter_In in Hkv as [Hin Hna]. cbn [fst] in Hna.
    unfold group_keys. rewrite (filter_perm_length _ (sort_cells_perm _)).
    apply dedup_once. exists k. split; [|apply cell_eqb_refl].
    apply filter_In. split; [|exact Hna].
    apply in_map_iff. exists (k, q). split; [reflexivity|exact Hin].
  - intros k Hk. rewrite group_total_present; [reflexivity|].
    eapply group_keys_notna; eauto.
Qed.

Lemma select_missing_keys (keys amounts : list cell) :
  map snd (filter (fun kv => negb (notna (fst kv))) (combine keys (map number_of amounts))) =
  map number_of
    (map fst (filter snd (combine amounts (map (fun c => negb (notna c)) keys)))).
Proof.
  revert amounts. induction keys as [|k keys IH]; intros [|a amounts]; try reflexivity.
  cbn [map combine filter fst snd]. destruct (negb (notna k)); cbn [map fst snd];
    now rewrite IH.
Qed.

(** X14. In exact arithmetic (the amounts are rationals here; the
    rounding of float64 sums is outside the statement): on a well-typed
    ledger with rows whose categories are texts, the total of the ledger
    is the total of the points of the line chart plus the total of the
    records that have no date after coercion.  The time series accounts
    for every record with a readable date, and for no other. *)
Theorem time_series_accounts_for_dated_records (pd : pandas) (s : session_state) :
  ledger_ok (expenses s) = true ->
  text_categories (expenses s) = true ->
  empty (expenses s) = false ->
  let s' := state_after (show_visualizations pd s) in
  exists g l dates' total undated,
    rendered (show_visualizations pd s) = [bar_chart g; line_chart l] /\
    getitem (expenses s') "Date" = Ok dates' /\
    total_expense (expenses s) = Ok total /\
    total_expense (select (expenses s') (map (fun c => negb (notna c)) dates')) =
      Ok undated /\
    (total == Qsum (map snd l) + undated)%Q.
Proof.
  intros Hok _ Hne. cbv zeta.
  destruct (ledger_ok_columns _ Hok)
    as (_ & (i & dates & _ & Hd & _) & _ & (amounts & Ha & Hsum)).
  destruct (show_visualizations_run pd s Hok Hne) as (g & l & Hg & Hl & Hrun).
  rewrite (time_summary_ok pd _ Hok Hd Ha Hsum) in Hl. injection Hl as <-.
  rewrite Hrun. unfold state_after, rendered. cbn [fst snd with_expenses expenses].
  set (mask := map (fun c => negb (notna c)) (coerce pd dates)).
  exists g. eexists. exists (coerce pd dates), (Qsum (map number_of amounts)),
    (Qsum (map number_of (map fst (filter snd (combine amounts mask))))).
  split; [reflexivity|].
  split; [exact (@coerced_dates pd _ Hok dates Hd)|].
  split; [unfold total_expense; rewrite Ha; cbn [rbind]; now apply series_sum_ok|].
  split.
  - unfold total_expense.
    rewrite (getitem_select _ "Amount" (s := amounts)).
    + cbn [rbind]. apply series_sum_ok. now apply forallb_select.
    + rewrite (@coerced_other pd _ Hok "Amount") by discriminate. exact Ha.
  - assert (Hlen : List.length (coerce pd dates) = List.length (map number_of amounts)).
    { rewrite coerce_length, length_map.
      rewrite (getitem_length _ _ Hd). symmetry. eapply getitem_length; eauto. }
    pose proof (groupby_partition (combine (coerce pd dates) (map number_of amounts))) as H.
    rewrite (combine_fst _ _ Hlen), (combine_snd _ _ Hlen) in H.
    rewrite select_missing_keys in H. fold mask in H.
    rewrite map_map. cbn [snd]. exact H.
Qed.

Lemma time_series_accounts_for_dated_records_witness :
  exists g l dates' total undated,
    rendered (show_visualizations iso_pandas junk_date_session) =
      [bar_chart g; line_chart l] /\
    getitem (expenses (state_after (show_visualizations iso_pandas junk_date_session)))
      "Date" = Ok dates' /\
    total_expense (expenses junk_date_session) = Ok total /\
    total_expense
      (select (expenses (state_after (show_visualizations iso_pandas junk_date_session)))
         (map (fun c => negb (notna c)) dates')) = Ok undated /\
    (total == Qsum (map snd l) + undated)%Q.
Proof.
  apply (time_series_accounts_for_dated_records iso_pandas junk_date_session);
    reflexivity.
Defined.

Lemma Qsum_select_le (amounts : list cell) (mask : list bool) :
  forallb (fun c => Qle_bool 0 (number_of c)) amounts = true ->
  (Qsum (map number_of (map fst (filter snd (combine amounts mask)))) <=
   Qsum (map number_of amounts))%Q.
Proof.
  revert mask. induction amounts as [|a amounts IH]; intros mask H.
  - simpl. apply Qle_refl.
  - cbn [forallb] in H. apply andb_true_iff in H as [Ha Hrest].
    apply Qle_bool_iff in Ha.
    destruct mask as [|[|] mask]; cbn [combine filter snd map fst Qsum fold_right].
    + change (0 <= number_of a + Qsum (map number_of amounts))%Q.
      replace 0%Q with (0 + 0)%Q by reflexivity.
      apply Qplus_le_compat; [exact Ha|].
      apply Qsum_nonneg. now rewrite forallb_map.
    + apply Qplus_le_compat; [apply Qle_refl|]. now apply IH.
    + fold (Qsum (map number_of (map fst (filter snd (combine amounts mask))))).
      fold (Qsum (map number_of amounts)).
      rewrite <- (Qplus_0_l (Qsum (map number_of (map fst (filter snd (combine amounts mask)))))).
      apply Qplus_le_compat; [exact Ha|]. now apply IH.
Qed.



Lemma progress_of_nothing (budget : Q) :
  exists p, progress 0 budget = Ok p /\ (p == 0)%Q /\
            Qle_bool 0 p && Qle_bool p 1 = true.
Proof.
  destruct (progress_value 0 budget) as (p & Hp & Hle & Hge & _).
  exists p. split; [exact Hp|].
  assert (H0 : (0 <= p)%Q) by (apply Hge; apply Qle_refl).
  assert (Hz : (p == 0)%Q).
  { unfold progress in Hp. destruct (Qlt_bool 0 budget).
    - unfold true_divide in Hp. destruct (Qeq_bool budget 0); [discriminate|].
      cbn [rbind] in Hp.
      assert (Hd : (0 / budget == 0)%Q) by (unfold Qdiv; ring).
      destruct (Qle_bool (0 / budget) 1) eqn:E.
      + injection Hp as <-. exact Hd.
      + exfalso. rewrite <- not_true_iff_false in E. apply E.
        apply Qle_bool_iff. rewrite Hd. discriminate.
    - cbn [rbind] in Hp. injection Hp as <-. reflexivity. }
  split; [exact Hz|].
  apply andb_true_iff. split; apply Qle_bool_iff; assumption.
Qed.

(** X16. On a ledger without rows, as after a reset, the Home page does
    not fail: it shows a total of 0, 0 transactions, 0 categories, 0 used
    of the budget, and hands the progress bar a value equal to 0,
    whatever the budget is, zero included. *)
Theorem home_page_of_empty_ledger (pd : pandas) (now : date) (s : session_state) :
  ledger_invariant (expenses s) = true ->
  rows (expenses s) = [] ->
  exists p,
    (p == 0)%Q /\
    home_page pd now s =
      (Ok tt, s,
       [st_image (banner_image s);
        metric_card "Total Expenses" 0;
        metric_card "Transactions" 0;
        metric_card "Categories" 0;
        budget_card (monthly_budget s) 0;
        st_progress p]).
Proof.
  intros Hinv Hrows. unfold ledger_invariant in Hinv.
  apply andb_true_iff in Hinv as [Hsub _].
  assert (Hi : exists i, index_of "Amount" (columns (expenses s)) = Some i).
  { apply existsb_index_of.
    apply (proj1 (forallb_forall _ _) Hsub). unfold required_cols. simpl. tauto. }
  destruct Hi as [i Hi].
  assert (He : empty (expenses s) = true).
  { unfold empty. rewrite Hrows. apply orb_true_r. }
  destruct (progress_of_nothing (monthly_budget s)) as (p & Hp & Hz & Hb).
  exists p. split; [exact Hz|].
  unfold home_page, bind, get, emit, lift, progress_bar.
  unfold total_expense, num_categories, monthly_expenses, getitem, shape0.
  rewrite Hi, He, Hrows. cbn [map rbind series_sum rmap negb List.length].
  cbn [Qsum fold_right]. rewrite Hp, Hb. reflexivity.
Qed.

Lemma home_page_of_empty_ledger_witness :
  exists p,
    (p == 0)%Q /\
    home_page iso_pandas jan15 (state_after (reset_data sample_session)) =
      (Ok tt, state_after (reset_data sample_session),
       [st_image (banner_image (state_after (reset_data sample_session)));
        metric_card "Total Expenses" 0;
        metric_card "Transactions" 0;
        metric_card "Categories" 0;
        budget_card (monthly_budget (state_after (reset_data sample_session))) 0;
        st_progress p]).
Proof.
  apply (home_page_of_empty_ledger iso_pandas jan15 (state_after (reset_data sample_session)));
    reflexivity.
Defined.

(* ===================================================================== *)
(** * The Settings page: upload and buttons in one run *)
(* ===================================================================== *)

Lemma load_returns (pd : pandas) (uploaded_file : option csv_file) (s : session_state) :
  match uploaded_file with
  | Some file => exists df, read_csv pd file = Ok df
  | None => True
  end ->
  outcome (load_expenses_from_file pd uploaded_file s) = Ok tt.
Proof.
  destruct uploaded_file as [file|]; [|reflexivity].
  intros [df Hdf]. unfold load_expenses_from_file, bind, lift, outcome.
  rewrite Hdf. now destruct (issubset required_cols (columns df)).
Qed.

Lemma bind_ok_state {A B} (m : app A) (k : A -> app B) (s : session_state) (a : A) :
  outcome (m s) = Ok a ->
  state_after (bind m k s) = state_after (k a (state_after (m s))) /\
  outcome (bind m k s) = outcome (k a (state_after (m s))).
Proof.
  unfold bind, outcome, state_after.
  destruct (m s) as [[r s1] out1]. cbn [fst snd]. intros ->.
  now destruct (k a s1) as [[r2 s2] out2].
Qed.

Lemma bind_raise_state {A B} (m : app A) (k : A -> app B) (s : session_state) (e : exn) :
  outcome (m s) = Raise e ->
  state_after (bind m k s) = state_after (m s) /\
  outcome (bind m k s) = Raise e.
Proof.
  unfold bind, outcome, state_after.
  destruct (m s) as [[r s1] out1]. cbn [fst snd]. now intros ->.
Qed.

(** X17. On the Settings page the upload is handled before the
    buttons.  When the uploaded file can be read, a pressed button wins
    over it: with Load Sample Data pressed the ledger ends as the sample
    data, else with one of the two reset buttons pressed it ends as the
    empty table, else it is what the import left.  The page then ends
    without error and the budget is the value of the input. *)
Theorem settings_buttons_win_over_upload (pd : pandas) (now : date) (s : session_state)
    (budget_input : Q) (uploaded_file : option csv_file)
    (delete_csv reset sample : bool) :
  match uploaded_file with
  | Some file => exists df, read_csv pd file = Ok df
  | None => True
  end ->
  let run := show_page pd now
               (Settings budget_input uploaded_file delete_csv reset sample) s in
  outcome run = Ok tt /\
  monthly_budget (state_after run) = budget_input /\
  expenses (state_after run) =
    if sample then sample_data
    else if delete_csv || reset then empty_expenses
    else expenses (state_after (load_expenses_from_file pd uploaded_file s)).
Proof.
  intros Hfile run. subst run. cbn [show_page].
  set (s1 := state_after (set_monthly_budget budget_input s)).
  destruct (@bind_ok_state _ _ (set_monthly_budget budget_input)
              (fun _ => load_expenses_from_file pd uploaded_file ;;
                        when delete_csv reset_data ;;
                        when reset reset_data ;; when sample load_sample_data)
              s tt eq_refl) as [Hs Ho].
  rewrite Hs, Ho. fold s1.
  pose proof (load_returns pd uploaded_file s1 Hfile) as Hload.
  destruct (@bind_ok_state _ _ (load_expenses_from_file pd uploaded_file)
              (fun _ => when delete_csv reset_data ;;
                        when reset reset_data ;; when sample load_sample_data)
              s1 tt Hload) as [Hs2 Ho2].
  rewrite Hs2, Ho2.
  set (s2 := state_after (load_expenses_from_file pd uploaded_file s1)).
  assert (Hb2 : monthly_budget s2 = budget_input).
  { unfold s2. now rewrite load_keeps_budget. }
  assert (He2 : expenses s2 = expenses (state_after (load_expenses_from_file pd uploaded_file s))).
  { unfold s2, s1. destruct uploaded_file as [file|]; [|reflexivity].
    unfold load_expenses_from_file, bind, lift, state_after.
    destruct (read_csv pd file) as [df|e]; [|reflexivity].
    now destruct (issubset required_cols (columns df)). }
  rewrite <- He2.
  destruct s2 as [df2 b2 p2 q2]. cbn [monthly_budget expenses] in *. subst b2.
  destruct sample, delete_csv, reset; repeat split.
Qed.

Lemma settings_buttons_win_over_upload_witness :
  outcome (show_page iso_pandas jan15
             (Settings 500 (Some file_with_notes) false true false) sample_session) = Ok tt /\
  monthly_budget (state_after (show_page iso_pandas jan15
             (Settings 500 (Some file_with_notes) false true false) sample_session)) = 500 /\
  expenses (state_after (show_page iso_pandas jan15
             (Settings 500 (Some file_with_notes) false true false) sample_session)) =
    empty_expenses.
Proof.
  apply (settings_buttons_win_over_upload iso_pandas jan15 sample_session 500
           (Some file_with_notes) false true false).
  eexists. reflexivity.
Defined.

(** X18. When the file in the uploader of the Settings page cannot be
    read, the page raises at the import and no button of the same run
    takes effect: the ledger stays as it was, also with a reset button
    or Load Sample Data pressed, while the budget input has already been
    stored. *)
Theorem settings_unreadable_upload_blocks_buttons (pd : pandas) (now : date)
    (s : session_state) (budget_input : Q) (file : csv_file) (e : exn)
    (delete_csv reset sample : bool) :
  read_csv pd file = Raise e ->
  let run := show_page pd now
               (Settings budget_input (Some file) delete_csv reset sample) s in
  outcome run = Raise e /\
  expenses (state_after run) = expenses s /\
  monthly_budget (state_after run) = budget_input /\
  rendered run = [].
Proof.
  intros Hfile. cbv zeta. cbn [show_page].
  unfold bind, set_monthly_budget, load_expenses_from_file, lift, outcome, state_after,
    rendered.
  rewrite Hfile. repeat split.
Qed.

Lemma settings_unreadable_upload_blocks_buttons_witness :
  outcome (show_page iso_pandas jan15 (Settings 500 (Some []) false true true)
             sample_session) = Raise EmptyDataError /\
  expenses (state_after (show_page iso_pandas jan15 (Settings 500 (Some []) false true true)
             sample_session)) = expenses sample_session /\
  monthly_budget (state_after (show_page iso_pandas jan15
             (Settings 500 (Some []) false true true) sample_session)) = 500 /\
  rendered (show_page iso_pandas jan15 (Settings 500 (Some []) false true true)
              sample_session) = [].
Proof.
  apply (@settings_unreadable_upload_blocks_buttons iso_pandas jan15 sample_session 500
           [] EmptyDataError false true true).
  reflexivity.
Defined.

(* ===================================================================== *)
(** * Adding an expense and the sum of the month *)
(* ===================================================================== *)

Lemma empty_no_rows (df : DataFrame) :
  columns df = required_cols -> empty df = match rows df with [] => true | _ => false end.
Proof. intros H. unfold empty. rewrite H. now destruct (rows df). Qed.

(** The sum of the month is the sum of [monthly_amounts]. *)
Lemma monthly_expenses_sum (pd : pandas) (now : date) (df : DataFrame) :
  monthly_expenses pd now df = rbind (monthly_amounts pd now df) series_sum.
Proof.
  unfold monthly_expenses, monthly_amounts.
  destruct (negb (empty df)); [|reflexivity].
  destruct (getitem df "Date") as [dates|e]; [|reflexivity]. cbn [rbind].
  destruct (to_datetime pd dates) as [coerced|e]; [|reflexivity]. cbn [rbind].
  destruct (getitem (setitem df "Date" coerced) "Date") as [dates'|e]; reflexivity.
Qed.

(** On a ledger whose dates are dates already, the amounts of the rows
    dated in the month are the ones added up. *)
Lemma monthly_amounts_dated (pd : pandas) (now : date) (df : DataFrame)
    (dates amounts : list cell) :
  columns df = required_cols ->
  getitem df "Date" = Ok dates ->
  getitem df "Amount" = Ok amounts ->
  is_datetime64_any_dtype dates = true ->
  monthly_amounts pd now df =
    Ok (map fst (filter snd (combine amounts (map (in_month now) dates)))).
Proof.
  intros Hcols Hd Ha Hdt. unfold monthly_amounts.
  rewrite (empty_no_rows df Hcols).
  destruct (rows df) as [|r rs] eqn:Hr; cbn [negb].
  - pose proof (getitem_length _ _ Ha) as Hl. rewrite Hr in Hl.
    apply length_zero_iff_nil in Hl. subst amounts. reflexivity.
  - rewrite Hd. cbn [rbind].
    rewrite (to_datetime_ok pd dates (datetime_is_datelike dates Hdt)). cbn [rbind].
    rewrite (coerce_datetime_id pd dates Hdt).
    rewrite (setitem_getitem_id df "Date" Hd). rewrite Hd. cbn [rbind].
    now rewrite (getitem_select df "Amount" (s := amounts) _ Ha).
Qed.

Lemma combine_app {A B} (l1 l2 : list A) (m1 m2 : list B) :
  List.length l1 = List.length m1 ->
  combine (l1 ++ l2) (m1 ++ m2) = combine l1 m1 ++ combine l2 m2.
Proof.
  revert m1. induction l1 as [|x l1 IH]; intros [|y m1] H; simpl in *;
    try discriminate; [reflexivity|].
  f_equal. apply IH. lia.
Qed.

(** X19. In a ledger with the columns Date, Category, Amount,
    Description whose dates are dates (as when every record was added on
    the Add Expense page), the amounts the Home page adds up for the
    month after an expense was added are the amounts it added up
    before, in the same order, followed by the new amount exactly when
    the expense is dated in the current month and year.  In exact
    arithmetic (the amounts are rationals here; the rounding of float64
    sums is outside the statement) the sum of the month, where it could
    be computed before, rises by the new amount in that case and keeps
    its value otherwise. *)
Theorem add_expense_counts_in_its_month (pd : pandas) (now d : date)
    (category : string) (amount : Q) (description : string) (s : session_state) :
  columns (expenses s) = required_cols ->
  column_ok (expenses s) "Date"
    (fun c => match c with Timestamp _ | NaN => true | _ => false end) = true ->
  let s' := state_after (add_expense d category amount description s) in
  let added := if in_month now (Timestamp d) then [Float amount] else [] in
  exists cells,
    monthly_amounts pd now (expenses s) = Ok cells /\
    monthly_amounts pd now (expenses s') = Ok (cells ++ added) /\
    monthly_expenses pd now (expenses s) = series_sum cells /\
    monthly_expenses pd now (expenses s') = series_sum (cells ++ added) /\
    (forall used, series_sum cells = Ok used ->
       exists used',
         series_sum (cells ++ added) = Ok used' /\
         (used' == used + (if in_month now (Timestamp d) then amount else 0))%Q).
Proof.
  intros Hcols Hdt. cbv zeta.
  assert (Hid : index_of "Date" required_cols = Some 0%nat) by reflexivity.
  assert (Hia : index_of "Amount" required_cols = Some 2%nat) by reflexivity.
  set (dates := map (fun r => nth 0 r NaN) (rows (expenses s))).
  set (amounts := map (fun r => nth 2 r NaN) (rows (expenses s))).
  assert (Hd : getitem (expenses s) "Date" = Ok dates).
  { unfold getitem. now rewrite Hcols, Hid. }
  assert (Ha : getitem (expenses s) "Amount" = Ok amounts).
  { unfold getitem. now rewrite Hcols, Hia. }
  unfold column_ok in Hdt. rewrite Hd in Hdt.
  change (is_datetime64_any_dtype dates = true) in Hdt.
  rewrite !monthly_expenses_sum.
  rewrite (monthly_amounts_dated pd now _ Hcols Hd Ha Hdt).
  rewrite add_expense_run by (rewrite Hcols; reflexivity).
  unfold state_after. cbn [fst snd with_expenses expenses]. rewrite Hcols.
  set (df' := mkframe required_cols
                (rows (expenses s) ++ [expense_row (d, category, amount, description)])).
  assert (Hd' : getitem df' "Date" = Ok (dates ++ [Timestamp d])).
  { unfold df'. now rewrite (@getitem_app required_cols _ _ "Date" 0%nat Hid). }
  assert (Ha' : getitem df' "Amount" = Ok (amounts ++ [Float amount])).
  { unfold df'. now rewrite (@getitem_app required_cols _ _ "Amount" 2%nat Hia). }
  assert (Hdt' : is_datetime64_any_dtype (dates ++ [Timestamp d]) = true).
  { unfold is_datetime64_any_dtype in *. rewrite forallb_app, Hdt. reflexivity. }
  rewrite (monthly_amounts_dated pd now df' eq_refl Hd' Ha' Hdt').
  rewrite map_app, combine_app by (unfold dates, amounts; now rewrite !length_map).
  rewrite filter_app, map_app.
  set (cells := map fst (filter snd (combine amounts (map (in_month now) dates)))).
  assert (Hadded :
    map fst (filter snd (combine [Float amount] (map (in_month now) [Timestamp d]))) =
    if in_month now (Timestamp d) then [Float amount] else []).
  { cbn [map combine filter snd]. now destruct (in_month now (Timestamp d)). }
  rewrite Hadded. exists cells. cbn [rbind].
  split; [reflexivity|]. split; [reflexivity|].
  split; [reflexivity|]. split; [reflexivity|].
  intros used Hused. unfold series_sum in *.
  destruct (rmap as_number cells) as [qs|e] eqn:E; [|discriminate].
  cbn [rbind] in Hused. injection Hused as <-.
  rewrite (@rmap_app _ _ as_number _ _ qs E).
  destruct (in_month now (Timestamp d)); cbn [map rmap rbind as_number].
  - eexists. split; [reflexivity|]. rewrite Qsum_app. simpl. ring.
  - eexists. split; [reflexivity|]. rewrite Qsum_app. simpl. ring.
Qed.

Lemma add_expense_counts_in_its_month_witness :
  exists cells,
    monthly_amounts iso_pandas jan15 (expenses two_added_session) = Ok cells /\
    monthly_amounts iso_pandas jan15
      (expenses (state_after
         (add_expense (mkdate 2025 1 20) "Food" (7 # 1) "Dinner" two_added_session))) =
      Ok (cells ++ (if in_month jan15 (Timestamp (mkdate 2025 1 20))
                    then [Float (7 # 1)] else [])) /\
    monthly_expenses iso_pandas jan15 (expenses two_added_session) = series_sum cells /\
    monthly_expenses iso_pandas jan15
      (expenses (state_after
         (add_expense (mkdate 2025 1 20) "Food" (7 # 1) "Dinner" two_added_session))) =
      series_sum (cells ++ (if in_month jan15 (Timestamp (mkdate 2025 1 20))
                            then [Float (7 # 1)] else [])) /\
    (forall used, series_sum cells = Ok used ->
       exists used',
         series_sum (cells ++ (if in_month jan15 (Timestamp (mkdate 2025 1 20))
                               then [Float (7 # 1)] else [])) = Ok used' /\
         (used' == used + (if in_month jan15 (Timestamp (mkdate 2025 1 20))
                           then 7 # 1 else 0))%Q).
Proof.
  apply (add_expense_counts_in_its_month iso_pandas jan15 (mkdate 2025 1 20) "Food" (7 # 1)
           "Dinner" two_added_session); reflexivity.
Defined.

(* ===================================================================== *)
(** * The View Expenses page: table, upload and Save in one run *)
(* ===================================================================== *)

(** What the page renders before it looks at the upload. *)
Lemma view_page_start (pd : pandas) (now : date) (uploaded_file : option csv_file)
    (save : bool) (s : session_state) :
  show_page pd now (ViewExpenses uploaded_file save) s =
    let shown :=
      (if empty (expenses s)
       then [st_info "No expense data available. Load sample data or add expenses!"]
       else []) ++ [st_dataframe (expenses s)] in
    let rest := (load_expenses_from_file pd uploaded_file ;;
                 when save (save_expenses_to_file pd)) s in
    (outcome rest, state_after rest, shown ++ rendered rest).
Proof.
  cbn [show_page]. unfold bind at 1 2 3, get, when at 1, emit at 1 2, ret.
  unfold outcome, state_after, rendered.
  destruct (empty (expenses s)); cbn [fst snd app];
    destruct ((load_expenses_from_file pd uploaded_file ;;
               when save (save_expenses_to_file pd)) s) as [[r s2] out];
    reflexivity.
Qed.

(** X20. On the View Expenses page the table is rendered before the
    upload is imported.  With a readable file that has the four columns
    and at least one record in the uploader and Save pressed, the run
    shows the ledger as it was before the import, then replaces the
    ledger by the file's table, and writes that new table, not the one
    shown, to expenses.csv. *)
Theorem view_page_shows_ledger_before_import (pd : pandas) (now : date)
    (file : csv_file) (df : DataFrame) (s : session_state) :
  read_csv pd file = Ok df ->
  issubset required_cols (columns df) = true ->
  empty df = false ->
  exists notice,
    show_page pd now (ViewExpenses (Some file) true) s =
      (Ok tt, with_expenses df s,
       notice ++
       [st_dataframe (expenses s);
        st_success "Expenses loaded successfully!";
        file_written "expenses.csv" (to_csv pd df);
        st_success "Expenses saved to 'expenses.csv'!"]) /\
    (forall e, In e notice -> exists msg, e = st_info msg).
Proof.
  intros Hdf Hsub Hne. rewrite view_page_start. cbv zeta.
  assert (Hrest : (load_expenses_from_file pd (Some file) ;;
                   when true (save_expenses_to_file pd)) s =
                  (Ok tt, with_expenses df s,
                   [st_success "Expenses loaded successfully!";
                    file_written "expenses.csv" (to_csv pd df);
                    st_success "Expenses saved to 'expenses.csv'!"])).
  { unfold load_expenses_from_file, save_expenses_to_file, when, bind, lift, get, emit,
      set_expenses. rewrite Hdf, Hsub. cbn [expenses with_expenses fst snd app].
    rewrite Hne. reflexivity. }
  rewrite Hrest. unfold outcome, state_after, rendered. cbn [fst snd].
  eexists. split.
  - rewrite <- app_assoc. reflexivity.
  - intros e He. destruct (empty (expenses s)); [|contradiction].
    destruct He as [<-|[]]. eauto.
Qed.

Lemma view_page_shows_ledger_before_import_witness :
  exists notice,
    show_page iso_pandas jan15 (ViewExpenses (Some file_reordered) true) sample_session =
      (Ok tt, with_expenses (expenses reordered_session) sample_session,
       notice ++
       [st_dataframe (expenses sample_session);
        st_success "Expenses loaded successfully!";
        file_written "expenses.csv" (to_csv iso_pandas (expenses reordered_session));
        st_success "Expenses saved to 'expenses.csv'!"]) /\
    (forall e, In e notice -> exists msg, e = st_info msg).
Proof.
  apply (@view_page_shows_ledger_before_import iso_pandas jan15 file_reordered
           (expenses reordered_session) sample_session); reflexivity.
Defined.

(** X21. A file that cannot be read is not reported through
    [st.error]: the exception of [read_csv] leaves the import and ends
    the run.  On the View Expenses page the table has been rendered by
    then, nothing else is, Save is not carried out although pressed, and
    the session state stays as it was. *)
Theorem unreadable_upload_ends_the_run (pd : pandas) (now : date)
    (file : csv_file) (e : exn) (save : bool) (s : session_state) :
  read_csv pd file = Raise e ->
  load_expenses_from_file pd (Some file) s = (Raise e, s, []) /\
  outcome (show_page pd now (ViewExpenses (Some file) save) s) = Raise e /\
  state_after (show_page pd now (ViewExpenses (Some file) save) s) = s /\
  (forall x, In x (rendered (show_page pd now (ViewExpenses (Some file) save) s)) ->
             x = st_dataframe (expenses s) \/ exists msg, x = st_info msg).
Proof.
  intros Hfile.
  assert (Hload : load_expenses_from_file pd (Some file) s = (Raise e, s, [])).
  { unfold load_expenses_from_file, bind, lift. now rewrite Hfile. }
  split; [exact Hload|].
  rewrite view_page_start. cbv zeta.
  assert (Hrest : (load_expenses_from_file pd (Some file) ;;
                   when save (save_expenses_to_file pd)) s = (Raise e, s, [])).
  { unfold bind at 1. now rewrite Hload. }
  rewrite Hrest. unfold outcome, state_after, rendered. cbn [fst snd].
  split; [reflexivity|]. split; [reflexivity|].
  intros x Hx. rewrite app_nil_r in Hx. apply in_app_or in Hx as [Hx|[<-|[]]].
  - right. destruct (empty (expenses s)); [|contradiction].
    destruct Hx as [<-|[]]. eauto.
  - now left.
Qed.

Lemma unreadable_upload_ends_the_run_witness :
  let file := [ ["Date"; "Category"; "Amount"; "Description"];
                ["2025-01-01"; "Food"; "15.75"; "Lunch"];
                ["2025-01-02"; "Food"; "3.0"; "Tea"; "with milk"] ] in
  load_expenses_from_file iso_pandas (Some file) sample_session =
    (Raise ParserError, sample_session, []) /\
  outcome (show_page iso_pandas jan15 (ViewExpenses (Some file) true) sample_session) =
    Raise ParserError /\
  state_after (show_page iso_pandas jan15 (ViewExpenses (Some file) true) sample_session) =
    sample_session /\
  (forall x,
     In x (rendered (show_page iso_pandas jan15 (ViewExpenses (Some file) true)
                       sample_session)) ->
     x = st_dataframe (expenses sample_session) \/ exists msg, x = st_info msg).
Proof.
  intros file.
  apply (@unreadable_upload_ends_the_run iso_pandas jan15 file ParserError true
           sample_session).
  reflexivity.
Defined.
